(** * utron-edge-ai-ocr: the inference-stage pool allocator, the OCR
      pipeline and the error/recovery bookkeeping of the AI task

    Shallow embedding of [src/ai/ai_memory.c] and [src/tasks/ai_task.c].

    - [uint32_t] values are integers in [Z] with the wrap-around written
      out ([wrap32]); [float] values are IEEE-754 binary32 numbers, taken
      from the standard library's [SpecFloat] at precision 24 and maximal
      exponent 128.
    - The arena [ai_memory_pool_buffer] is a word-addressed memory: the
      allocator keeps its block headers inside the arena, and two headers
      can share words, so the model stores the header words themselves.
      Pointers are 32-bit addresses (the target is a 32-bit Cortex-M core),
      [NULL] is 0.
    - An access outside the arena, or one that is not word aligned, is
      undefined behaviour in C; the model stops with [Fault].  The two
      list walks of the allocator are loops the source does not bound;
      they take fuel and stop with [OutOfFuel] when it runs out. *)

From Stdlib Require Import ZArith List Lia Bool String Ascii.
From Stdlib Require Import Floats.SpecFloat.
Import ListNotations.
Local Open Scope Z_scope.

(** ** Machine words *)

Definition wrap32 (z : Z) : Z := z mod 4294967296.

Definition UINT32_MAX : Z := 4294967295.

(** ** Outcome of a run *)

Inductive outcome (A : Type) : Type :=
| Ok (a : A)
| Fault
| OutOfFuel.

Arguments Ok {A} a.
Arguments Fault {A}.
Arguments OutOfFuel {A}.

Definition bind {A B : Type} (m : outcome A) (k : A -> outcome B) : outcome B :=
  match m with
  | Ok a => k a
  | Fault => Fault
  | OutOfFuel => OutOfFuel
  end.

Notation "x <- m ;; k" := (bind m (fun x => k))
  (at level 61, m at next level, right associativity).

(** ** ai_memory.c: the pool allocator *)

Module AiMemory.

Definition NULL : Z := 0.
Definition MEMORY_MAGIC : Z := 2882400001.  (* 0xABCDEF01 *)
Definition MEMORY_ALIGN : Z := 8.
Definition NPU_MAX_MEMORY_BYTES : Z := 2621440.
Definition AI_MEMORY_POOL_SIZE : Z := NPU_MAX_MEMORY_BYTES.

(** [sizeof(memory_block_t)] with 32-bit pointers: [magic], [size],
    [timestamp] and [next] are one word each, the flexible array member
    [data] adds nothing. *)
Definition sizeof_memory_block_t : Z := 16.
Definition off_magic : Z := 0.
Definition off_size : Z := 4.
Definition off_timestamp : Z := 8.
Definition off_next : Z := 12.

Record ai_memory_pool_t : Type := mkPool {
  pool_start : Z;
  pool_end : Z;
  pool_size : Z;
  allocated_size : Z;
  peak_usage : Z;
  allocation_count : Z;
  free_count : Z;
  leak_count : Z
}.

(** The allocator's globals: [ai_pool], the list head [allocated_blocks]
    and the words of [ai_memory_pool_buffer], addressed by byte address. *)
Record heap : Type := mkHeap {
  ai_pool : ai_memory_pool_t;
  allocated_blocks : Z;
  buffer_base : Z;
  ram : Z -> Z
}.

Definition set_pool (h : heap) (p : ai_memory_pool_t) : heap :=
  mkHeap p (allocated_blocks h) (buffer_base h) (ram h).

Definition set_allocated_blocks (h : heap) (b : Z) : heap :=
  mkHeap (ai_pool h) b (buffer_base h) (ram h).

Definition set_allocated_size (p : ai_memory_pool_t) (v : Z) : ai_memory_pool_t :=
  mkPool (pool_start p) (pool_end p) (pool_size p) v (peak_usage p)
         (allocation_count p) (free_count p) (leak_count p).

Definition set_peak_usage (p : ai_memory_pool_t) (v : Z) : ai_memory_pool_t :=
  mkPool (pool_start p) (pool_end p) (pool_size p) (allocated_size p) v
         (allocation_count p) (free_count p) (leak_count p).

Definition set_allocation_count (p : ai_memory_pool_t) (v : Z) : ai_memory_pool_t :=
  mkPool (pool_start p) (pool_end p) (pool_size p) (allocated_size p) (peak_usage p)
         v (free_count p) (leak_count p).

Definition set_free_count (p : ai_memory_pool_t) (v : Z) : ai_memory_pool_t :=
  mkPool (pool_start p) (pool_end p) (pool_size p) (allocated_size p) (peak_usage p)
         (allocation_count p) v (leak_count p).

Definition set_leak_count (p : ai_memory_pool_t) (v : Z) : ai_memory_pool_t :=
  mkPool (pool_start p) (pool_end p) (pool_size p) (allocated_size p) (peak_usage p)
         (allocation_count p) (free_count p) v.

(** A word access is defined when it is aligned and inside the arena. *)
Definition in_buffer (h : heap) (a : Z) : bool :=
  (buffer_base h <=? a) && (a + 4 <=? buffer_base h + AI_MEMORY_POOL_SIZE)
  && (a mod 4 =? 0).

Definition load (h : heap) (a : Z) : outcome Z :=
  if in_buffer h a then Ok (ram h a) else Fault.

Definition store (h : heap) (a v : Z) : outcome heap :=
  if in_buffer h a
  then Ok (mkHeap (ai_pool h) (allocated_blocks h) (buffer_base h)
                  (fun x => if x =? a then v else ram h x))
  else Fault.

(** [ai_memory_init]: the counters are reset, the arena's contents are
    left as they are. *)
Definition ai_memory_init (h : heap) : Z * heap :=
  (0,
   mkHeap (mkPool (buffer_base h) (buffer_base h + AI_MEMORY_POOL_SIZE)
                  AI_MEMORY_POOL_SIZE 0 0 0 0 0)
          NULL (buffer_base h) (ram h)).

(** [(size + MEMORY_ALIGN - 1) & ~(MEMORY_ALIGN - 1)] on [uint32_t]. *)
Definition align_size (size : Z) : Z :=
  Z.land (wrap32 (size + MEMORY_ALIGN - 1)) (wrap32 (Z.lnot (MEMORY_ALIGN - 1))).

(** [ai_memory_alloc]; [tick] is what [hal_get_tick()] returns. *)
Definition ai_memory_alloc (tick size : Z) (h : heap) : outcome (Z * heap) :=
  if size =? 0 then Ok (NULL, h) else
  let size := align_size size in
  let total_size := wrap32 (sizeof_memory_block_t + size) in
  let p := ai_pool h in
  if wrap32 (allocated_size p + total_size) >? pool_size p then Ok (NULL, h) else
  let block := pool_start p + allocated_size p in
  h1 <- store h (block + off_magic) MEMORY_MAGIC ;;
  h2 <- store h1 (block + off_size) size ;;
  h3 <- store h2 (block + off_timestamp) tick ;;
  h4 <- store h3 (block + off_next) (allocated_blocks h3) ;;
  let h5 := set_allocated_blocks h4 block in
  let p1 := set_allocated_size p (wrap32 (allocated_size p + total_size)) in
  let p2 := set_allocation_count p1 (wrap32 (allocation_count p1 + 1)) in
  let p3 := if allocated_size p2 >? peak_usage p2
            then set_peak_usage p2 (allocated_size p2) else p2 in
  Ok (block + sizeof_memory_block_t, set_pool h5 p3).

(** The walk [while (current && current->next != block)] of
    [ai_memory_free]; the result is the value of [current] at loop exit. *)
Fixpoint find_predecessor (fuel : nat) (h : heap) (current block : Z) : outcome Z :=
  match fuel with
  | O => OutOfFuel
  | S fuel' =>
      if current =? NULL then Ok NULL else
      n <- load h (current + off_next) ;;
      if n =? block then Ok current else find_predecessor fuel' h n block
  end.

Definition bump_leak_count (h : heap) : heap :=
  set_pool h (set_leak_count (ai_pool h) (wrap32 (leak_count (ai_pool h) + 1))).

(** The tail of [ai_memory_free] after the block has been unlinked. *)
Definition release_block (h : heap) (block : Z) : outcome heap :=
  bsize <- load h (block + off_size) ;;
  let total_size := wrap32 (sizeof_memory_block_t + bsize) in
  let p := ai_pool h in
  let p1 := set_allocated_size p (wrap32 (allocated_size p - total_size)) in
  let p2 := set_free_count p1 (wrap32 (free_count p1 + 1)) in
  store (set_pool h p2) (block + off_magic) 0.

Definition ai_memory_free (fuel : nat) (ptr : Z) (h : heap) : outcome heap :=
  if ptr =? NULL then Ok h else
  let block := ptr - sizeof_memory_block_t in
  magic <- load h (block + off_magic) ;;
  if negb (magic =? MEMORY_MAGIC) then Ok (bump_leak_count h) else
  if allocated_blocks h =? block then
    n <- load h (block + off_next) ;;
    release_block (set_allocated_blocks h n) block
  else
    current <- find_predecessor fuel h (allocated_blocks h) block ;;
    if current =? NULL then Ok (bump_leak_count h) else
    n <- load h (block + off_next) ;;
    h1 <- store h (current + off_next) n ;;
    release_block h1 block.

Definition ai_memory_get_stats (h : heap) : Z * Z * Z :=
  (allocated_size (ai_pool h),
   wrap32 (pool_size (ai_pool h) - allocated_size (ai_pool h)),
   peak_usage (ai_pool h)).

(** The loop of [ai_memory_check_leaks]: [count] is the local
    [leak_count], [now] the value read from [hal_get_tick()]. *)
Fixpoint count_stale (fuel : nat) (h : heap) (current now count : Z) : outcome Z :=
  match fuel with
  | O => OutOfFuel
  | S fuel' =>
      if current =? NULL then Ok count else
      ts <- load h (current + off_timestamp) ;;
      let count' := if wrap32 (now - ts) >? 30000 then wrap32 (count + 1) else count in
      n <- load h (current + off_next) ;;
      count_stale fuel' h n now count'
  end.

Definition ai_memory_check_leaks (fuel : nat) (now : Z) (h : heap) : outcome (Z * heap) :=
  n <- count_stale fuel h (allocated_blocks h) now 0 ;;
  Ok (n, set_pool h (set_leak_count (ai_pool h) (wrap32 (leak_count (ai_pool h) + n)))).

(** The program's start: static storage is zero-initialised; the arena
    lies at address [base]. *)
Definition boot (base : Z) : heap :=
  mkHeap (mkPool 0 0 0 0 0 0 0 0) NULL base (fun _ => 0).

Definition fresh (base : Z) : heap := snd (ai_memory_init (boot base)).

(** The payload of a block is the [size] bytes after its header. *)
Definition payload_overlap (p1 s1 p2 s2 : Z) : bool :=
  (p1 <? p2 + s2) && (p2 <? p1 + s1).

End AiMemory.

(** ** C [float]: IEEE-754 binary32 *)

Module F32.

Definition prec : Z := 24.
Definition emax : Z := 128.

Definition float : Type := spec_float.

Definition zero : float := S754_zero false.

(** Conversion of an integer to [float] (round to nearest, ties to even). *)
Definition of_Z (n : Z) : float := binary_normalize prec emax n 0 false.

Definition add : float -> float -> float := SFadd prec emax.
Definition mul : float -> float -> float := SFmul prec emax.
Definition div : float -> float -> float := SFdiv prec emax.

(** C's [a < b] and [a <= b]; both are false when an operand is a NaN. *)
Definition ltb : float -> float -> bool := SFltb.
Definition leb : float -> float -> bool := SFleb.

(** The decimal literal [n/100] written with an [f] suffix: the binary32
    number nearest to it. *)
Definition percent (n : Z) : float := div (of_Z n) (of_Z 100).

Definition half : float := percent 50.                (* 0.5f  *)

End F32.

(** ** ai_task.h: data of the AI task *)

Module AiTask.

Import AiMemory.

Definition OCR_INPUT_WIDTH : Z := 320.
Definition OCR_INPUT_HEIGHT : Z := 240.
Definition OCR_MAX_TEXT_LENGTH : Z := 256.
Definition CAMERA_WIDTH : Z := 640.
Definition CAMERA_HEIGHT : Z := 480.
Definition AI_MODEL_COUNT : nat := 3.

Definition AI_ERROR_NONE : Z := 0.
Definition AI_ERROR_INIT_FAILED : Z := -1.
Definition AI_ERROR_MODEL_LOAD_FAILED : Z := -2.
Definition AI_ERROR_INFERENCE_TIMEOUT : Z := -3.
Definition AI_ERROR_MEMORY_ALLOC_FAILED : Z := -4.
Definition AI_ERROR_INPUT_INVALID : Z := -5.
Definition AI_ERROR_NPU_ERROR : Z := -6.
Definition AI_ERROR_CONFIDENCE_TOO_LOW : Z := -7.
Definition AI_ERROR_RECOVERY_FAILED : Z := -8.

(** The success status of the accelerator runtime, whose header is not
    part of the repository; the repository's own [neural_art_inference]
    returns 0 on success. *)
Definition NEURAL_ART_SUCCESS : Z := 0.
Definition TASK_ID_AI_TASK : Z := 2.

Inductive ai_state_t : Type :=
| AI_STATE_IDLE
| AI_STATE_LOADING
| AI_STATE_READY
| AI_STATE_INFERENCING
| AI_STATE_POSTPROCESSING
| AI_STATE_ERROR.

Inductive ai_precision_t : Type :=
| AI_PRECISION_INT8
| AI_PRECISION_INT16
| AI_PRECISION_FLOAT32.

Inductive error_severity_t : Type :=
| ERROR_SEVERITY_INFO
| ERROR_SEVERITY_WARNING
| ERROR_SEVERITY_ERROR
| ERROR_SEVERITY_CRITICAL
| ERROR_SEVERITY_FATAL.

(** [text] holds the C string (the characters before the first NUL). *)
Record ocr_result_t : Type := mkResult {
  text : string;
  confidence : F32.float;
  char_count : Z;
  word_count : Z;
  bbox_count : Z;
  result_timestamp : Z;
  language_detected : Z
}.

Record text_bbox_t : Type := mkBox {
  box_x : Z;
  box_y : Z;
  box_width : Z;
  box_height : Z;
  box_confidence : F32.float;
  text_direction : Z
}.

Record ai_performance_stats_t : Type := mkStats {
  total_inferences : Z;
  successful_inferences : Z;
  failed_inferences : Z;
  min_inference_time_us : Z;
  max_inference_time_us : Z;
  avg_inference_time_us : Z;
  last_inference_time_us : Z;
  current_memory_usage : Z;
  peak_memory_usage : Z;
  memory_leaks_detected : Z;
  avg_confidence_score : F32.float;
  low_confidence_count : Z;
  character_accuracy : Z
}.

Record ai_task_config_t : Type := mkConfig {
  precision_mode : ai_precision_t;
  enable_preprocessing : Z;
  enable_postprocessing : Z;
  confidence_threshold : F32.float;
  config_max_inference_time_us : Z;   (* [config.max_inference_time_us] *)
  debug_enabled : Z
}.

(** [ai_task_context_t], without the buffer pointers that no modelled
    function reads; of [models] the runtime handle of slot 0 and the
    [loaded] flags are kept. *)
Record ai_task_context_t : Type := mkContext {
  current_state : ai_state_t;
  config : ai_task_config_t;
  npu_handle : Z;
  models_loaded : list bool;
  stats : ai_performance_stats_t;
  error_code : Z;
  consecutive_errors : Z;
  recovery_needed : Z
}.

(** A camera frame; [data] is the buffer as the preprocessing reads it,
    one [uint16_t] per index, and [size] its length in bytes. *)
Record frame_buffer_t : Type := mkFrame {
  data : Z -> Z;
  size : Z;
  frame_timestamp : Z;
  ready : Z
}.

Record log_entry : Type := mkLog {
  log_severity : error_severity_t;
  log_task : Z;
  log_code : Z;
  log_context : Z
}.

(** The AI task's view of the system: the allocator, [ai_context], and the
    calls it has made to its collaborators, oldest first:
    [audio_queue_ocr_result] ([audio_queue]), [system_log_error]
    ([error_log]) and the number of times [ai_recovery_attempt] was
    entered ([recovery_attempts]). *)
Record system : Type := mkSystem {
  mem : heap;
  ai_context : ai_task_context_t;
  audio_queue : list ocr_result_t;
  error_log : list log_entry;
  recovery_attempts : nat
}.

Definition set_mem (s : system) (h : heap) : system :=
  mkSystem h (ai_context s) (audio_queue s) (error_log s) (recovery_attempts s).

Definition set_context (s : system) (c : ai_task_context_t) : system :=
  mkSystem (mem s) c (audio_queue s) (error_log s) (recovery_attempts s).

Definition set_stats (c : ai_task_context_t) (st : ai_performance_stats_t)
  : ai_task_context_t :=
  mkContext (current_state c) (config c) (npu_handle c) (models_loaded c) st
            (error_code c) (consecutive_errors c) (recovery_needed c).

Definition set_current_state (c : ai_task_context_t) (v : ai_state_t)
  : ai_task_context_t :=
  mkContext v (config c) (npu_handle c) (models_loaded c) (stats c)
            (error_code c) (consecutive_errors c) (recovery_needed c).

Definition set_errors (c : ai_task_context_t) (code count needed : Z)
  : ai_task_context_t :=
  mkContext (current_state c) (config c) (npu_handle c) (models_loaded c) (stats c)
            code count needed.

Definition set_models (c : ai_task_context_t) (handle : Z) (loaded : list bool)
  : ai_task_context_t :=
  mkContext (current_state c) (config c) handle loaded (stats c)
            (error_code c) (consecutive_errors c) (recovery_needed c).

Definition system_log_error (sev : error_severity_t) (task code context : Z)
  (s : system) : system :=
  mkSystem (mem s) (ai_context s) (audio_queue s)
           (error_log s ++ [mkLog sev task (wrap32 code) (wrap32 context)])
           (recovery_attempts s).

Definition audio_queue_ocr_result (r : ocr_result_t) (s : system) : system :=
  mkSystem (mem s) (ai_context s) (audio_queue s ++ [r]) (error_log s)
           (recovery_attempts s).

(** What lies outside the repository, for one frame: the values the tick
    counter returns, the status of each accelerator run, and what the
    accelerator's output decodes to.  The source has placeholders where
    the decoding belongs (one fixed box, the text "Sample Text" with
    confidence 0.92f); [demo_accelerator] below is that instance. *)
Record accelerator : Type := mkAccel {
  tick_result : Z;
  tick_preprocessed : Z;
  tick_detection : Z;
  tick_region : nat -> Z;
  detection_status : Z;
  detection_boxes : list text_bbox_t;
  recognition_status : nat -> Z;
  recognition_text : nat -> string;
  recognition_confidence : nat -> F32.float;
  tts_detect_language : string -> Z
}.

Definition demo_box : text_bbox_t :=
  mkBox (OCR_INPUT_WIDTH / 4) (OCR_INPUT_HEIGHT / 4)
        (OCR_INPUT_WIDTH / 2) (OCR_INPUT_HEIGHT / 4) (F32.percent 90) 0.

Definition demo_accelerator (tick : Z) (detect_status : Z)
  (recognize_status : nat -> Z) (lang : string -> Z) : accelerator :=
  mkAccel tick tick tick (fun _ => tick) detect_status [demo_box]
          recognize_status (fun _ => "Sample Text"%string)
          (fun _ => F32.percent 92) lang.

(** ** ai_memory.c: performance statistics *)

Definition ai_stats_reset (c : ai_task_context_t) : ai_task_context_t :=
  set_stats c (mkStats 0 0 0 UINT32_MAX 0 0 0 0 0 0 F32.zero 0 0).

Definition ai_stats_update_timing (inference_time_us : Z) (c : ai_task_context_t)
  : ai_task_context_t :=
  let st := stats c in
  let mn := if inference_time_us <? min_inference_time_us st
            then inference_time_us else min_inference_time_us st in
  let mx := if inference_time_us >? max_inference_time_us st
            then inference_time_us else max_inference_time_us st in
  let avg := if successful_inferences st >? 0
             then wrap32 (wrap32 (avg_inference_time_us st
                                  * wrap32 (successful_inferences st - 1))
                          + inference_time_us)
                  / successful_inferences st
             else inference_time_us in
  set_stats c
    (mkStats (total_inferences st) (successful_inferences st) (failed_inferences st)
             mn mx avg inference_time_us
             (current_memory_usage st) (peak_memory_usage st)
             (memory_leaks_detected st) (avg_confidence_score st)
             (low_confidence_count st) (character_accuracy st)).

Definition ai_stats_update_quality (conf : F32.float) (accuracy : Z)
  (c : ai_task_context_t) : ai_task_context_t :=
  let st := stats c in
  let avg := if successful_inferences st >? 0
             then F32.div
                    (F32.add (F32.mul (avg_confidence_score st)
                                      (F32.of_Z (wrap32 (successful_inferences st - 1))))
                             conf)
                    (F32.of_Z (successful_inferences st))
             else conf in
  let low := if F32.ltb conf (confidence_threshold (config c))
             then wrap32 (low_confidence_count st + 1)
             else low_confidence_count st in
  set_stats c
    (mkStats (total_inferences st) (successful_inferences st) (failed_inferences st)
             (min_inference_time_us st) (max_inference_time_us st)
             (avg_inference_time_us st) (last_inference_time_us st)
             (current_memory_usage st) (peak_memory_usage st)
             (memory_leaks_detected st) avg low accuracy).

Definition bump_low_confidence (c : ai_task_context_t) : ai_task_context_t :=
  let st := stats c in
  set_stats c
    (mkStats (total_inferences st) (successful_inferences st) (failed_inferences st)
             (min_inference_time_us st) (max_inference_time_us st)
             (avg_inference_time_us st) (last_inference_time_us st)
             (current_memory_usage st) (peak_memory_usage st)
             (memory_leaks_detected st) (avg_confidence_score st)
             (wrap32 (low_confidence_count st + 1)) (character_accuracy st)).

Definition bump_failed_inferences (c : ai_task_context_t) : ai_task_context_t :=
  let st := stats c in
  set_stats c
    (mkStats (total_inferences st) (successful_inferences st)
             (wrap32 (failed_inferences st + 1))
             (min_inference_time_us st) (max_inference_time_us st)
             (avg_inference_time_us st) (last_inference_time_us st)
             (current_memory_usage st) (peak_memory_usage st)
             (memory_leaks_detected st) (avg_confidence_score st)
             (low_confidence_count st) (character_accuracy st)).

(** The statistics update at the end of [ocr_process_frame]. *)
Definition count_inference (recognized_regions : Z) (c : ai_task_context_t)
  : ai_task_context_t :=
  let st := stats c in
  set_stats c
    (mkStats (wrap32 (total_inferences st + 1))
             (if recognized_regions >? 0
              then wrap32 (successful_inferences st + 1)
              else successful_inferences st)
             (if recognized_regions >? 0
              then failed_inferences st
              else wrap32 (failed_inferences st + 1))
             (min_inference_time_us st) (max_inference_time_us st)
             (avg_inference_time_us st) (last_inference_time_us st)
             (current_memory_usage st) (peak_memory_usage st)
             (memory_leaks_detected st) (avg_confidence_score st)
             (low_confidence_count st) (character_accuracy st)).

End AiTask.

(** ** ai_task.c: the OCR pipeline *)

Module Ocr.

Import AiMemory AiTask.

(** C strings: [strlen], the bounded copy of [strncpy]/[strncat], and the
    space count of the word counter. *)
Definition strlen (s : string) : Z := Z.of_nat (String.length s).

Fixpoint take (n : nat) (s : string) : string :=
  match n, s with
  | S n', String c s' => String c (take n' s')
  | _, _ => EmptyString
  end.

Fixpoint count_spaces (s : string) : Z :=
  match s with
  | EmptyString => 0
  | String c s' => (if Ascii.eqb c " "%char then 1 else 0) + count_spaces s'
  end.

(** [src[i]]; reading outside the frame's [size] bytes is undefined. *)
Definition pixel_at (src : frame_buffer_t) (i : Z) : outcome Z :=
  if (0 <=? i) && (2 * i + 2 <=? size src) then Ok (data src i) else Fault.

(** The body of the two nested loops of [ocr_preprocess_image]: the value
    stored to [dst[y * OCR_INPUT_WIDTH + x]]. *)
Definition downsample_pixel (src : frame_buffer_t) (x y : Z) : outcome Z :=
  let src_x := x * 2 in
  let src_y := y * 2 in
  pixel1 <- pixel_at src (src_y * CAMERA_WIDTH + src_x) ;;
  pixel2 <- pixel_at src (src_y * CAMERA_WIDTH + src_x + 1) ;;
  pixel3 <- pixel_at src ((src_y + 1) * CAMERA_WIDTH + src_x) ;;
  pixel4 <- pixel_at src ((src_y + 1) * CAMERA_WIDTH + src_x + 1) ;;
  let avg_r := (Z.shiftr pixel1 11 + Z.shiftr pixel2 11
                + Z.shiftr pixel3 11 + Z.shiftr pixel4 11) / 4 in
  let avg_g := (Z.land (Z.shiftr pixel1 5) 63 + Z.land (Z.shiftr pixel2 5) 63
                + Z.land (Z.shiftr pixel3 5) 63 + Z.land (Z.shiftr pixel4 5) 63) / 4 in
  let avg_b := (Z.land pixel1 31 + Z.land pixel2 31
                + Z.land pixel3 31 + Z.land pixel4 31) / 4 in
  Ok (Z.lor (Z.lor (Z.shiftl avg_r 11) (Z.shiftl avg_g 5)) avg_b mod 65536).

(** [for (int x = x0; x < x0 + n; x++)] of one destination row. *)
Fixpoint preprocess_row (n : nat) (src : frame_buffer_t) (x y : Z) : outcome (list Z) :=
  match n with
  | O => Ok []
  | S n' =>
      v <- downsample_pixel src x y ;;
      vs <- preprocess_row n' src (x + 1) y ;;
      Ok (v :: vs)
  end.

(** [for (int y = y0; y < y0 + n; y++)]; the rows follow each other in
    [dst]. *)
Fixpoint preprocess_rows (n : nat) (src : frame_buffer_t) (y : Z) : outcome (list Z) :=
  match n with
  | O => Ok []
  | S n' =>
      row <- preprocess_row (Z.to_nat OCR_INPUT_WIDTH) src 0 y ;;
      rest <- preprocess_rows n' src (y + 1) ;;
      Ok (row ++ rest)
  end.

(** [ocr_preprocess_image]: the status and the pixels written to the
    output buffer; [None] is a NULL frame. *)
Definition ocr_preprocess_image (input_frame : option frame_buffer_t)
  : outcome (Z * list Z) :=
  match input_frame with
  | None => Ok (AI_ERROR_INPUT_INVALID, [])
  | Some f =>
      dst <- preprocess_rows (Z.to_nat OCR_INPUT_HEIGHT) f 0 ;;
      Ok (0, dst)
  end.

(** [ocr_detect_text]: status or box count, the boxes written to
    [bboxes], the allocator afterwards. *)
Definition ocr_detect_text (fuel : nat) (a : accelerator) (max_boxes : Z) (h : heap)
  : outcome (Z * list text_bbox_t * heap) :=
  r <- ai_memory_alloc (tick_detection a) 1024 h ;;
  let '(detection_output, h1) := r in
  if detection_output =? NULL then Ok (AI_ERROR_MEMORY_ALLOC_FAILED, [], h1) else
  if negb (detection_status a =? NEURAL_ART_SUCCESS) then
    h2 <- ai_memory_free fuel detection_output h1 ;;
    Ok (AI_ERROR_NPU_ERROR, [], h2)
  else
    let boxes := firstn (Z.to_nat max_boxes) (detection_boxes a) in
    h2 <- ai_memory_free fuel detection_output h1 ;;
    Ok (Z.of_nat (List.length boxes), boxes, h2).

Definition INT_MAX : Z := 2147483647.

(** [ocr_recognize_text] for region [i]: status, [text_output],
    [*confidence], the allocator afterwards.  The crop only moves pixels
    into the region buffer and is not represented. *)
Definition ocr_recognize_text (fuel : nat) (a : accelerator) (i : nat)
  (bbox : text_bbox_t) (h : heap) : outcome (Z * string * F32.float * heap) :=
  let bytes := box_width bbox * box_height bbox * 2 in
  if bytes >? INT_MAX then Fault else
  r <- ai_memory_alloc (tick_region a i) bytes h ;;
  let '(region_buffer, h1) := r in
  if region_buffer =? NULL then
    Ok (AI_ERROR_MEMORY_ALLOC_FAILED, EmptyString, F32.zero, h1)
  else if recognition_status a i =? NEURAL_ART_SUCCESS then
    h2 <- ai_memory_free fuel region_buffer h1 ;;
    Ok (0, take 63 (recognition_text a i), recognition_confidence a i, h2)
  else
    h2 <- ai_memory_free fuel region_buffer h1 ;;
    Ok (AI_ERROR_NPU_ERROR, EmptyString, F32.zero, h2).

(** The locals of the recognition loop of [ocr_process_frame]. *)
Record aggregate : Type := mkAggregate {
  combined_text : string;
  total_confidence : F32.float;
  recognized_regions : Z
}.

(** [strcat(combined_text, " ")] when the text is not empty, then
    [strncat] of the fragment; writing past the 256 bytes of
    [combined_text] is undefined. *)
Definition append_fragment (combined region_text : string) : outcome string :=
  c1 <- (if strlen combined >? 0
         then if strlen combined + 2 <=? OCR_MAX_TEXT_LENGTH
              then Ok (String.append combined " "%string) else Fault
         else Ok combined) ;;
  Ok (String.append c1 (take (Z.to_nat (OCR_MAX_TEXT_LENGTH - strlen c1 - 1)) region_text)).

(** C's [region_confidence > 0.5f]. *)
Definition region_accepted (status : Z) (region_confidence : F32.float) : bool :=
  (status =? 0) && F32.ltb F32.half region_confidence.

(** [for (int i = i0; i < detected_boxes && i < 16; i++)] over the boxes
    still to visit. *)
Fixpoint recognize_regions (fuel : nat) (a : accelerator) (i : nat)
  (boxes : list text_bbox_t) (acc : aggregate) (h : heap)
  : outcome (aggregate * heap) :=
  match boxes with
  | [] => Ok (acc, h)
  | bbox :: rest =>
      r <- ocr_recognize_text fuel a i bbox h ;;
      let '(processing_result, region_text, region_confidence, h1) := r in
      if region_accepted processing_result region_confidence then
        c <- append_fragment (combined_text acc) region_text ;;
        recognize_regions fuel a (S i) rest
          (mkAggregate c (F32.add (total_confidence acc) region_confidence)
                       (recognized_regions acc + 1)) h1
      else
        recognize_regions fuel a (S i) rest acc h1
  end.

(** Step 4 of [ocr_process_frame]. *)
Definition postprocess (a : accelerator) (acc : aggregate) (result : ocr_result_t)
  : ocr_result_t :=
  if recognized_regions acc >? 0 then
    let t := take (Z.to_nat (OCR_MAX_TEXT_LENGTH - 1)) (combined_text acc) in
    mkResult t
             (F32.div (total_confidence acc) (F32.of_Z (recognized_regions acc)))
             (strlen t)
             (1 + count_spaces t)
             (bbox_count result)
             (result_timestamp result)
             (tts_detect_language a t mod 256)
  else result.

(** [ocr_process_frame]: the return value, [*result] and the system
    afterwards.  [frame] is [None] for a NULL frame; [result] is the
    caller's object before the call. *)
Definition ocr_process_frame (fuel : nat) (a : accelerator)
  (frame : option frame_buffer_t) (result : ocr_result_t) (s : system)
  : outcome (Z * ocr_result_t * system) :=
  match frame with
  | None => Ok (AI_ERROR_INPUT_INVALID, result, s)
  | Some f =>
      if ready f =? 0 then Ok (AI_ERROR_INPUT_INVALID, result, s) else
      let result0 := mkResult EmptyString F32.zero 0 0 0 (tick_result a) 0 in
      r <- ai_memory_alloc (tick_preprocessed a)
                           (OCR_INPUT_WIDTH * OCR_INPUT_HEIGHT * 2) (mem s) ;;
      let '(preprocessed_image, h1) := r in
      if preprocessed_image =? NULL then
        Ok (AI_ERROR_MEMORY_ALLOC_FAILED, result0, set_mem s h1)
      else
        pp <- ocr_preprocess_image (Some f) ;;
        let '(processing_result, image) := pp in
        if negb (processing_result =? 0) then
          h2 <- ai_memory_free fuel preprocessed_image h1 ;;
          Ok (processing_result, result0, set_mem s h2)
        else
          d <- ocr_detect_text fuel a 16 h1 ;;
          let '(detected_boxes, text_boxes, h2) := d in
          if detected_boxes <? 0 then
            h3 <- ai_memory_free fuel preprocessed_image h2 ;;
            Ok (detected_boxes, result0, set_mem s h3)
          else
            let result1 := mkResult EmptyString F32.zero 0 0 detected_boxes (tick_result a) 0 in
            l <- recognize_regions fuel a 0 (firstn 16 text_boxes)
                                   (mkAggregate EmptyString F32.zero 0) h2 ;;
            let '(acc, h3) := l in
            let result2 := postprocess a acc result1 in
            h4 <- ai_memory_free fuel preprocessed_image h3 ;;
            Ok (0, result2,
                set_context (set_mem s h4)
                            (count_inference (recognized_regions acc) (ai_context s)))
  end.

End Ocr.

(** ** ai_task.c and ai_memory.c: error handling, recovery, the task loop *)

Module AiLoop.

Import AiMemory AiTask Ocr.

(** What a recovery attempt reads from the accelerator's runtime: the
    status of [neural_art_init], the handle [neural_art_get_handle]
    returns, the status of the two [neural_art_load_model] calls, and the
    tick read by the self-test's allocation.  [model_ready i] is the value
    [neural_art_is_model_ready] (ai_memory.c:385-388) has for slot [i]
    when the verification loop reaches it; it is computed from the fields
    [loaded], [model_data] and [model_size] of the slot, which the load
    calls write for the slot they are given.  The task makes load calls
    for the detection and the recognition slot only. *)
Record recovery_env : Type := mkRecoveryEnv {
  npu_init_status : Z;
  npu_new_handle : Z;
  load_detection_status : Z;
  load_recognition_status : Z;
  model_ready : nat -> bool;
  tick_self_test : Z
}.

Definition ai_neural_art_init_npu (e : recovery_env) (c : ai_task_context_t)
  : Z * ai_task_context_t :=
  if negb (npu_init_status e =? NEURAL_ART_SUCCESS) then (AI_ERROR_NPU_ERROR, c) else
  let c1 := set_models c (npu_new_handle e) (models_loaded c) in
  if npu_new_handle e =? NULL then (AI_ERROR_NPU_ERROR, c1) else (0, c1).

Fixpoint set_loaded (i : nat) (l : list bool) : list bool :=
  match i, l with
  | O, _ :: l' => true :: l'
  | S i', b :: l' => b :: set_loaded i' l'
  | _, [] => []
  end.

(** [for (int i = i0; i < AI_MODEL_COUNT; i++)] of [ai_load_ocr_models];
    [n] slots remain.  [model_ready e i] is the result of
    [neural_art_is_model_ready(&ai_context.models[i])]. *)
Fixpoint verify_models (e : recovery_env) (n i : nat) (loaded : list bool)
  : Z * list bool :=
  match n with
  | O => (0, loaded)
  | S n' =>
      if negb (model_ready e i) then (AI_ERROR_MODEL_LOAD_FAILED, loaded)
      else verify_models e n' (S i) (set_loaded i loaded)
  end.

Definition ai_load_ocr_models (e : recovery_env) (c : ai_task_context_t)
  : Z * ai_task_context_t :=
  if negb (load_detection_status e =? NEURAL_ART_SUCCESS)
  then (AI_ERROR_MODEL_LOAD_FAILED, c) else
  if negb (load_recognition_status e =? NEURAL_ART_SUCCESS)
  then (AI_ERROR_MODEL_LOAD_FAILED, c) else
  let '(r, loaded) := verify_models e AI_MODEL_COUNT 0 (models_loaded c) in
  (r, set_models c (npu_handle c) loaded).

(** [ai_self_test]; the outcome of [ai_stats_check_targets] only selects
    a debug message. *)
Definition ai_self_test (fuel : nat) (tick : Z) (s : system) : outcome (Z * system) :=
  if npu_handle (ai_context s) =? NULL then Ok (-1, s) else
  if negb (forallb (fun i => nth i (models_loaded (ai_context s)) false)
                   (seq 0 AI_MODEL_COUNT))
  then Ok (-2, s) else
  r <- ai_memory_alloc tick 1024 (mem s) ;;
  let '(test_buffer, h1) := r in
  if test_buffer =? NULL then Ok (-3, set_mem s h1) else
  h2 <- ai_memory_free fuel test_buffer h1 ;;
  Ok (0, set_mem s h2).

Definition enter_recovery (s : system) : system :=
  mkSystem (mem s)
           (set_errors (ai_context s) (error_code (ai_context s))
                       (consecutive_errors (ai_context s)) 1)
           (audio_queue s) (error_log s) (S (recovery_attempts s)).

Definition ai_recovery_attempt (fuel : nat) (e : recovery_env) (s : system)
  : outcome (Z * system) :=
  let s0 := enter_recovery s in
  let '(r1, c1) := ai_neural_art_init_npu e (ai_context s0) in
  if negb (r1 =? 0) then Ok (AI_ERROR_RECOVERY_FAILED, set_context s0 c1) else
  let '(r2, c2) := ai_load_ocr_models e c1 in
  if negb (r2 =? 0) then Ok (AI_ERROR_RECOVERY_FAILED, set_context s0 c2) else
  let c3 := set_errors c2 (wrap32 AI_ERROR_NONE) 0 0 in
  t <- ai_self_test fuel (tick_self_test e) (set_context s0 c3) ;;
  let '(r3, s3) := t in
  if negb (r3 =? 0) then Ok (AI_ERROR_RECOVERY_FAILED, s3) else Ok (0, s3).

Definition ai_handle_inference_error (fuel : nat) (e : recovery_env)
  (code : Z) (s : system) : outcome (Z * system) :=
  let c := ai_context s in
  let c1 := set_errors c (wrap32 code) (wrap32 (consecutive_errors c + 1))
                       (recovery_needed c) in
  let s1 := system_log_error ERROR_SEVERITY_ERROR TASK_ID_AI_TASK (wrap32 code)
                             (consecutive_errors c1) (set_context s c1) in
  if consecutive_errors c1 >? 5 then ai_recovery_attempt fuel e s1 else Ok (0, s1).

(** The branch [if (processing_result == 0) { ... }] of [ai_task_entry]. *)
Definition accept_result (ocr_result : ocr_result_t) (inference_time_us : Z)
  (s : system) : system :=
  let c1 := ai_stats_update_timing inference_time_us (ai_context s) in
  let c2 := ai_stats_update_quality (confidence ocr_result)
              (if char_count ocr_result >? 0 then 95 else 0) c1 in
  let s2 := set_context s c2 in
  let s3 := if F32.leb (confidence_threshold (config c2)) (confidence ocr_result)
            then audio_queue_ocr_result ocr_result s2
            else set_context s2 (bump_low_confidence c2) in
  if inference_time_us >? config_max_inference_time_us (config (ai_context s3))
  then system_log_error ERROR_SEVERITY_WARNING TASK_ID_AI_TASK
                        AI_ERROR_INFERENCE_TIMEOUT inference_time_us s3
  else s3.

(** What one pass of the task loop reads from outside: the frame
    [camera_get_frame] returns, the two readings of [hal_get_time_us], the
    accelerator, the recovery environment, and the content of the
    uninitialised local [ocr_result]. *)
Record cycle_env : Type := mkCycleEnv {
  camera_frame : option frame_buffer_t;
  inference_start_time : Z;
  inference_end_time : Z;
  npu : accelerator;
  recovery : recovery_env;
  stack_ocr_result : ocr_result_t
}.

(** The block [if (frame != NULL && frame->ready) { ... }] of the main
    loop of [ai_task_entry]. *)
Definition ai_task_cycle (fuel : nat) (e : cycle_env) (s : system) : outcome system :=
  match camera_frame e with
  | None => Ok s
  | Some f =>
      if ready f =? 0 then Ok s else
      let s1 := set_context s (set_current_state (ai_context s) AI_STATE_INFERENCING) in
      r <- ocr_process_frame fuel (npu e) (Some f) (stack_ocr_result e) s1 ;;
      let '(processing_result, ocr_result, s2) := r in
      let inference_time_us := wrap32 (inference_end_time e - inference_start_time e) in
      s3 <- (if processing_result =? 0
             then Ok (accept_result ocr_result inference_time_us s2)
             else
               t <- ai_handle_inference_error fuel (recovery e) processing_result s2 ;;
               Ok (set_context (snd t) (bump_failed_inferences (ai_context (snd t))))) ;;
      Ok (set_context s3 (set_current_state (ai_context s3) AI_STATE_READY))
  end.

Fixpoint ai_task_cycles (fuel : nat) (es : list cycle_env) (s : system) : outcome system :=
  match es with
  | [] => Ok s
  | e :: es' => s1 <- ai_task_cycle fuel e s ;; ai_task_cycles fuel es' s1
  end.

(** [create_ai_task] followed by the state the loop starts in once
    [ai_init] has succeeded; the arena lies at [base], the runtime handle
    is [handle]. *)
Definition default_config : ai_task_config_t :=
  mkConfig AI_PRECISION_INT8 0 0 (F32.percent 95) 8000 1.

Definition started (base handle : Z) : system :=
  mkSystem (fresh base)
           (ai_stats_reset
              (mkContext AI_STATE_READY default_config handle [true; true; true]
                         (mkStats 0 0 0 0 0 0 0 0 0 0 F32.zero 0 0) 0 0 0))
           [] [] O.

End AiLoop.

(** ** Reading the allocator's state *)

Module HeapView.

Import AiMemory.

(** The blocks on the allocated list, head first, each with the
    timestamp stored in its header: the walk of [ai_memory_check_leaks]
    without the counting. *)
Fixpoint list_blocks (fuel : nat) (h : heap) (current : Z) : outcome (list (Z * Z)) :=
  match fuel with
  | O => OutOfFuel
  | S fuel' =>
      if current =? NULL then Ok [] else
      ts <- load h (current + off_timestamp) ;;
      n <- load h (current + off_next) ;;
      bs <- list_blocks fuel' h n ;;
      Ok ((current, ts) :: bs)
  end.

(** The age test of [ai_memory_check_leaks] on a block stamped [ts]. *)
Definition stale (now : Z) (b : Z * Z) : bool := wrap32 (now - snd b) >? 30000.

(** The header before [p] does not carry the magic tag. *)
Definition tag_invalid (h : heap) (p : Z) : Prop :=
  exists m, load h (p - sizeof_memory_block_t + off_magic) = Ok m /\ m <> MEMORY_MAGIC.

(** The pool descriptor is the one [ai_memory_init] set up, the arena
    is an aligned object (so not at address 0), and the bytes in use are
    a multiple of the alignment within the capacity. *)
Definition pool_ok (h : heap) : bool :=
  (pool_start (ai_pool h) =? buffer_base h)
  && (pool_size (ai_pool h) =? AI_MEMORY_POOL_SIZE)
  && (0 <? buffer_base h) && (buffer_base h mod 8 =? 0)
  && (0 <=? allocated_size (ai_pool h))
  && (allocated_size (ai_pool h) <=? pool_size (ai_pool h))
  && (allocated_size (ai_pool h) mod 8 =? 0).

(** The size rounded up to a multiple of eight, in unbounded integers. *)
Definition round_up8 (size : Z) : Z := (size + 7) / 8 * 8.

(** Unpacking of outcomes in the scenarios below. *)
Definition heap_of (r : outcome (Z * heap)) (d : heap) : heap :=
  match r with Ok (_, h) => h | _ => d end.

Definition ptr_of (r : outcome (Z * heap)) : Z :=
  match r with Ok (p, _) => p | _ => NULL end.

Definition heap_or (r : outcome heap) (d : heap) : heap :=
  match r with Ok h => h | _ => d end.

(** An arena address for the scenarios: 0x90000000. *)
Definition arena : Z := 2415919104.

(** Two blocks of eight bytes, the first one freed. *)
Definition two_blocks_first_freed : heap :=
  let r1 := ai_memory_alloc 1 8 (fresh arena) in
  let r2 := ai_memory_alloc 2 8 (heap_of r1 (fresh arena)) in
  heap_or (ai_memory_free 8 (ptr_of r1) (heap_of r2 (fresh arena))) (fresh arena).

(** The pointer of the second of these blocks. *)
Definition second_block : Z := arena + 40.

(** Then a third block of eight bytes. *)
Definition third_allocated : outcome (Z * heap) :=
  ai_memory_alloc 3 8 two_blocks_first_freed.

(** Three allocations and the three matching frees, the first block
    released before the third is requested. *)
Definition balanced_calls : outcome heap :=
  r1 <- ai_memory_alloc 1 8 (fresh arena) ;;
  r2 <- ai_memory_alloc 2 8 (snd r1) ;;
  h3 <- ai_memory_free 8 (fst r1) (snd r2) ;;
  r4 <- ai_memory_alloc 3 8 h3 ;;
  h5 <- ai_memory_free 8 (fst r2) (snd r4) ;;
  ai_memory_free 8 (fst r4) h5.

(** Four allocations and their four frees in which the pointers freed are
    pairwise different or were handed out again in between. *)
Definition balanced_calls_distinct : outcome heap :=
  rA <- ai_memory_alloc 1 8 (fresh arena) ;;
  rB <- ai_memory_alloc 2 16 (snd rA) ;;
  h1 <- ai_memory_free 8 (fst rA) (snd rB) ;;
  rY <- ai_memory_alloc 3 8 h1 ;;
  h2 <- ai_memory_free 8 (fst rB) (snd rY) ;;
  rX <- ai_memory_alloc 4 8 h2 ;;
  h3 <- ai_memory_free 8 (fst rY) (snd rX) ;;
  ai_memory_free 8 (fst rX) h3.

(** A request of 0xFFFFFFF0 bytes. *)
Definition huge_request : Z := 4294967280.

(** One block live at tick 0 and one at tick 20000. *)
Definition two_live_blocks : heap :=
  let r1 := ai_memory_alloc 0 1024 (fresh arena) in
  heap_of (ai_memory_alloc 20000 64 (heap_of r1 (fresh arena))) (fresh arena).

(** One block allocated and freed. *)
Definition one_block : heap := heap_of (ai_memory_alloc 0 1024 (fresh arena)) (fresh arena).

Definition one_block_freed : heap :=
  heap_or (ai_memory_free 1 (arena + 16) one_block) one_block.

End HeapView.

(** ** Reading the pipeline *)

Module OcrView.

Import AiMemory AiTask Ocr.

(** The value [ocr_preprocess_image] stores for a 2x2 block whose four
    pixels are all [c]. *)
Definition repack (c : Z) : Z :=
  Z.lor (Z.lor (Z.shiftl ((Z.shiftr c 11 + Z.shiftr c 11
                           + Z.shiftr c 11 + Z.shiftr c 11) / 4) 11)
               (Z.shiftl ((Z.land (Z.shiftr c 5) 63 + Z.land (Z.shiftr c 5) 63
                           + Z.land (Z.shiftr c 5) 63 + Z.land (Z.shiftr c 5) 63) / 4) 5))
        ((Z.land c 31 + Z.land c 31 + Z.land c 31 + Z.land c 31) / 4) mod 65536.

(** [repack] returns its argument on the [n] colours from [c] on. *)
Fixpoint repack_fixes (n : nat) (c : Z) : bool :=
  match n with
  | O => true
  | S n' => (repack c =? c) && repack_fixes n' (c + 1)
  end.

End OcrView.

(** ** Scenarios of the task loop *)

Module LoopView.

Import AiMemory AiTask Ocr AiLoop HeapView.

(** A full camera frame of one grey level. *)
Definition gray_frame : frame_buffer_t := mkFrame (fun _ => 32896) 614400 0 1.

Definition blank_result : ocr_result_t := mkResult EmptyString F32.zero 0 0 0 0 0.

(** A recovery environment in which every step outside the repository
    succeeds. *)
Definition healthy_recovery : recovery_env :=
  mkRecoveryEnv NEURAL_ART_SUCCESS 1 NEURAL_ART_SUCCESS NEURAL_ART_SUCCESS
                (fun _ => true) 0.

(** The accelerator recognises one region, "Sample Text", with the given
    confidence. *)
Definition reads_with (conf : F32.float) : accelerator :=
  mkAccel 0 0 0 (fun _ => 0) NEURAL_ART_SUCCESS [demo_box]
          (fun _ => NEURAL_ART_SUCCESS) (fun _ => "Sample Text"%string)
          (fun _ => conf) (fun _ => 1).

(** The accelerator's recognition run fails on every region. *)
Definition recognition_fails : accelerator :=
  mkAccel 0 0 0 (fun _ => 0) NEURAL_ART_SUCCESS [demo_box]
          (fun _ => -1) (fun _ => "Sample Text"%string)
          (fun _ => F32.percent 92) (fun _ => 1).

(** The accelerator's detection run fails. *)
Definition detection_fails : accelerator :=
  mkAccel 0 0 0 (fun _ => 0) (-1) [demo_box]
          (fun _ => NEURAL_ART_SUCCESS) (fun _ => "Sample Text"%string)
          (fun _ => F32.percent 92) (fun _ => 1).

Definition cycle_with (a : accelerator) : cycle_env :=
  mkCycleEnv (Some gray_frame) 0 5000 a healthy_recovery blank_result.

(** A cycle that yields a result of confidence 0.80, a cycle that
    succeeds with the placeholder confidence, a cycle that fails. *)
Definition low_cycle : cycle_env := cycle_with (reads_with (F32.percent 80)).
Definition good_cycle : cycle_env := cycle_with (reads_with (F32.percent 92)).
Definition faulty_cycle : cycle_env := cycle_with detection_fails.

(** The consecutive-error counter and the number of recovery attempts
    after each cycle of a run. *)
Fixpoint recovery_history (fuel : nat) (es : list cycle_env) (s : system)
  : list (Z * nat) :=
  match es with
  | [] => []
  | e :: es' =>
      match ai_task_cycle fuel e s with
      | Ok s1 => (consecutive_errors (ai_context s1), recovery_attempts s1)
                 :: recovery_history fuel es' s1
      | _ => []
      end
  end.

(** Five times a failed cycle followed by a successful one, then one
    more failed cycle. *)
Definition isolated_faults : list cycle_env :=
  [faulty_cycle; good_cycle; faulty_cycle; good_cycle; faulty_cycle; good_cycle;
   faulty_cycle; good_cycle; faulty_cycle; good_cycle; faulty_cycle].

(** The counters confidence gating touches: inferences counted,
    low-confidence results, results queued for synthesis. *)
Definition gating_view (r : outcome system) : option (Z * Z * nat) :=
  match r with
  | Ok s => Some (total_inferences (stats (ai_context s)),
                  low_confidence_count (stats (ai_context s)),
                  List.length (audio_queue s))
  | _ => None
  end.

End LoopView.

(** ** The allocator used as a stack, and the pipeline on top of it *)

Module StackView.

Import AiMemory AiTask Ocr HeapView.

(** The header [ai_memory_alloc] writes at [block]. *)
Definition header_written (h : heap) (block sz tick : Z) : Z -> Z :=
  fun x =>
    if x =? block + off_next then allocated_blocks h
    else if x =? block + off_timestamp then tick
    else if x =? block + off_size then sz
    else if x =? block + off_magic then MEMORY_MAGIC
    else ram h x.

(** The allocator after a successful allocation of [sz] aligned bytes. *)
Definition pushed (h : heap) (tick sz : Z) : heap :=
  let p := ai_pool h in
  let used := allocated_size p + (sizeof_memory_block_t + sz) in
  mkHeap (mkPool (pool_start p) (pool_end p) (pool_size p) used
                 (if used >? peak_usage p then used else peak_usage p)
                 (wrap32 (allocation_count p + 1)) (free_count p) (leak_count p))
         (pool_start p + allocated_size p) (buffer_base h)
         (header_written h (pool_start p + allocated_size p) sz tick).

(** [h'] has the bytes in use, the list head and every word below the
    bytes in use of [h]; the counters and the words above may differ. *)
Definition same_stack (h h' : heap) : Prop :=
  buffer_base h' = buffer_base h /\
  pool_start (ai_pool h') = pool_start (ai_pool h) /\
  pool_size (ai_pool h') = pool_size (ai_pool h) /\
  allocated_size (ai_pool h') = allocated_size (ai_pool h) /\
  allocated_blocks h' = allocated_blocks h /\
  forall x, x < pool_start (ai_pool h) + allocated_size (ai_pool h) -> ram h' x = ram h x.

(** A box whose buffer size [width * height * 2] is computed without
    overflow of [int]. *)
Definition box_ok (b : text_bbox_t) : bool :=
  (0 <=? box_width b) && (0 <=? box_height b)
  && (box_width b * box_height b * 2 <=? INT_MAX).

(** The boxes the recognition loop of [ocr_process_frame] visits. *)
Definition visited_boxes (a : accelerator) : list text_bbox_t :=
  firstn 16 (firstn (Z.to_nat 16) (detection_boxes a)).

(** What [ocr_recognize_text] hands back for region [i] when [room]
    bytes of the pool are free: status, text, confidence. *)
Definition region_result (a : accelerator) (room : Z) (i : nat) (b : text_bbox_t)
  : Z * string * F32.float :=
  let bytes := box_width b * box_height b * 2 in
  if (bytes =? 0) || (room <? sizeof_memory_block_t + round_up8 bytes)
  then (AI_ERROR_MEMORY_ALLOC_FAILED, EmptyString, F32.zero)
  else if recognition_status a i =? NEURAL_ART_SUCCESS
       then (0, take 63 (recognition_text a i), recognition_confidence a i)
       else (AI_ERROR_NPU_ERROR, EmptyString, F32.zero).

(** The fragments of the regions from index [i] on. *)
Fixpoint fragments (a : accelerator) (room : Z) (i : nat) (boxes : list text_bbox_t)
  : list (Z * string * F32.float) :=
  match boxes with
  | [] => []
  | b :: rest => region_result a room i b :: fragments a room (S i) rest
  end.

(** The recognition loop on the fragments alone. *)
Fixpoint aggregate_fragments (frags : list (Z * string * F32.float)) (acc : aggregate)
  : outcome aggregate :=
  match frags with
  | [] => Ok acc
  | (status, region_text, region_confidence) :: rest =>
      if region_accepted status region_confidence then
        c <- append_fragment (combined_text acc) region_text ;;
        aggregate_fragments rest
          (mkAggregate c (F32.add (total_confidence acc) region_confidence)
                       (recognized_regions acc + 1))
      else aggregate_fragments rest acc
  end.

(** The pool space left for a region buffer while the preprocessed image
    is allocated. *)
Definition region_room (s : system) : Z :=
  pool_size (ai_pool (mem s)) - allocated_size (ai_pool (mem s))
  - (sizeof_memory_block_t + OCR_INPUT_WIDTH * OCR_INPUT_HEIGHT * 2).

(** The fragments of one frame. *)
Definition frame_fragments (a : accelerator) (s : system) : list (Z * string * F32.float) :=
  fragments a (region_room s) 0 (visited_boxes a).

(** Fragment accepted: recognised, with a confidence above one half. *)
Definition above_half (fr : Z * string * F32.float) : bool :=
  (fst (fst fr) =? 0) && F32.ltb F32.half (snd fr).



(** The accepted texts concatenated, a space before each one that
    follows a non-empty text. *)
Definition join_step (c t : string) : string :=
  if strlen c >? 0 then String.append (String.append c " "%string) t else t.

Definition join_fragments (texts : list string) : string :=
  fold_left join_step texts EmptyString.

Definition sum_confidence (cs : list F32.float) : F32.float :=
  fold_left F32.add cs F32.zero.

(** The frame can be processed up to the recognition loop: it is ready
    and holds a camera image, the pool has room for the preprocessed
    image and the detection buffer, the detection run succeeds and the
    boxes are well-formed. *)
Definition frame_runs (a : accelerator) (f : frame_buffer_t) (s : system) : Prop :=
  ready f <> 0 /\
  CAMERA_WIDTH * CAMERA_HEIGHT * 2 <= size f /\
  pool_ok (mem s) = true /\
  allocated_size (ai_pool (mem s))
  + (sizeof_memory_block_t + OCR_INPUT_WIDTH * OCR_INPUT_HEIGHT * 2)
  + (sizeof_memory_block_t + 1024) <= pool_size (ai_pool (mem s)) /\
  detection_status a = NEURAL_ART_SUCCESS /\
  forallb box_ok (detection_boxes a) = true.

End StackView.

(** ** The remaining functions of ai_memory.c and ai_task.c *)

Module AiRest.

Import AiMemory AiTask Ocr AiLoop.

(** [neural_art_get_utilization]: a figure derived from the number of
    successful inferences. *)
Definition neural_art_get_utilization (c : ai_task_context_t) : Z :=
  let recent_inferences := successful_inferences (stats c) in
  let utilization := wrap32 (recent_inferences * 10) mod 100 in
  if utilization <? 50 then 75 else utilization.

(** [ai_stats_update_timing] called once for each of [times], oldest
    first. *)
Definition report_times (times : list Z) (c : ai_task_context_t) : ai_task_context_t :=
  fold_left (fun c' t => ai_stats_update_timing t c') times c.

(** [ai_stats_check_targets]. *)
Definition ai_stats_check_targets (c : ai_task_context_t) : Z :=
  let st := stats c in
  let t1 := if avg_inference_time_us st >? config_max_inference_time_us (config c)
            then 0 else 1 in
  let t2 := if character_accuracy st <? 95 then 0 else t1 in
  if F32.ltb (avg_confidence_score st) (confidence_threshold (config c)) then 0 else t2.

(** [ai_performance_monitor_task]: the statistics it updates; the rest
    of the function prints. *)
Definition ai_performance_monitor_task (s : system) : system :=
  let '(memory_used, _, _) := ai_memory_get_stats (mem s) in
  let st := stats (ai_context s) in
  set_context s
    (set_stats (ai_context s)
       (mkStats (total_inferences st) (successful_inferences st) (failed_inferences st)
                (min_inference_time_us st) (max_inference_time_us st)
                (avg_inference_time_us st) (last_inference_time_us st)
                memory_used
                (if memory_used >? peak_memory_usage st
                 then memory_used else peak_memory_usage st)
                (memory_leaks_detected st) (avg_confidence_score st)
                (low_confidence_count st) (character_accuracy st))).

(** [ai_get_last_error]: [*error_code], [*error_count] and the
    description; the [case] labels are the error codes converted to
    [uint32_t]. *)
Definition error_description (code : Z) : string :=
  if code =? wrap32 AI_ERROR_NONE then "No error"
  else if code =? wrap32 AI_ERROR_INIT_FAILED then "Initialization failed"
  else if code =? wrap32 AI_ERROR_MODEL_LOAD_FAILED then "Model loading failed"
  else if code =? wrap32 AI_ERROR_INFERENCE_TIMEOUT then "Inference timeout"
  else if code =? wrap32 AI_ERROR_MEMORY_ALLOC_FAILED then "Memory allocation failed"
  else if code =? wrap32 AI_ERROR_INPUT_INVALID then "Invalid input"
  else if code =? wrap32 AI_ERROR_NPU_ERROR then "NPU error"
  else if code =? wrap32 AI_ERROR_CONFIDENCE_TOO_LOW then "Confidence too low"
  else if code =? wrap32 AI_ERROR_RECOVERY_FAILED then "Recovery failed"
  else "Unknown error".

Definition ai_get_last_error (c : ai_task_context_t) : Z * Z * string :=
  (error_code c, consecutive_errors c, error_description (error_code c)).

Definition ai_get_state (c : ai_task_context_t) : ai_state_t := current_state c.

Definition ai_is_result_ready (c : ai_task_context_t) : bool :=
  match current_state c with
  | AI_STATE_READY => total_inferences (stats c) >? 0
  | _ => false
  end.

(** What a benchmark or validation run reads from outside: the tick
    stamped on the test frame, and for each iteration the accelerator and
    the two readings of [hal_get_time_us]; [bench_result] is the content
    of the uninitialised local result. *)
Record bench_env : Type := mkBenchEnv {
  bench_tick : Z;
  bench_npu : nat -> accelerator;
  bench_start : nat -> Z;
  bench_end : nat -> Z;
  bench_result : ocr_result_t
}.

(** The test frame of [ai_benchmark] and [ai_validate_model_performance]:
    [OCR_INPUT_WIDTH * OCR_INPUT_HEIGHT * 2] bytes, each 0x80. *)
Definition test_frame (tick : Z) : frame_buffer_t :=
  mkFrame (fun _ => 32896) (OCR_INPUT_WIDTH * OCR_INPUT_HEIGHT * 2) tick 1.

(** [for (uint32_t i = i0; i < iterations; i++)] of [ai_benchmark], [n]
    iterations remaining. *)
Fixpoint benchmark_loop (fuel : nat) (be : bench_env) (n i : nat) (total_time : Z)
  (s : system) : outcome (Z * system) :=
  match n with
  | O => Ok (total_time, s)
  | S n' =>
      r <- ocr_process_frame fuel (bench_npu be i) (Some (test_frame (bench_tick be)))
                             (bench_result be) s ;;
      let '(_, _, s1) := r in
      benchmark_loop fuel be n' (S i)
                     (wrap32 (total_time + wrap32 (bench_end be i - bench_start be i))) s1
  end.

(** [ai_benchmark]; the division by [iterations] is undefined at 0. *)
Definition ai_benchmark (fuel : nat) (be : bench_env) (iterations : Z) (s : system)
  : outcome (Z * system) :=
  r <- benchmark_loop fuel be (Z.to_nat iterations) 0 0 s ;;
  if iterations =? 0 then Fault else Ok (fst r / iterations, snd r).

(** The loop of [ai_validate_model_performance]: the status (non-zero
    when an iteration failed), the accumulated time, the system. *)
Fixpoint validate_loop (fuel : nat) (be : bench_env) (n i : nat) (total_time : Z)
  (s : system) : outcome (Z * Z * system) :=
  match n with
  | O => Ok (0, total_time, s)
  | S n' =>
      r <- ocr_process_frame fuel (bench_npu be i) (Some (test_frame (bench_tick be)))
                             (bench_result be) s ;;
      let '(result, _, s1) := r in
      let total_time' := wrap32 (total_time + wrap32 (bench_end be i - bench_start be i)) in
      if negb (result =? 0) then Ok (AI_ERROR_INIT_FAILED, total_time', s1)
      else validate_loop fuel be n' (S i) total_time' s1
  end.

Definition set_avg_inference_time (c : ai_task_context_t) (v : Z) : ai_task_context_t :=
  let st := stats c in
  set_stats c
    (mkStats (total_inferences st) (successful_inferences st) (failed_inferences st)
             (min_inference_time_us st) (max_inference_time_us st)
             v (last_inference_time_us st)
             (current_memory_usage st) (peak_memory_usage st)
             (memory_leaks_detected st) (avg_confidence_score st)
             (low_confidence_count st) (character_accuracy st)).

Definition ai_validate_model_performance (fuel : nat) (be : bench_env) (s : system)
  : outcome (Z * system) :=
  r <- validate_loop fuel be 10 0 0 s ;;
  let '(status, total_time, s1) := r in
  if negb (status =? 0) then Ok (status, s1) else
  let avg_time := total_time / 10 in
  if avg_time >? config_max_inference_time_us (config (ai_context s1))
  then Ok (AI_ERROR_INFERENCE_TIMEOUT, s1)
  else Ok (0, set_context s1 (set_avg_inference_time (ai_context s1) avg_time)).

(** [ai_init]. *)
Definition ai_init (fuel : nat) (re : recovery_env) (be : bench_env) (s : system)
  : outcome (Z * system) :=
  let '(result, h) := ai_memory_init (mem s) in
  let s1 := set_mem s h in
  if negb (result =? 0) then Ok (AI_ERROR_MEMORY_ALLOC_FAILED, s1) else
  let '(r1, c1) := ai_neural_art_init_npu re (ai_context s1) in
  if negb (r1 =? 0) then Ok (AI_ERROR_NPU_ERROR, set_context s1 c1) else
  let '(r2, c2) := ai_load_ocr_models re c1 in
  if negb (r2 =? 0) then Ok (AI_ERROR_MODEL_LOAD_FAILED, set_context s1 c2) else
  v <- ai_validate_model_performance fuel be (set_context s1 c2) ;;
  let '(r3, s3) := v in
  if negb (r3 =? 0) then Ok (AI_ERROR_INIT_FAILED, s3) else
  Ok (0, set_context s3 (ai_stats_reset (ai_context s3))).

(** Errors reported one after the other, each in the recovery
    environment paired with it. *)
Fixpoint handle_errors (fuel : nat) (reports : list (recovery_env * Z)) (s : system)
  : outcome system :=
  match reports with
  | [] => Ok s
  | (e, code) :: rest =>
      r <- ai_handle_inference_error fuel e code s ;;
      handle_errors fuel rest (snd r)
  end.

(** Allocations nested like calls: each block is freed after everything
    allocated after it has been freed. *)
Fixpoint nested_calls (fuel : nat) (requests : list (Z * Z)) (h : heap) : outcome heap :=
  match requests with
  | [] => Ok h
  | (tick, size) :: rest =>
      r <- ai_memory_alloc tick size h ;;
      h1 <- nested_calls fuel rest (snd r) ;;
      ai_memory_free fuel (fst r) h1
  end.

End AiRest.

(** ** Reading the remaining functions *)

Module RestView.

Import AiMemory AiTask Ocr AiLoop HeapView StackView AiRest.

(** The channels of an RGB565 pixel and their packing. *)
Definition red (p : Z) : Z := Z.shiftr p 11.
Definition green (p : Z) : Z := Z.land (Z.shiftr p 5) 63.
Definition blue (p : Z) : Z := Z.land p 31.

Definition pack (r g b : Z) : Z :=
  Z.lor (Z.lor (Z.shiftl r 11) (Z.shiftl g 5)) b mod 65536.

(** [P] holds on the [n] integers from [c] on. *)
Fixpoint all_from (n : nat) (c : Z) (P : Z -> bool) : bool :=
  match n with
  | O => true
  | S n' => P c && all_from n' (c + 1) P
  end.

(** Unpacking a packed pixel gives the channels back. *)
Definition unpacks (r g b : Z) : bool :=
  (red (pack r g b) =? r) && (green (pack r g b) =? g) && (blue (pack r g b) =? b).

(** The bytes the requests of a nest take from the pool. *)
Fixpoint nest_bytes (requests : list (Z * Z)) : Z :=
  match requests with
  | [] => 0
  | (_, size) :: rest => sizeof_memory_block_t + round_up8 size + nest_bytes rest
  end.

Definition request_ok (r : Z * Z) : bool := (0 <? snd r) && (snd r <=? INT_MAX).

(** Everything outside the repository that a recovery attempt needs goes
    well. *)
Definition reload_succeeds (e : recovery_env) : bool :=
  (npu_init_status e =? NEURAL_ART_SUCCESS) && negb (npu_new_handle e =? NULL)
  && (load_detection_status e =? NEURAL_ART_SUCCESS)
  && (load_recognition_status e =? NEURAL_ART_SUCCESS)
  && model_ready e 0 && model_ready e 1 && model_ready e 2.

(** The pool has room for a block of [size] bytes. *)
Definition has_room (h : heap) (size : Z) : bool :=
  allocated_size (ai_pool h) + (sizeof_memory_block_t + round_up8 size)
  <=? pool_size (ai_pool h).

(** A recovery environment in which the accelerator does not come back. *)
Definition dead_npu : recovery_env :=
  mkRecoveryEnv (-1) 0 NEURAL_ART_SUCCESS NEURAL_ART_SUCCESS (fun _ => true) 0.

(** A recovery environment in which the accelerator and the two OCR
    models come back, while [neural_art_is_model_ready] reports the third
    slot ([AI_MODEL_PREPROCESSING]), for which the task makes no load
    call, as not ready. *)
Definition third_model_missing : recovery_env :=
  mkRecoveryEnv NEURAL_ART_SUCCESS 1 NEURAL_ART_SUCCESS NEURAL_ART_SUCCESS
                (fun i => Nat.ltb i 2) 0.

(** A frame whose pixels count up, for the averaging. *)
Definition ramp_frame : frame_buffer_t :=
  mkFrame (fun i => i mod 65536) 614400 0 1.

Definition bench_with (a : accelerator) : bench_env :=
  mkBenchEnv 0 (fun _ => a) (fun _ => 0) (fun _ => 5000)
             (mkResult EmptyString F32.zero 0 0 0 0 0).

End RestView.

(** ** Sequences of allocator calls *)

Module PoolOps.

Import AiMemory.

Inductive pool_op : Type :=
| OpAlloc (tick size : Z)
| OpFree (ptr : Z)
| OpCheckLeaks (now : Z).

Definition run_op (fuel : nat) (op : pool_op) (h : heap) : outcome heap :=
  match op with
  | OpAlloc tick size => r <- ai_memory_alloc tick size h ;; Ok (snd r)
  | OpFree ptr => ai_memory_free fuel ptr h
  | OpCheckLeaks now => r <- ai_memory_check_leaks fuel now h ;; Ok (snd r)
  end.

Fixpoint run_ops (fuel : nat) (ops : list pool_op) (h : heap) : outcome heap :=
  match ops with
  | [] => Ok h
  | op :: rest => h1 <- run_op fuel op h ;; run_ops fuel rest h1
  end.

End PoolOps.

(** * Properties *)

Import AiMemory HeapView.

(** ** Memory accesses *)

Lemma wrap32_range (z : Z) : 0 <= wrap32 z < 4294967296.
Proof. unfold wrap32. apply Z.mod_pos_bound. lia. Qed.

Lemma wrap32_small (z : Z) : 0 <= z < 4294967296 -> wrap32 z = z.
Proof. intros H. unfold wrap32. apply Z.mod_small. exact H. Qed.

Lemma wrap32_succ_neq (z : Z) : wrap32 (z + 1) <> z.
Proof.
  unfold wrap32. intros H.
  pose proof (Z.mod_pos_bound (z + 1) 4294967296 ltac:(lia)) as Hb.
  pose proof (Z.div_mod (z + 1) 4294967296 ltac:(lia)) as Hd.
  lia.
Qed.

Lemma in_buffer_store (h h' : heap) (a v x : Z) :
  store h a v = Ok h' -> in_buffer h' x = in_buffer h x.
Proof.
  unfold store. destruct (in_buffer h a); intros E; inversion E; reflexivity.
Qed.

Lemma store_inv (h h' : heap) (a v : Z) :
  store h a v = Ok h' ->
  in_buffer h a = true /\
  h' = mkHeap (ai_pool h) (allocated_blocks h) (buffer_base h)
              (fun x => if x =? a then v else ram h x).
Proof.
  unfold store. destruct (in_buffer h a); intros E; inversion E. split; reflexivity.
Qed.

Lemma load_store_same (h h' : heap) (a v : Z) :
  store h a v = Ok h' -> load h' a = Ok v.
Proof.
  intros E. unfold load. rewrite (in_buffer_store _ _ _ _ a E).
  destruct (store_inv _ _ _ _ E) as [Hin ->]. rewrite Hin. simpl.
  rewrite Z.eqb_refl. reflexivity.
Qed.

Lemma release_block_zeroes_tag (h h' : heap) (block : Z) :
  release_block h block = Ok h' -> load h' (block + off_magic) = Ok 0.
Proof.
  unfold release_block. destruct (load h (block + off_size)) as [sz| |]; simpl; try discriminate.
  apply load_store_same.
Qed.

Lemma release_block_free_count (h h' : heap) (block : Z) :
  release_block h block = Ok h' ->
  free_count (ai_pool h') = wrap32 (free_count (ai_pool h) + 1).
Proof.
  unfold release_block. destruct (load h (block + off_size)) as [sz| |]; simpl; try discriminate.
  intros E. destruct (store_inv _ _ _ _ E) as [_ ->]. reflexivity.
Qed.

(** A free that changed [free_count] went through to the end and left a
    zero tag. *)
Lemma successful_free_zeroes_tag (fuel : nat) (p : Z) (h0 h : heap) :
  ai_memory_free fuel p h0 = Ok h ->
  free_count (ai_pool h) <> free_count (ai_pool h0) ->
  load h (p - sizeof_memory_block_t + off_magic) = Ok 0.
Proof.
  unfold ai_memory_free.
  destruct (p =? NULL). { intros E; inversion E; congruence. }
  destruct (load h0 (p - sizeof_memory_block_t + off_magic)) as [m| |]; simpl; try discriminate.
  destruct (m =? MEMORY_MAGIC); simpl.
  2:{ intros E; inversion E; subst. simpl. congruence. }
  destruct (allocated_blocks h0 =? p - sizeof_memory_block_t).
  - destruct (load h0 (p - sizeof_memory_block_t + off_next)) as [n| |]; simpl; try discriminate.
    intros E _. eapply release_block_zeroes_tag; eassumption.
  - destruct (find_predecessor fuel h0 (allocated_blocks h0) (p - sizeof_memory_block_t))
      as [cur| |]; simpl; try discriminate.
    destruct (cur =? NULL). { intros E; inversion E; subst. simpl. congruence. }
    destruct (load h0 (p - sizeof_memory_block_t + off_next)) as [n| |]; simpl; try discriminate.
    destruct (store h0 (cur + off_next) n) as [h1| |]; simpl; try discriminate.
    intros E _. eapply release_block_zeroes_tag; eassumption.
Qed.

Lemma free_with_invalid_tag (fuel : nat) (p : Z) (h : heap) :
  p <> NULL -> tag_invalid h p -> ai_memory_free fuel p h = Ok (bump_leak_count h).
Proof.
  intros Hp (m & Hm & Hne). unfold ai_memory_free.
  destruct (Z.eqb_spec p NULL) as [->|_]; [congruence|].
  rewrite Hm. simpl.
  destruct (Z.eqb_spec m MEMORY_MAGIC) as [->|_]; [congruence|]. reflexivity.
Qed.

(** C7. A free whose header does not carry the magic tag, or which
    repeats a free that has just succeeded on the same pointer, adds one
    to [leak_count] (in [uint32_t] arithmetic, so exactly one unless the
    counter is at its maximum) and changes nothing else: the bytes in
    use, the allocation and free counts, the head of the block list and
    every word of the arena stay as they were. *)
Theorem free_invalid_tag_only_counts_leak (fuel : nat) (p : Z) (h : heap) :
  p <> NULL ->
  tag_invalid h p \/
  (exists fuel0 h0, ai_memory_free fuel0 p h0 = Ok h /\
                    free_count (ai_pool h) <> free_count (ai_pool h0)) ->
  exists h',
    ai_memory_free fuel p h = Ok h' /\
    leak_count (ai_pool h') = wrap32 (leak_count (ai_pool h) + 1) /\
    (0 <= leak_count (ai_pool h) < UINT32_MAX ->
     leak_count (ai_pool h') = leak_count (ai_pool h) + 1) /\
    allocated_size (ai_pool h') = allocated_size (ai_pool h) /\
    allocation_count (ai_pool h') = allocation_count (ai_pool h) /\
    free_count (ai_pool h') = free_count (ai_pool h) /\
    peak_usage (ai_pool h') = peak_usage (ai_pool h) /\
    allocated_blocks h' = allocated_blocks h /\
    ram h' = ram h.
Proof.
  intros Hp Hcase.
  assert (Hinv : tag_invalid h p).
  { destruct Hcase as [Hi | (fuel0 & h0 & Hfree & Hcount)]; [exact Hi|].
    exists 0. split.
    - eapply successful_free_zeroes_tag; eassumption.
    - unfold MEMORY_MAGIC. lia. }
  exists (bump_leak_count h). split; [apply free_with_invalid_tag; assumption|].
  simpl. repeat split; try reflexivity.
  intros Hr. apply wrap32_small. unfold UINT32_MAX in Hr. lia.
Qed.

Lemma free_invalid_tag_only_counts_leak_witness :
  exists h',
    ai_memory_free 1 (arena + 16) one_block_freed = Ok h' /\
    leak_count (ai_pool h') = 1 /\
    allocated_size (ai_pool h') = 0 /\
    free_count (ai_pool h') = 1 /\
    allocated_blocks h' = NULL.
Proof.
  destruct (free_invalid_tag_only_counts_leak 1 (arena + 16) one_block_freed)
    as (h' & Hfree & Hleak & _ & Hsize & _ & Hfc & _ & Hhead & _).
  - vm_compute. discriminate.
  - right. exists 1%nat, one_block. split.
    + vm_compute. reflexivity.
    + vm_compute. discriminate.
  - exists h'. repeat split; assumption.
Defined.

(** ** The leak check *)

Lemma count_stale_adds (bs : list (Z * Z)) (now c : Z) :
  fold_left (fun k b => if stale now b then wrap32 (k + 1) else k) bs (wrap32 c)
  = wrap32 (c + Z.of_nat (List.length (filter (stale now) bs))).
Proof.
  revert c. induction bs as [|b bs IH]; intros c; simpl.
  - f_equal. lia.
  - destruct (stale now b); simpl.
    + replace (wrap32 (wrap32 c + 1)) with (wrap32 (c + 1)).
      * rewrite IH. f_equal. lia.
      * unfold wrap32. rewrite Z.add_mod_idemp_l by lia. reflexivity.
    + apply IH.
Qed.

Lemma count_stale_follows_list (fuel : nat) (h : heap) (now : Z) :
  forall (current count : Z) (bs : list (Z * Z)),
    list_blocks fuel h current = Ok bs ->
    count_stale fuel h current now count
    = Ok (fold_left (fun k b => if stale now b then wrap32 (k + 1) else k) bs count).
Proof.
  induction fuel as [|fuel IH]; intros current count bs; simpl; [discriminate|].
  destruct (current =? NULL). { intros E; inversion E; reflexivity. }
  destruct (load h (current + off_timestamp)) as [ts| |]; simpl; try discriminate.
  destruct (load h (current + off_next)) as [n| |]; simpl; try discriminate.
  destruct (list_blocks fuel h n) as [bs'| |] eqn:El; simpl; try discriminate.
  intros E; inversion E; subst. simpl.
  rewrite (IH _ _ _ El). reflexivity.
Qed.

(** When the allocated list is a proper list within the fuel, its
    blocks being [bs] with their timestamps, [ai_memory_check_leaks]
    returns the number of those blocks whose age (the tick difference, in
    [uint32_t] arithmetic) is above 30000 ms: a block is counted exactly
    when its age exceeds the threshold.  The call frees nothing: the list,
    every word of the arena, the bytes in use and the allocation and free
    counts are unchanged; only [leak_count] grows by the number returned. *)
Lemma check_leaks_counts_stale_blocks (fuel : nat) (now : Z) (h : heap)
  (bs : list (Z * Z)) :
  list_blocks fuel h (allocated_blocks h) = Ok bs ->
  exists n h',
    ai_memory_check_leaks fuel now h = Ok (n, h') /\
    n = wrap32 (Z.of_nat (List.length (filter (stale now) bs))) /\
    (Z.of_nat (List.length bs) < 4294967296 ->
     n = Z.of_nat (List.length (filter (fun b => wrap32 (now - snd b) >? 30000) bs))) /\
    list_blocks fuel h' (allocated_blocks h') = Ok bs /\
    allocated_blocks h' = allocated_blocks h /\
    ram h' = ram h /\
    allocated_size (ai_pool h') = allocated_size (ai_pool h) /\
    allocation_count (ai_pool h') = allocation_count (ai_pool h) /\
    free_count (ai_pool h') = free_count (ai_pool h) /\
    leak_count (ai_pool h') = wrap32 (leak_count (ai_pool h) + n).
Proof.
  intros Hl. unfold ai_memory_check_leaks.
  rewrite (count_stale_follows_list fuel h now _ 0 bs Hl). simpl.
  assert (Hfold :
    fold_left (fun k b => if stale now b then wrap32 (k + 1) else k) bs 0
    = wrap32 (Z.of_nat (List.length (filter (stale now) bs)))).
  { change 0 with (wrap32 0) at 1. rewrite count_stale_adds. reflexivity. }
  rewrite Hfold.
  eexists. eexists. split; [reflexivity|]. simpl.
  split; [reflexivity|]. split.
  { intros Hlen. apply wrap32_small.
    pose proof (filter_length_le (stale now) bs) as Hle. unfold stale in *. lia. }
  split; [|repeat split; reflexivity].
  rewrite <- Hl. clear Hl. generalize (allocated_blocks h).
  induction fuel as [|fuel IH]; intros current; simpl; [reflexivity|].
  destruct (current =? NULL); [reflexivity|].
  unfold load, in_buffer. simpl. fold (in_buffer h (current + off_timestamp)).
  fold (in_buffer h (current + off_next)).
  destruct (in_buffer h (current + off_timestamp)); simpl; [|reflexivity].
  destruct (in_buffer h (current + off_next)); simpl; [|reflexivity].
  rewrite IH. reflexivity.
Qed.

Lemma check_leaks_counts_stale_blocks_witness :
  exists h',
    ai_memory_check_leaks 3 40000 two_live_blocks = Ok (1, h') /\
    allocated_blocks h' = allocated_blocks two_live_blocks /\
    allocated_size (ai_pool h') = allocated_size (ai_pool two_live_blocks).
Proof.
  destruct (check_leaks_counts_stale_blocks 3 40000 two_live_blocks
              [(arena + 1040, 20000); (arena, 0)])
    as (n & h' & Hrun & Hn & _ & _ & Hhead & _ & Hsize & _).
  - vm_compute. reflexivity.
  - exists h'. subst n. repeat split; assumption.
Defined.

(** The same walk never returns once the list has a cycle: after the
    third allocation of [third_allocated] the head block is its own
    successor. *)
Lemma check_leaks_loops_on_reused_block (fuel : nat) (now : Z) :
  ai_memory_check_leaks fuel now (heap_of third_allocated (fresh arena)) = OutOfFuel.
Proof.
  assert (Hhead : allocated_blocks (heap_of third_allocated (fresh arena)) = arena + 24)
    by (vm_compute; reflexivity).
  assert (Hts : load (heap_of third_allocated (fresh arena)) (arena + 24 + off_timestamp)
                = Ok 3) by (vm_compute; reflexivity).
  assert (Hnext : load (heap_of third_allocated (fresh arena)) (arena + 24 + off_next)
                  = Ok (arena + 24)) by (vm_compute; reflexivity).
  assert (Hnz : (arena + 24 =? NULL) = false) by (vm_compute; reflexivity).
  generalize dependent (heap_of third_allocated (fresh arena)). intros h Hhead Hts Hnext.
  unfold ai_memory_check_leaks. rewrite Hhead.
  assert (Hloop : forall count, count_stale fuel h (arena + 24) now count = OutOfFuel).
  { induction fuel as [|fuel IH]; intros count; [reflexivity|].
    cbn [count_stale]. rewrite Hnz, Hts. cbn [bind]. rewrite Hnext. cbn [bind].
    apply IH. }
  rewrite Hloop. reflexivity.
Qed.

(** C10. Two blocks of eight bytes are allocated, the first is freed and
    a third is allocated.  The second block was never freed, yet the
    third allocation is placed on it and links its header to itself, on
    a pool that is well-formed throughout.  From then on
    [ai_memory_check_leaks] walks this one block for ever: whatever the
    tick, it does not return within any number of steps, so the block
    that was never freed is never reported, however old it is. *)
Theorem stale_block_is_never_reported (fuel : nat) (now : Z) :
  ptr_of (ai_memory_alloc 2 8 (heap_of (ai_memory_alloc 1 8 (fresh arena)) (fresh arena)))
  = second_block /\
  ptr_of third_allocated = second_block /\
  pool_ok (heap_of third_allocated (fresh arena)) = true /\
  allocated_blocks (heap_of third_allocated (fresh arena))
  = second_block - sizeof_memory_block_t /\
  load (heap_of third_allocated (fresh arena)) (second_block - sizeof_memory_block_t + off_next)
  = Ok (second_block - sizeof_memory_block_t) /\
  ai_memory_check_leaks fuel now (heap_of third_allocated (fresh arena)) = OutOfFuel.
Proof.
  split; [vm_compute; reflexivity|]. split; [vm_compute; reflexivity|].
  split; [vm_compute; reflexivity|]. split; [vm_compute; reflexivity|].
  split; [vm_compute; reflexivity|].
  apply check_leaks_loops_on_reused_block.
Qed.

(** ** Allocation *)

Lemma alloc_zero_size (tick : Z) (h : heap) : ai_memory_alloc tick 0 h = Ok (NULL, h).
Proof. reflexivity. Qed.

(** A request that the capacity test turns away is answered with NULL and
    leaves the allocator as it was. *)
Lemma alloc_rejected_unchanged (tick size : Z) (h : heap) :
  wrap32 (allocated_size (ai_pool h)
          + wrap32 (sizeof_memory_block_t + align_size size))
  > pool_size (ai_pool h) ->
  ai_memory_alloc tick size h = Ok (NULL, h).
Proof.
  intros Hgt. unfold ai_memory_alloc.
  destruct (size =? 0); [reflexivity|].
  destruct (Z.gtb_spec
              (wrap32 (allocated_size (ai_pool h)
                       + wrap32 (sizeof_memory_block_t + align_size size)))
              (pool_size (ai_pool h))); [reflexivity|lia].
Qed.

Lemma land_align_mask (x : Z) :
  0 <= x < 4294967296 -> Z.land x (wrap32 (Z.lnot (MEMORY_ALIGN - 1))) = x / 8 * 8.
Proof.
  intros Hx.
  change (wrap32 (Z.lnot (MEMORY_ALIGN - 1))) with (Z.land (Z.lnot (Z.ones 3)) (Z.ones 32)).
  rewrite (Z.land_comm (Z.lnot (Z.ones 3))), Z.land_assoc.
  rewrite (Z.land_ones x 32) by lia.
  rewrite Z.mod_small by (change (2 ^ 32) with 4294967296; lia).
  change (Z.land x (Z.lnot (Z.ones 3))) with (Z.ldiff x (Z.ones 3)).
  rewrite Z.ldiff_ones_r by lia.
  rewrite Z.shiftl_mul_pow2, Z.shiftr_div_pow2 by lia. reflexivity.
Qed.

(** Below the top of the 32-bit range the aligned size is the size
    rounded up to a multiple of eight. *)
Lemma align_size_round_up8 (size : Z) :
  0 <= size <= 4294967288 -> align_size size = round_up8 size.
Proof.
  intros Hs. unfold align_size, round_up8.
  replace (size + MEMORY_ALIGN - 1) with (size + 7) by (unfold MEMORY_ALIGN; lia).
  rewrite wrap32_small by lia. apply land_align_mask. lia.
Qed.

Lemma round_up8_bounds (size : Z) :
  size <= round_up8 size <= size + 7 /\ round_up8 size mod 8 = 0.
Proof.
  unfold round_up8. split.
  - pose proof (Z.div_mod (size + 7) 8 ltac:(lia)) as Hd.
    pose proof (Z.mod_pos_bound (size + 7) 8 ltac:(lia)) as Hm. lia.
  - apply Z.mod_mul. lia.
Qed.

(** For requests that do not wrap, the capacity test of the source is the
    comparison in unbounded integers. *)
Lemma alloc_rejects_over_capacity (tick size : Z) (h : heap) :
  0 < size ->
  0 <= allocated_size (ai_pool h) ->
  allocated_size (ai_pool h) + sizeof_memory_block_t + round_up8 size < 4294967296 ->
  allocated_size (ai_pool h) + sizeof_memory_block_t + round_up8 size
  > pool_size (ai_pool h) ->
  ai_memory_alloc tick size h = Ok (NULL, h).
Proof.
  intros Hs Ha Hfit Hover. apply alloc_rejected_unchanged.
  pose proof (round_up8_bounds size) as [Hb _]. unfold sizeof_memory_block_t in *.
  rewrite align_size_round_up8 by lia.
  rewrite (wrap32_small (16 + round_up8 size)) by lia.
  rewrite wrap32_small by lia. lia.
Qed.

(** C1. Two blocks of eight bytes are allocated and the first is freed;
    the second is still live (its tag is valid and it heads the list).
    The next allocation returns the pointer of that live block: the two
    payloads are the same bytes. *)
Theorem alloc_returns_live_block :
  ptr_of (ai_memory_alloc 2 8 (heap_of (ai_memory_alloc 1 8 (fresh arena)) (fresh arena)))
  = second_block /\
  load two_blocks_first_freed (second_block - sizeof_memory_block_t + off_magic)
  = Ok MEMORY_MAGIC /\
  allocated_blocks two_blocks_first_freed = second_block - sizeof_memory_block_t /\
  ptr_of third_allocated = second_block /\
  payload_overlap (ptr_of third_allocated) 8 second_block 8 = true.
Proof. vm_compute. repeat split; reflexivity. Qed.

(** C2. On the freshly initialised pool a request of 0xFFFFFFF0 bytes,
    for which the bytes in use plus the header plus the aligned size
    exceed the capacity, is answered with a non-null pointer, and the
    allocation count goes up. *)
Theorem alloc_huge_request_succeeds :
  allocated_size (ai_pool (fresh arena)) + sizeof_memory_block_t + round_up8 huge_request
  > pool_size (ai_pool (fresh arena)) /\
  ptr_of (ai_memory_alloc 5 huge_request (fresh arena)) = arena + 16 /\
  allocation_count (ai_pool (heap_of (ai_memory_alloc 5 huge_request (fresh arena))
                                     (fresh arena))) = 1 /\
  load (heap_of (ai_memory_alloc 5 huge_request (fresh arena)) (fresh arena))
       (arena + off_size) = Ok huge_request.
Proof. vm_compute. repeat split; reflexivity. Qed.

(** Four allocations and their four frees after which the bytes in use
    exceed the capacity: the third block's header shares words with the
    fourth's, and the fourth is stamped at the tick that equals the magic
    number. *)
Lemma balanced_calls_exceed_capacity :
  (rA <- ai_memory_alloc 1 8 (fresh arena) ;;
   rB <- ai_memory_alloc 2 16 (snd rA) ;;
   h1 <- ai_memory_free 8 (fst rA) (snd rB) ;;
   rY <- ai_memory_alloc 3 8 h1 ;;
   h2 <- ai_memory_free 8 (fst rB) (snd rY) ;;
   rX <- ai_memory_alloc MEMORY_MAGIC 8 h2 ;;
   h3 <- ai_memory_free 8 (fst rX) (snd rX) ;;
   h4 <- ai_memory_free 8 (fst rY) h3 ;;
   Ok (allocated_size (ai_pool h4) >? pool_size (ai_pool h4),
       allocation_count (ai_pool h4), free_count (ai_pool h4)))
  = Ok (true, 4, 4).
Proof. vm_compute. reflexivity. Qed.

(** C3. Three allocations and the three matching frees, starting from
    the empty pool: the third allocation hands out the second block's
    pointer again, the second of the two frees of that pointer finds the
    tag cleared, and 24 bytes stay accounted as in use with one more
    allocation than frees. *)
Theorem balanced_calls_leave_bytes_allocated :
  allocated_size (ai_pool (fresh arena)) = 0 /\
  exists h,
    balanced_calls = Ok h /\
    allocated_size (ai_pool h) = 24 /\
    allocation_count (ai_pool h) - free_count (ai_pool h) = 1 /\
    leak_count (ai_pool h) = 1.
Proof.
  split; [reflexivity|].
  eexists. split; [vm_compute; reflexivity|].
  vm_compute. repeat split; reflexivity.
Qed.

(** The same with no pointer freed twice between two allocations that
    return it. *)
Lemma balanced_calls_distinct_leave_bytes_allocated :
  exists h,
    balanced_calls_distinct = Ok h /\
    allocated_size (ai_pool h) = 24 /\
    allocation_count (ai_pool h) - free_count (ai_pool h) = 1.
Proof.
  eexists. split; [vm_compute; reflexivity|].
  vm_compute. repeat split; reflexivity.
Qed.

(** ** Preprocessing *)

Import AiTask Ocr OcrView.

Lemma repack_fixes_sound (n : nat) :
  forall c0, repack_fixes n c0 = true ->
  forall c, c0 <= c < c0 + Z.of_nat n -> repack c = c.
Proof.
  induction n as [|n IH]; intros c0 Hall c Hc; [lia|].
  cbn [repack_fixes] in Hall. apply andb_prop in Hall. destruct Hall as [Hhere Hrest].
  destruct (Z.eq_dec c c0) as [->|Hne].
  - apply Z.eqb_eq. exact Hhere.
  - apply (IH (c0 + 1) Hrest). lia.
Qed.

Lemma repack_all_colours : repack_fixes (Z.to_nat 65536) 0 = true.
Proof. vm_compute. reflexivity. Qed.

Lemma repack_same (c : Z) : 0 <= c < 65536 -> repack c = c.
Proof.
  intros Hc. apply (repack_fixes_sound _ 0 repack_all_colours).
  rewrite Z2Nat.id; lia.
Qed.

Section Frame.

Variable f : frame_buffer_t.
Hypothesis frame_size : CAMERA_WIDTH * CAMERA_HEIGHT * 2 <= size f.

Lemma pixel_at_inside (i : Z) :
  0 <= i < CAMERA_WIDTH * CAMERA_HEIGHT -> pixel_at f i = Ok (data f i).
Proof.
  intros Hi. unfold pixel_at.
  destruct (Z.leb_spec 0 i); [|lia].
  destruct (Z.leb_spec (2 * i + 2) (size f)); [reflexivity|].
  unfold CAMERA_WIDTH, CAMERA_HEIGHT in *. lia.
Qed.

Lemma downsample_pixel_runs (x y : Z) :
  0 <= x < OCR_INPUT_WIDTH -> 0 <= y < OCR_INPUT_HEIGHT ->
  exists v, downsample_pixel f x y = Ok v.
Proof.
  intros Hx Hy. unfold downsample_pixel.
  unfold OCR_INPUT_WIDTH, OCR_INPUT_HEIGHT in *.
  rewrite !pixel_at_inside by (unfold CAMERA_WIDTH, CAMERA_HEIGHT; lia).
  simpl. eexists. reflexivity.
Qed.

Lemma preprocess_row_runs (y : Z) :
  0 <= y < OCR_INPUT_HEIGHT ->
  forall (n : nat) (x : Z), 0 <= x -> x + Z.of_nat n <= OCR_INPUT_WIDTH ->
  exists row, preprocess_row n f x y = Ok row.
Proof.
  intros Hy. induction n as [|n IH]; intros x Hx Hn.
  - exists []. reflexivity.
  - cbn [preprocess_row].
    destruct (downsample_pixel_runs x y) as [v ->]; [lia|exact Hy|].
    destruct (IH (x + 1)) as [vs ->]; [lia|lia|].
    eexists. reflexivity.
Qed.

Lemma preprocess_rows_runs :
  forall (n : nat) (y : Z), 0 <= y -> y + Z.of_nat n <= OCR_INPUT_HEIGHT ->
  exists dst, preprocess_rows n f y = Ok dst.
Proof.
  induction n as [|n IH]; intros y Hy Hn.
  - exists []. reflexivity.
  - cbn [preprocess_rows].
    destruct (preprocess_row_runs y ltac:(lia) (Z.to_nat OCR_INPUT_WIDTH) 0) as [row ->];
      [lia|rewrite Z2Nat.id by (unfold OCR_INPUT_WIDTH; lia); lia|].
    destruct (IH (y + 1)) as [rest ->]; [lia|lia|].
    eexists. reflexivity.
Qed.

(** On a frame that holds a full camera image the preprocessing runs to
    the end and reports success. *)
Lemma ocr_preprocess_image_runs :
  exists dst, ocr_preprocess_image (Some f) = Ok (0, dst).
Proof.
  unfold ocr_preprocess_image.
  destruct (preprocess_rows_runs (Z.to_nat OCR_INPUT_HEIGHT) 0) as [dst ->];
    [lia|rewrite Z2Nat.id by (unfold OCR_INPUT_HEIGHT; lia); lia|].
  eexists. reflexivity.
Qed.

Variable c : Z.
Hypothesis colour : 0 <= c < 65536.
Hypothesis uniform : forall i, 0 <= i < CAMERA_WIDTH * CAMERA_HEIGHT -> data f i = c.

Lemma downsample_pixel_uniform (x y : Z) :
  0 <= x < OCR_INPUT_WIDTH -> 0 <= y < OCR_INPUT_HEIGHT ->
  downsample_pixel f x y = Ok c.
Proof.
  intros Hx Hy. unfold downsample_pixel.
  unfold OCR_INPUT_WIDTH, OCR_INPUT_HEIGHT in *.
  rewrite !pixel_at_inside by (unfold CAMERA_WIDTH, CAMERA_HEIGHT; lia).
  rewrite !uniform by (unfold CAMERA_WIDTH, CAMERA_HEIGHT; lia).
  cbn [bind]. f_equal. apply (repack_same c colour).
Qed.

Lemma preprocess_row_uniform (y : Z) :
  0 <= y < OCR_INPUT_HEIGHT ->
  forall (n : nat) (x : Z), 0 <= x -> x + Z.of_nat n <= OCR_INPUT_WIDTH ->
  preprocess_row n f x y = Ok (repeat c n).
Proof.
  intros Hy. induction n as [|n IH]; intros x Hx Hn; [reflexivity|].
  cbn [preprocess_row].
  rewrite downsample_pixel_uniform by lia. cbn [bind].
  rewrite IH by lia. reflexivity.
Qed.

Lemma preprocess_rows_uniform :
  forall (n : nat) (y : Z), 0 <= y -> y + Z.of_nat n <= OCR_INPUT_HEIGHT ->
  preprocess_rows n f y = Ok (repeat c (n * Z.to_nat OCR_INPUT_WIDTH)).
Proof.
  induction n as [|n IH]; intros y Hy Hn; [reflexivity|].
  cbn [preprocess_rows].
  rewrite preprocess_row_uniform;
    [|lia|lia|rewrite Z2Nat.id by (unfold OCR_INPUT_WIDTH; lia); lia].
  cbn [bind]. rewrite IH by lia. cbn [bind].
  rewrite <- repeat_app. reflexivity.
Qed.

End Frame.

(** C9, as amended. A frame that holds at least the 640x480 RGB565
    pixels of a camera image, every one of them the colour [c], is
    downsampled to the 320x240 image whose every pixel is [c]. *)
Theorem preprocess_uniform_image (f : frame_buffer_t) (c : Z) :
  CAMERA_WIDTH * CAMERA_HEIGHT * 2 <= size f ->
  0 <= c < 65536 ->
  (forall i, 0 <= i < CAMERA_WIDTH * CAMERA_HEIGHT -> data f i = c) ->
  exists dst,
    ocr_preprocess_image (Some f) = Ok (0, dst) /\
    List.length dst = Z.to_nat (OCR_INPUT_WIDTH * OCR_INPUT_HEIGHT) /\
    (forall k, (k < List.length dst)%nat -> nth_error dst k = Some c).
Proof.
  intros Hsize Hc Hu.
  exists (repeat c (Z.to_nat OCR_INPUT_HEIGHT * Z.to_nat OCR_INPUT_WIDTH)).
  split; [|split].
  - unfold ocr_preprocess_image.
    rewrite (preprocess_rows_uniform f Hsize c Hc Hu);
      [reflexivity|lia|rewrite Z2Nat.id by (unfold OCR_INPUT_HEIGHT; lia); lia].
  - rewrite repeat_length. unfold OCR_INPUT_WIDTH, OCR_INPUT_HEIGHT. lia.
  - intros k Hk. rewrite repeat_length in Hk.
    apply nth_error_repeat. exact Hk.
Qed.

Lemma preprocess_uniform_image_witness :
  exists dst,
    ocr_preprocess_image (Some (mkFrame (fun _ => 32896) 614400 0 1)) = Ok (0, dst) /\
    List.length dst = Z.to_nat (OCR_INPUT_WIDTH * OCR_INPUT_HEIGHT) /\
    nth_error dst 0 = Some 32896.
Proof.
  destruct (preprocess_uniform_image (mkFrame (fun _ => 32896) 614400 0 1) 32896)
    as (dst & Hrun & Hlen & Hpix).
  - vm_compute. discriminate.
  - lia.
  - intros i _. reflexivity.
  - exists dst. split; [exact Hrun|]. split; [exact Hlen|].
    apply Hpix. rewrite Hlen. unfold OCR_INPUT_WIDTH, OCR_INPUT_HEIGHT. lia.
Defined.

(** ** Confidence gating *)

Import AiLoop LoopView.

Lemma compare_cont_flip (m1 m2 : positive) :
  Pos.compare_cont Eq m1 m2 = Lt -> Pos.compare_cont Eq m2 m1 = Gt.
Proof.
  fold (Pos.compare m1 m2). fold (Pos.compare m2 m1).
  intros H. rewrite Pos.compare_antisym, H. reflexivity.
Qed.

Lemma compare_cont_flip_gt (m1 m2 : positive) :
  Pos.compare_cont Eq m1 m2 = Gt -> Pos.compare_cont Eq m2 m1 = Lt.
Proof.
  fold (Pos.compare m1 m2). fold (Pos.compare m2 m1).
  intros H. rewrite Pos.compare_antisym, H. reflexivity.
Qed.

(** [a < b] excludes [a >= b]. *)
Lemma ltb_excludes_leb (a b : F32.float) : F32.ltb a b = true -> F32.leb b a = false.
Proof.
  unfold F32.ltb, F32.leb, SFltb, SFleb.
  destruct a as [sa|sa| |sa ma ea], b as [sb|sb| |sb mb eb]; simpl;
    try discriminate; try (destruct sa; try destruct sb; simpl; congruence).
  destruct sa, sb; simpl; try congruence;
    rewrite (Z.compare_antisym ea eb);
    destruct (ea ?= eb)%Z; simpl; try congruence.
  - destruct (Pos.compare_cont Eq ma mb) eqn:E; simpl; try congruence.
    rewrite (compare_cont_flip_gt _ _ E). reflexivity.
  - destruct (Pos.compare_cont Eq ma mb) eqn:E; simpl; try congruence.
    rewrite (compare_cont_flip _ _ E). reflexivity.
Qed.

(** A result below the threshold is not queued for synthesis, and the
    low-confidence counter is stepped twice: once by
    [ai_stats_update_quality] and once more by the task loop. *)
Lemma accept_result_below_threshold (r : ocr_result_t) (t : Z) (s : system) :
  F32.ltb (confidence r) (confidence_threshold (config (ai_context s))) = true ->
  audio_queue (accept_result r t s) = audio_queue s /\
  low_confidence_count (stats (ai_context (accept_result r t s)))
  = wrap32 (wrap32 (low_confidence_count (stats (ai_context s)) + 1) + 1).
Proof.
  intros Hlt. pose proof (ltb_excludes_leb _ _ Hlt) as Hle.
  unfold accept_result, ai_stats_update_quality, ai_stats_update_timing.
  cbn [set_stats config stats set_context ai_context confidence_threshold
       low_confidence_count].
  rewrite Hlt, Hle.
  match goal with |- context [if ?c >? ?d then _ else _] => destruct (c >? d) end;
    split; reflexivity.
Qed.

(** The grey frame preprocesses to the grey image. *)
Lemma gray_frame_preprocessed :
  ocr_preprocess_image (Some gray_frame) = Ok (0, repeat 32896 (Z.to_nat 76800)).
Proof.
  unfold ocr_preprocess_image.
  rewrite (preprocess_rows_uniform gray_frame) with (c := 32896).
  - cbn [bind]. rewrite <- Z2Nat.inj_mul by (unfold OCR_INPUT_HEIGHT, OCR_INPUT_WIDTH; lia).
    reflexivity.
  - vm_compute. discriminate.
  - lia.
  - intros i _. reflexivity.
  - lia.
  - rewrite Z2Nat.id by (unfold OCR_INPUT_HEIGHT; lia). lia.
Qed.

Lemma cycle_runs (fuel : nat) (e : cycle_env) (s s1 : system) :
  ai_task_cycle fuel e s = Ok s1 ->
  gating_view (ai_task_cycle fuel e s) = gating_view (Ok s1).
Proof. intros ->. reflexivity. Qed.

Lemma history_step (fuel : nat) (e : cycle_env) (es : list cycle_env) (s s1 : system) :
  ai_task_cycle fuel e s = Ok s1 ->
  recovery_history fuel (e :: es) s
  = (consecutive_errors (ai_context s1), recovery_attempts s1)
      :: recovery_history fuel es s1.
Proof. intros H. cbn [recovery_history]. rewrite H. reflexivity. Qed.

(** One cycle on the grey frame, evaluated with the preprocessing
    replaced by its result. *)
Ltac run_cycle :=
  unfold ai_task_cycle, low_cycle, good_cycle, faulty_cycle, cycle_with;
  cbn [camera_frame npu recovery stack_ocr_result inference_start_time
       inference_end_time];
  unfold ocr_process_frame;
  rewrite gray_frame_preprocessed;
  vm_compute; reflexivity.

(** C4. The task has started with the default threshold 0.95; a frame is
    processed whose single region is recognised with confidence 0.80.
    The result is not queued for synthesis and the cycle is counted, but
    [low_confidence_count] goes from 0 to 2. *)
Theorem low_confidence_counted_twice :
  F32.ltb (F32.percent 80) (confidence_threshold default_config) = true /\
  gating_view (Ok (started arena 1)) = Some (0, 0, 0%nat) /\
  gating_view (ai_task_cycle 4 low_cycle (started arena 1)) = Some (1, 2, 0%nat).
Proof.
  split; [vm_compute; reflexivity|]. split; [vm_compute; reflexivity|].
  erewrite cycle_runs; [|run_cycle]. vm_compute. reflexivity.
Qed.

(** ** Recovery *)

Lemma self_test_keeps_attempts (fuel : nat) (tick : Z) (s : system) (r : Z) (s' : system) :
  ai_self_test fuel tick s = Ok (r, s') -> recovery_attempts s' = recovery_attempts s.
Proof.
  unfold ai_self_test.
  destruct (npu_handle (ai_context s) =? NULL). { intros E; inversion E; reflexivity. }
  destruct (negb _). { intros E; inversion E; reflexivity. }
  destruct (ai_memory_alloc tick 1024 (mem s)) as [[p h1]| |]; simpl; try discriminate.
  destruct (p =? NULL). { intros E; inversion E; reflexivity. }
  destruct (ai_memory_free fuel p h1) as [h2| |]; simpl; try discriminate.
  intros E; inversion E; reflexivity.
Qed.

Lemma recovery_attempt_counts_one (fuel : nat) (e : recovery_env) (s : system)
  (r : Z) (s' : system) :
  ai_recovery_attempt fuel e s = Ok (r, s') ->
  recovery_attempts s' = S (recovery_attempts s).
Proof.
  unfold ai_recovery_attempt.
  destruct (ai_neural_art_init_npu e (ai_context (enter_recovery s))) as [r1 c1].
  destruct (negb (r1 =? 0)). { intros E; inversion E; reflexivity. }
  destruct (ai_load_ocr_models e c1) as [r2 c2].
  destruct (negb (r2 =? 0)). { intros E; inversion E; reflexivity. }
  destruct (ai_self_test fuel (tick_self_test e) _) as [[r3 s3]| |] eqn:Et;
    simpl; try discriminate.
  apply self_test_keeps_attempts in Et.
  destruct (negb (r3 =? 0)); intros E; inversion E; subst; exact Et.
Qed.

(** A reported error enters recovery exactly when the counter
    [consecutive_errors], after its increment, is above 5. *)
Lemma handle_error_enters_recovery (fuel : nat) (e : recovery_env) (code : Z)
  (s : system) (r : Z) (s' : system) :
  ai_handle_inference_error fuel e code s = Ok (r, s') ->
  recovery_attempts s'
  = if wrap32 (consecutive_errors (ai_context s) + 1) >? 5
    then S (recovery_attempts s) else recovery_attempts s.
Proof.
  unfold ai_handle_inference_error.
  cbn [set_errors consecutive_errors].
  destruct (wrap32 (consecutive_errors (ai_context s) + 1) >? 5).
  - intros E. apply recovery_attempt_counts_one in E. exact E.
  - intros E; inversion E; reflexivity.
Qed.

(** Six failed cycles in a row from the start enter recovery once, at
    the sixth. *)
Lemma six_faults_one_recovery :
  recovery_history 4 [faulty_cycle; faulty_cycle; faulty_cycle;
                      faulty_cycle; faulty_cycle; faulty_cycle] (started arena 1)
  = [(1, 0%nat); (2, 0%nat); (3, 0%nat); (4, 0%nat); (5, 0%nat); (0, 1%nat)].
Proof. unfold isolated_faults. repeat (erewrite history_step; [|run_cycle]). reflexivity. Qed.

(** C8. Failed cycles alternate with successful ones, so no two errors
    are consecutive.  The counter [consecutive_errors] is not cleared by
    the successful cycles; the sixth failure, a single fault after a
    success, enters recovery. *)
Theorem isolated_faults_enter_recovery :
  recovery_history 4 isolated_faults (started arena 1)
  = [(1, 0%nat); (1, 0%nat); (2, 0%nat); (2, 0%nat); (3, 0%nat); (3, 0%nat);
     (4, 0%nat); (4, 0%nat); (5, 0%nat); (5, 0%nat); (0, 1%nat)].
Proof. unfold isolated_faults. repeat (erewrite history_step; [|run_cycle]). reflexivity. Qed.

(** ** The allocator used as a stack *)

Import StackView.

Lemma pool_ok_inv (h : heap) :
  pool_ok h = true ->
  pool_start (ai_pool h) = buffer_base h /\
  pool_size (ai_pool h) = AI_MEMORY_POOL_SIZE /\
  0 < buffer_base h /\ buffer_base h mod 8 = 0 /\
  0 <= allocated_size (ai_pool h) <= pool_size (ai_pool h) /\
  allocated_size (ai_pool h) mod 8 = 0.
Proof.
  unfold pool_ok. rewrite !andb_true_iff.
  rewrite !Z.eqb_eq, !Z.leb_le, Z.ltb_lt. tauto.
Qed.

Lemma pool_ok_intro (h : heap) :
  pool_start (ai_pool h) = buffer_base h ->
  pool_size (ai_pool h) = AI_MEMORY_POOL_SIZE ->
  0 < buffer_base h -> buffer_base h mod 8 = 0 ->
  0 <= allocated_size (ai_pool h) <= pool_size (ai_pool h) ->
  allocated_size (ai_pool h) mod 8 = 0 ->
  pool_ok h = true.
Proof.
  intros. unfold pool_ok. rewrite !andb_true_iff.
  rewrite !Z.eqb_eq, !Z.leb_le, Z.ltb_lt. tauto.
Qed.

Lemma in_buffer_header (h : heap) (block k : Z) :
  buffer_base h <= block -> block + 16 <= buffer_base h + AI_MEMORY_POOL_SIZE ->
  block mod 8 = 0 -> k = 0 \/ k = 4 \/ k = 8 \/ k = 12 ->
  in_buffer h (block + k) = true.
Proof.
  intros Hlo Hhi Hal Hk. unfold in_buffer. rewrite !andb_true_iff.
  rewrite !Z.leb_le, Z.eqb_eq. repeat split; try lia.
  Z.div_mod_to_equations. lia.
Qed.

Lemma in_buffer_base (p : ai_memory_pool_t) (b : Z) (r : Z -> Z) (h : heap) (x : Z) :
  in_buffer (mkHeap p b (buffer_base h) r) x = in_buffer h x.
Proof. reflexivity. Qed.

(** An allocation that fits pushes a block on top of the bytes in use. *)
Lemma alloc_pushes (tick size : Z) (h : heap) :
  pool_ok h = true -> 0 < size <= INT_MAX ->
  allocated_size (ai_pool h) + (sizeof_memory_block_t + round_up8 size)
  <= pool_size (ai_pool h) ->
  ai_memory_alloc tick size h
  = Ok (buffer_base h + allocated_size (ai_pool h) + sizeof_memory_block_t,
        pushed h tick (round_up8 size)).
Proof.
  intros Hok Hsize Hfit.
  destruct (pool_ok_inv h Hok) as (Hstart & Hps & Hb0 & Hb8 & Hused & Hu8).
  pose proof (round_up8_bounds size) as [Hr Hr8].
  assert (Hcap : pool_size (ai_pool h) = 2621440) by (rewrite Hps; reflexivity).
  assert (Hmax : size <= 2147483647) by (unfold INT_MAX in Hsize; lia).
  assert (Hfit' : allocated_size (ai_pool h) + (16 + round_up8 size) <= 2621440)
    by (unfold sizeof_memory_block_t in Hfit; lia).
  assert (Hin : forall k, k = 0 \/ k = 4 \/ k = 8 \/ k = 12 ->
            in_buffer h (pool_start (ai_pool h) + allocated_size (ai_pool h) + k) = true).
  { intros k Hk. apply in_buffer_header; try assumption.
    - lia.
    - unfold AI_MEMORY_POOL_SIZE, NPU_MAX_MEMORY_BYTES. lia.
    - Z.div_mod_to_equations. lia. }
  unfold ai_memory_alloc.
  destruct (Z.eqb_spec size 0) as [?|_]; [lia|].
  rewrite align_size_round_up8 by lia.
  unfold sizeof_memory_block_t.
  rewrite (wrap32_small (16 + round_up8 size)) by lia.
  rewrite (wrap32_small (allocated_size (ai_pool h) + (16 + round_up8 size))) by lia.
  destruct (Z.gtb_spec (allocated_size (ai_pool h) + (16 + round_up8 size))
                       (pool_size (ai_pool h))) as [?|_]; [lia|].
  unfold store, off_magic, off_size, off_timestamp, off_next.
  rewrite (Hin 0) by tauto.
  cbn [bind ai_pool allocated_blocks buffer_base ram]. rewrite in_buffer_base.
  rewrite (Hin 4) by tauto.
  cbn [bind ai_pool allocated_blocks buffer_base ram]. rewrite in_buffer_base.
  rewrite (Hin 8) by tauto.
  cbn [bind ai_pool allocated_blocks buffer_base ram]. rewrite in_buffer_base.
  rewrite (Hin 12) by tauto.
  cbn [bind ai_pool allocated_blocks buffer_base ram].
  unfold pushed, header_written, set_pool, set_allocated_blocks,
    set_allocation_count, set_allocated_size, set_peak_usage,
    off_magic, off_size, off_timestamp, off_next, sizeof_memory_block_t.
  cbn [buffer_base ram ai_pool allocated_blocks allocated_size peak_usage
       allocation_count pool_start pool_end pool_size free_count leak_count].
  rewrite Hstart.
  destruct (allocated_size (ai_pool h) + (16 + round_up8 size) >? peak_usage (ai_pool h));
    reflexivity.
Qed.

(** Decide the address comparisons of a header access. *)
Ltac eqb_cases :=
  repeat match goal with
         | |- context [?a =? ?b] => destruct (Z.eqb_spec a b); try lia
         end.

Lemma same_stack_refl (h : heap) : same_stack h h.
Proof. unfold same_stack. repeat split; reflexivity. Qed.

Lemma same_stack_trans (h1 h2 h3 : heap) :
  same_stack h1 h2 -> same_stack h2 h3 -> same_stack h1 h3.
Proof.
  intros (B1 & S1 & C1 & A1 & L1 & R1) (B2 & S2 & C2 & A2 & L2 & R2).
  unfold same_stack. repeat split; try congruence.
  intros x Hx. rewrite R2, R1; [reflexivity|exact Hx|]. rewrite S1, A1. exact Hx.
Qed.

Lemma same_stack_pool_ok (h h' : heap) :
  same_stack h h' -> pool_ok h = true -> pool_ok h' = true.
Proof.
  intros (B & S & C & A & _ & _) Hok. unfold pool_ok in *.
  rewrite B, S, C, A. exact Hok.
Qed.

(** Freeing the block on top of the stack pops it, whatever was pushed
    and popped above it in between. *)
Lemma free_pops (fuel : nat) (tick sz : Z) (h h3 : heap) :
  pool_ok h = true -> 0 < sz ->
  allocated_size (ai_pool h) + (sizeof_memory_block_t + sz) <= pool_size (ai_pool h) ->
  sz mod 8 = 0 ->
  same_stack (pushed h tick sz) h3 ->
  exists h4,
    ai_memory_free fuel (buffer_base h + allocated_size (ai_pool h) + sizeof_memory_block_t) h3
    = Ok h4 /\ same_stack h h4.
Proof.
  intros Hok Hsz Hfit Hsz8 (B & S & C & A & L & R).
  destruct (pool_ok_inv h Hok) as (Hstart & Hps & Hb0 & Hb8 & Hused & Hu8).
  assert (Hcap : pool_size (ai_pool h) = 2621440) by (rewrite Hps; reflexivity).
  cbn [pushed buffer_base ai_pool pool_start pool_size allocated_size allocated_blocks ram]
    in B, S, C, A, L, R.
  unfold sizeof_memory_block_t in *.
  set (block := buffer_base h + allocated_size (ai_pool h)).
  assert (Hblock : pool_start (ai_pool h) + allocated_size (ai_pool h) = block)
    by (unfold block; lia).
  rewrite Hblock in L, R.
  assert (Hin : forall k, k = 0 \/ k = 4 \/ k = 8 \/ k = 12 -> in_buffer h3 (block + k) = true).
  { intros k Hk. apply in_buffer_header; rewrite ?B; unfold block; try assumption.
    - lia.
    - unfold AI_MEMORY_POOL_SIZE, NPU_MAX_MEMORY_BYTES. lia.
    - Z.div_mod_to_equations. lia. }
  assert (Hram : forall k, 0 <= k < 16 -> ram h3 (block + k) = header_written h block sz tick (block + k)).
  { intros k Hk. apply R. lia. }
  assert (Hmagic : load h3 (block + 16 - 16 + off_magic) = Ok MEMORY_MAGIC).
  { unfold load, off_magic. replace (block + 16 - 16 + 0) with (block + 0) by lia.
    rewrite (Hin 0) by tauto. rewrite Hram by lia. unfold header_written.
    unfold off_next, off_timestamp, off_size, off_magic.
    eqb_cases; reflexivity. }
  assert (Hnext : load h3 (block + 16 - 16 + off_next) = Ok (allocated_blocks h)).
  { unfold load, off_next. replace (block + 16 - 16 + 12) with (block + 12) by lia.
    rewrite (Hin 12) by tauto. rewrite Hram by lia. unfold header_written.
    unfold off_next. rewrite Z.eqb_refl. reflexivity. }
  unfold ai_memory_free, sizeof_memory_block_t.
  destruct (Z.eqb_spec (block + 16) NULL) as [E|_]; [unfold NULL, block in E; lia|].
  rewrite Hmagic. cbn [bind]. rewrite Z.eqb_refl. cbn [negb].
  rewrite L. replace (block + 16 - 16) with block by lia. rewrite Z.eqb_refl.
  replace (block + 16 - 16) with block in Hnext by lia. rewrite Hnext. cbn [bind].
  unfold release_block, load, store, set_allocated_blocks, set_pool.
  cbn [ai_pool allocated_blocks buffer_base ram]. rewrite in_buffer_base.
  unfold off_size, off_magic. rewrite (Hin 4) by tauto.
  cbn [bind ai_pool allocated_blocks buffer_base ram]. rewrite in_buffer_base.
  rewrite (Hin 0) by tauto.
  eexists. split; [reflexivity|].
  assert (Hsize : ram h3 (block + 4) = sz).
  { rewrite Hram by lia. unfold header_written.
    unfold off_next, off_timestamp, off_size.
    eqb_cases; reflexivity. }
  unfold same_stack, sizeof_memory_block_t.
  cbn [ai_pool allocated_blocks buffer_base ram pool_start pool_size allocated_size
       set_free_count set_allocated_size].
  rewrite Hsize, A.
  repeat split; try assumption.
  - rewrite (wrap32_small (16 + sz)) by lia. rewrite wrap32_small by lia. lia.
  - intros x Hx. destruct (Z.eqb_spec x (block + 0)) as [?|_]; [lia|].
    rewrite R by lia. unfold header_written.
    unfold off_next, off_timestamp, off_size, off_magic.
    eqb_cases; reflexivity.
Qed.

(** An allocation that fits followed by the free of its block leaves the
    stack as it was. *)
Lemma alloc_free_pair (fuel : nat) (tick size : Z) (h : heap) :
  pool_ok h = true -> 0 < size <= INT_MAX ->
  allocated_size (ai_pool h) + (sizeof_memory_block_t + round_up8 size)
  <= pool_size (ai_pool h) ->
  exists p h1 h2,
    ai_memory_alloc tick size h = Ok (p, h1) /\ (p =? NULL) = false /\
    ai_memory_free fuel p h1 = Ok h2 /\ same_stack h h2.
Proof.
  intros Hok Hsize Hfit.
  destruct (pool_ok_inv h Hok) as (Hstart & Hps & Hb0 & Hb8 & Hused & Hu8).
  pose proof (round_up8_bounds size) as [Hr Hr8].
  destruct (free_pops fuel tick (round_up8 size) h (pushed h tick (round_up8 size)))
    as (h2 & Hfree & Hsame); try assumption; [lia|apply same_stack_refl|].
  eexists. eexists. exists h2. split; [apply alloc_pushes; assumption|].
  split; [|split; assumption].
  apply Z.eqb_neq. unfold NULL, sizeof_memory_block_t. lia.
Qed.

(** An allocation that does not fit is turned away. *)
Lemma alloc_no_room (tick size : Z) (h : heap) :
  pool_ok h = true -> 0 < size <= INT_MAX ->
  allocated_size (ai_pool h) + (sizeof_memory_block_t + round_up8 size)
  > pool_size (ai_pool h) ->
  ai_memory_alloc tick size h = Ok (NULL, h).
Proof.
  intros Hok Hsize Hover.
  destruct (pool_ok_inv h Hok) as (Hstart & Hps & Hb0 & Hb8 & Hused & Hu8).
  pose proof (round_up8_bounds size) as [Hr Hr8].
  assert (Hcap : pool_size (ai_pool h) = 2621440) by (rewrite Hps; reflexivity).
  unfold INT_MAX, sizeof_memory_block_t in *.
  apply alloc_rejects_over_capacity; unfold sizeof_memory_block_t; lia.
Qed.

(** A block allocated into a pool with an empty list and never freed is
    reported by the leak check exactly when its age is above 30000 ms. *)
Lemma lone_block_reported_when_stale (fuel : nat) (tick now size : Z) (h : heap) :
  pool_ok h = true -> allocated_blocks h = NULL ->
  0 < size <= INT_MAX ->
  allocated_size (ai_pool h) + (sizeof_memory_block_t + round_up8 size)
  <= pool_size (ai_pool h) ->
  exists p h1 h2,
    ai_memory_alloc tick size h = Ok (p, h1) /\
    ai_memory_check_leaks (S (S fuel)) now h1
    = Ok ((if wrap32 (now - tick) >? 30000 then 1 else 0), h2) /\
    allocated_size (ai_pool h2) = allocated_size (ai_pool h1) /\
    allocated_blocks h2 = allocated_blocks h1.
Proof.
  intros Hok Hempty Hsize Hfit.
  destruct (pool_ok_inv h Hok) as (Hstart & Hps & Hb0 & Hb8 & Hused & Hu8).
  pose proof (round_up8_bounds size) as [Hr Hr8].
  assert (Hcap : pool_size (ai_pool h) = 2621440) by (rewrite Hps; reflexivity).
  unfold sizeof_memory_block_t in Hfit.
  eexists. exists (pushed h tick (round_up8 size)).
  exists (set_pool (pushed h tick (round_up8 size))
            (set_leak_count (ai_pool (pushed h tick (round_up8 size)))
               (wrap32 (leak_count (ai_pool (pushed h tick (round_up8 size)))
                        + (if wrap32 (now - tick) >? 30000 then 1 else 0))))).
  split; [apply alloc_pushes; assumption|].
  set (block := pool_start (ai_pool h) + allocated_size (ai_pool h)).
  assert (Hin : forall k, k = 0 \/ k = 4 \/ k = 8 \/ k = 12 ->
            in_buffer (pushed h tick (round_up8 size)) (block + k) = true).
  { intros k Hk. apply in_buffer_header; cbn [pushed buffer_base]; unfold block;
      try assumption.
    - lia.
    - unfold AI_MEMORY_POOL_SIZE, NPU_MAX_MEMORY_BYTES. lia.
    - Z.div_mod_to_equations. lia. }
  unfold ai_memory_check_leaks.
  cbn [pushed allocated_blocks]. fold block.
  cbn [count_stale].
  destruct (Z.eqb_spec block NULL) as [E|_]; [unfold block, NULL in E; lia|].
  unfold load. unfold off_timestamp, off_next.
  rewrite (Hin 8), (Hin 12) by tauto. cbn [bind].
  cbn [pushed ram]. fold block. unfold header_written at 1 2.
  unfold off_next, off_timestamp.
  rewrite Z.eqb_refl.
  destruct (Z.eqb_spec (block + 8) (block + 12)) as [?|_]; [lia|].
  rewrite Z.eqb_refl. rewrite Hempty. cbn [Z.eqb NULL].
  destruct (wrap32 (now - tick) >? 30000); cbn [bind];
    (split; [reflexivity|split; reflexivity]).
Qed.

(** ** The pipeline on the stack *)

Lemma ocr_detect_text_runs (fuel : nat) (a : accelerator) (max_boxes : Z) (h : heap) :
  pool_ok h = true ->
  allocated_size (ai_pool h) + (sizeof_memory_block_t + 1024) <= pool_size (ai_pool h) ->
  detection_status a = NEURAL_ART_SUCCESS ->
  exists h',
    ocr_detect_text fuel a max_boxes h
    = Ok (Z.of_nat (List.length (firstn (Z.to_nat max_boxes) (detection_boxes a))),
          firstn (Z.to_nat max_boxes) (detection_boxes a), h') /\
    same_stack h h'.
Proof.
  intros Hok Hfit Hstatus.
  destruct (alloc_free_pair fuel (tick_detection a) 1024 h Hok)
    as (p & h1 & h2 & Halloc & Hp & Hfree & Hsame).
  { unfold INT_MAX. lia. }
  { exact Hfit. }
  unfold ocr_detect_text. rewrite Halloc. cbn [bind]. rewrite Hp.
  rewrite Hstatus, Z.eqb_refl. cbn [negb]. rewrite Hfree. cbn [bind].
  exists h2. split; [reflexivity|exact Hsame].
Qed.

Lemma box_ok_inv (b : text_bbox_t) :
  box_ok b = true ->
  0 <= box_width b * box_height b * 2 <= INT_MAX.
Proof.
  unfold box_ok. rewrite !andb_true_iff, !Z.leb_le. intros [[Hw Hh] Hm]. nia.
Qed.

Lemma ocr_recognize_text_runs (fuel : nat) (a : accelerator) (i : nat)
  (b : text_bbox_t) (h : heap) :
  pool_ok h = true -> box_ok b = true ->
  exists h',
    ocr_recognize_text fuel a i b h
    = Ok (region_result a (pool_size (ai_pool h) - allocated_size (ai_pool h)) i b, h') /\
    same_stack h h'.
Proof.
  intros Hok Hbox. pose proof (box_ok_inv b Hbox) as Hbytes.
  unfold ocr_recognize_text, region_result.
  set (bytes := box_width b * box_height b * 2) in *.
  destruct (Z.gtb_spec bytes INT_MAX) as [?|_]; [lia|].
  destruct (Z.eqb_spec bytes 0) as [Hz|Hnz].
  { rewrite Hz. cbn [orb]. rewrite alloc_zero_size. cbn [bind].
    exists h. split; [reflexivity|apply same_stack_refl]. }
  cbn [orb].
  destruct (Z.ltb_spec (pool_size (ai_pool h) - allocated_size (ai_pool h))
                       (sizeof_memory_block_t + round_up8 bytes)) as [Hfull|Hfit].
  { rewrite alloc_no_room by (try assumption; lia). cbn [bind].
    exists h. split; [reflexivity|apply same_stack_refl]. }
  destruct (alloc_free_pair fuel (tick_region a i) bytes h Hok)
    as (p & h1 & h2 & Halloc & Hp & Hfree & Hsame); [lia|lia|].
  rewrite Halloc. cbn [bind]. rewrite Hp.
  destruct (recognition_status a i =? NEURAL_ART_SUCCESS);
    rewrite Hfree; cbn [bind]; exists h2; (split; [reflexivity|exact Hsame]).
Qed.

Lemma recognize_regions_runs (fuel : nat) (a : accelerator) (room : Z) :
  forall (boxes : list text_bbox_t) (i : nat) (acc acc' : aggregate) (h : heap),
    pool_ok h = true ->
    pool_size (ai_pool h) - allocated_size (ai_pool h) = room ->
    forallb box_ok boxes = true ->
    aggregate_fragments (fragments a room i boxes) acc = Ok acc' ->
    exists h', recognize_regions fuel a i boxes acc h = Ok (acc', h') /\ same_stack h h'.
Proof.
  induction boxes as [|b rest IH]; intros i acc acc' h Hok Hroom Hboxes Hagg.
  - cbn in Hagg. inversion Hagg; subst. exists h. split; [reflexivity|apply same_stack_refl].
  - cbn [forallb] in Hboxes. apply andb_prop in Hboxes. destruct Hboxes as [Hb Hrest].
    destruct (ocr_recognize_text_runs fuel a i b h Hok Hb) as (h1 & Hrun & Hsame).
    rewrite Hroom in Hrun.
    cbn [recognize_regions]. rewrite Hrun. cbn [bind].
    cbn [fragments aggregate_fragments] in Hagg.
    destruct (region_result a room i b) as [[status region_text] region_confidence].
    assert (Hok1 : pool_ok h1 = true) by (eapply same_stack_pool_ok; eassumption).
    assert (Hroom1 : pool_size (ai_pool h1) - allocated_size (ai_pool h1) = room).
    { destruct Hsame as (_ & _ & C & A & _). rewrite C, A. exact Hroom. }
    destruct (region_accepted status region_confidence).
    + destruct (append_fragment (combined_text acc) region_text) as [c| |];
        cbn [bind] in *; try discriminate.
      destruct (IH _ _ _ h1 Hok1 Hroom1 Hrest Hagg) as (h' & Hloop & Hsame').
      exists h'. split; [exact Hloop|eapply same_stack_trans; eassumption].
    + destruct (IH _ _ _ h1 Hok1 Hroom1 Hrest Hagg) as (h' & Hloop & Hsame').
      exists h'. split; [exact Hloop|eapply same_stack_trans; eassumption].
Qed.

Lemma in_firstn (A : Type) (n : nat) :
  forall (l : list A) (x : A), In x (firstn n l) -> In x l.
Proof.
  induction n as [|n IH]; intros [|y l] x H; cbn in *; try contradiction.
  destruct H as [->|H]; [left; reflexivity|right; apply IH; exact H].
Qed.

Lemma visited_boxes_ok (a : accelerator) :
  forallb box_ok (detection_boxes a) = true -> forallb box_ok (visited_boxes a) = true.
Proof.
  intros H. rewrite forallb_forall in *. intros b Hb. apply H.
  unfold visited_boxes in Hb. apply in_firstn in Hb. apply in_firstn in Hb. exact Hb.
Qed.

(** A frame that gets to the recognition loop is processed to the end:
    the call returns 0, the result is built from the aggregate of the
    fragments, the inference is counted, and the allocator's stack is as
    before. *)
Lemma ocr_process_frame_runs (fuel : nat) (a : accelerator) (f : frame_buffer_t)
  (r : ocr_result_t) (s : system) (acc : aggregate) :
  frame_runs a f s ->
  aggregate_fragments (frame_fragments a s) (mkAggregate EmptyString F32.zero 0) = Ok acc ->
  exists h',
    ocr_process_frame fuel a (Some f) r s
    = Ok (0,
          postprocess a acc
            (mkResult EmptyString F32.zero 0 0
               (Z.of_nat (List.length (firstn (Z.to_nat 16) (detection_boxes a))))
               (tick_result a) 0),
          set_context (set_mem s h')
                      (count_inference (recognized_regions acc) (ai_context s))) /\
    same_stack (mem s) h'.
Proof.
  intros (Hready & Hsize & Hok & Hfit & Hstatus & Hboxes) Hagg.
  destruct (pool_ok_inv (mem s) Hok) as (Hstart & Hps & Hb0 & Hb8 & Hused & Hu8).
  assert (Himg : round_up8 (OCR_INPUT_WIDTH * OCR_INPUT_HEIGHT * 2)
                 = OCR_INPUT_WIDTH * OCR_INPUT_HEIGHT * 2) by reflexivity.
  assert (Hval : OCR_INPUT_WIDTH * OCR_INPUT_HEIGHT * 2 = 153600) by reflexivity.
  unfold sizeof_memory_block_t in Hfit.
  set (h0 := mem s) in *.
  set (h1 := pushed h0 (tick_preprocessed a) (OCR_INPUT_WIDTH * OCR_INPUT_HEIGHT * 2)).
  assert (Hpush : ai_memory_alloc (tick_preprocessed a)
                    (OCR_INPUT_WIDTH * OCR_INPUT_HEIGHT * 2) h0
                  = Ok (buffer_base h0 + allocated_size (ai_pool h0) + sizeof_memory_block_t, h1)).
  { unfold h1. rewrite <- Himg at 2. apply alloc_pushes; [exact Hok| |].
    - rewrite Hval. unfold INT_MAX. lia.
    - rewrite Himg, Hval. unfold sizeof_memory_block_t. lia. }
  assert (Hok1 : pool_ok h1 = true).
  { unfold h1. apply pool_ok_intro;
      cbn [pushed ai_pool buffer_base pool_start pool_size allocated_size];
      try assumption.
    - rewrite Hval. unfold sizeof_memory_block_t. lia.
    - rewrite Hval. unfold sizeof_memory_block_t. Z.div_mod_to_equations. lia. }
  assert (Hused1 : allocated_size (ai_pool h1) = allocated_size (ai_pool h0) + (16 + 153600)).
  { unfold h1. cbn [pushed ai_pool allocated_size]. rewrite Hval. reflexivity. }
  assert (Hps1 : pool_size (ai_pool h1) = pool_size (ai_pool h0)) by reflexivity.
  destruct (ocr_detect_text_runs fuel a 16 h1 Hok1) as (h2 & Hdetect & Hsame12).
  { rewrite Hused1, Hps1. unfold sizeof_memory_block_t. lia. }
  { exact Hstatus. }
  assert (Hok2 : pool_ok h2 = true) by (eapply same_stack_pool_ok; eassumption).
  destruct (recognize_regions_runs fuel a (region_room s) (visited_boxes a) 0
              (mkAggregate EmptyString F32.zero 0) acc h2 Hok2) as (h3 & Hloop & Hsame23).
  { destruct Hsame12 as (_ & _ & C & A & _). rewrite C, A, Hused1, Hps1.
    unfold region_room. fold h0. rewrite Hval. unfold sizeof_memory_block_t. lia. }
  { apply visited_boxes_ok. exact Hboxes. }
  { exact Hagg. }
  destruct (free_pops fuel (tick_preprocessed a) (OCR_INPUT_WIDTH * OCR_INPUT_HEIGHT * 2)
              h0 h3 Hok) as (h4 & Hfree & Hsame04).
  { rewrite Hval. lia. }
  { rewrite Hval. unfold sizeof_memory_block_t. lia. }
  { reflexivity. }
  { fold h1. eapply same_stack_trans; eassumption. }
  destruct (ocr_preprocess_image_runs f Hsize) as (dst & Hpre).
  unfold ocr_process_frame.
  destruct (Z.eqb_spec (ready f) 0) as [?|_]; [contradiction|].
  fold h0. rewrite Hpush. cbn [bind].
  destruct (Z.eqb_spec (buffer_base h0 + allocated_size (ai_pool h0) + sizeof_memory_block_t)
                        NULL) as [E|_].
  { unfold NULL, sizeof_memory_block_t in E. lia. }
  rewrite Hpre. cbn [bind]. rewrite Z.eqb_refl. cbn [negb].
  rewrite Hdetect. cbn [bind].
  destruct (Z.ltb_spec (Z.of_nat (List.length (firstn (Z.to_nat 16) (detection_boxes a)))) 0)
    as [?|_]; [lia|].
  fold (visited_boxes a). rewrite Hloop. cbn [bind]. rewrite Hfree. cbn [bind].
  exists h4. split; [reflexivity|exact Hsame04].
Qed.

(** ** Aggregation *)

Lemma strlen_append (a b : string) :
  strlen (String.append a b) = strlen a + strlen b.
Proof.
  unfold strlen. induction a as [|c a IH]; cbn [String.append String.length].
  - lia.
  - rewrite !Nat2Z.inj_succ. lia.
Qed.

Lemma take_whole (s : string) :
  forall n, (String.length s <= n)%nat -> take n s = s.
Proof.
  induction s as [|c s IH]; intros [|n] H; cbn in *; try reflexivity; try lia.
  rewrite IH by lia. reflexivity.
Qed.

Lemma strlen_zero (s : string) : strlen s <= 0 -> s = EmptyString.
Proof. destruct s; [reflexivity|]. unfold strlen. cbn [String.length]. lia. Qed.

Lemma strlen_nonneg (s : string) : 0 <= strlen s.
Proof. unfold strlen. lia. Qed.

Lemma join_step_grows (c t : string) : strlen c <= strlen (join_step c t).
Proof.
  unfold join_step. destruct (Z.gtb_spec (strlen c) 0) as [H|H].
  - rewrite !strlen_append. pose proof (strlen_nonneg t).
    change (strlen " ") with 1. lia.
  - pose proof (strlen_nonneg t). lia.
Qed.

Lemma join_grows (ts : list string) :
  forall c, strlen c <= strlen (fold_left join_step ts c).
Proof.
  induction ts as [|t ts IH]; intros c; cbn [fold_left]; [lia|].
  pose proof (join_step_grows c t). pose proof (IH (join_step c t)). lia.
Qed.

(** While the text fits the buffer, appending a fragment is the join. *)
Lemma append_fragment_fits (c t : string) :
  strlen (join_step c t) <= 255 -> append_fragment c t = Ok (join_step c t).
Proof.
  unfold append_fragment, join_step, OCR_MAX_TEXT_LENGTH.
  destruct (Z.gtb_spec (strlen c) 0) as [Hc|Hc]; intros Hfit.
  - rewrite !strlen_append in Hfit. change (strlen " ") with 1 in Hfit.
    pose proof (strlen_nonneg t).
    destruct (Z.leb_spec (strlen c + 2) 256) as [_|?]; [|lia].
    cbn [bind]. rewrite strlen_append. change (strlen " ") with 1.
    rewrite take_whole; [reflexivity|]. unfold strlen in *. lia.
  - cbn [bind]. rewrite (strlen_zero c Hc) in *. change (strlen EmptyString) with 0.
    rewrite take_whole; [reflexivity|]. unfold strlen in *. lia.
Qed.

Lemma aggregate_rejected (frags : list (Z * string * F32.float)) (acc : aggregate) :
  filter above_half frags = [] -> aggregate_fragments frags acc = Ok acc.
Proof.
  induction frags as [|[[status txt] cf] rest IH]; intros H; [reflexivity|].
  cbn [filter] in H. cbn [aggregate_fragments].
  change (region_accepted status cf) with (above_half (status, txt, cf)).
  destruct (above_half (status, txt, cf)); [discriminate|]. apply IH. exact H.
Qed.

Lemma aggregate_accepted (frags : list (Z * string * F32.float)) :
  forall acc,
    strlen (fold_left join_step (map (fun fr => snd (fst fr)) (filter above_half frags))
                      (combined_text acc)) <= 255 ->
    aggregate_fragments frags acc
    = Ok (mkAggregate
            (fold_left join_step (map (fun fr => snd (fst fr)) (filter above_half frags))
                       (combined_text acc))
            (fold_left F32.add (map snd (filter above_half frags)) (total_confidence acc))
            (recognized_regions acc + Z.of_nat (List.length (filter above_half frags)))).
Proof.
  induction frags as [|[[status txt] cf] rest IH]; intros acc Hfit.
  - cbn. destruct acc. cbn. f_equal. f_equal. lia.
  - cbn [filter aggregate_fragments] in *.
    change (region_accepted status cf) with (above_half (status, txt, cf)).
    destruct (above_half (status, txt, cf)).
    + cbn [map fold_left List.length fst snd] in *.
      rewrite append_fragment_fits.
      2:{ pose proof (join_grows (map (fun fr => snd (fst fr)) (filter above_half rest))
                                 (join_step (combined_text acc) txt)). lia. }
      cbn [bind]. rewrite IH by exact Hfit.
      cbn [combined_text total_confidence recognized_regions].
      f_equal. f_equal. lia.
    + apply IH. exact Hfit.
Qed.

Lemma accept_result_keeps_failures (r : ocr_result_t) (t : Z) (s : system) :
  failed_inferences (stats (ai_context (accept_result r t s)))
  = failed_inferences (stats (ai_context s)) /\
  consecutive_errors (ai_context (accept_result r t s)) = consecutive_errors (ai_context s) /\
  recovery_attempts (accept_result r t s) = recovery_attempts s.
Proof.
  unfold accept_result, ai_stats_update_quality, ai_stats_update_timing.
  cbn [set_stats config stats set_context ai_context confidence_threshold].
  destruct (F32.leb _ _);
    match goal with |- context [if ?c >? ?d then _ else _] => destruct (c >? d) end;
    repeat split; reflexivity.
Qed.

(** C5. A ready frame gets to the recognition loop and none of its
    regions is accepted.  [ocr_process_frame] returns 0, the result has
    the empty text, zero confidence and zero counts, and the inference is
    counted as failed; the task loop takes the success branch, so
    [failed_inferences] grows by exactly one in the cycle and the error
    counter and the recovery are left alone. *)
Theorem zero_regions_is_counted_failure (fuel : nat) (e : cycle_env)
  (f : frame_buffer_t) (s : system) :
  camera_frame e = Some f ->
  frame_runs (npu e) f s ->
  filter above_half (frame_fragments (npu e) s) = [] ->
  (exists res s1,
     ocr_process_frame fuel (npu e) (Some f) (stack_ocr_result e) s = Ok (0, res, s1) /\
     text res = EmptyString /\ confidence res = F32.zero /\
     char_count res = 0 /\ word_count res = 0 /\
     failed_inferences (stats (ai_context s1))
     = wrap32 (failed_inferences (stats (ai_context s)) + 1) /\
     successful_inferences (stats (ai_context s1))
     = successful_inferences (stats (ai_context s)) /\
     total_inferences (stats (ai_context s1))
     = wrap32 (total_inferences (stats (ai_context s)) + 1)) /\
  (exists s2,
     ai_task_cycle fuel e s = Ok s2 /\
     failed_inferences (stats (ai_context s2))
     = wrap32 (failed_inferences (stats (ai_context s)) + 1) /\
     consecutive_errors (ai_context s2) = consecutive_errors (ai_context s) /\
     recovery_attempts s2 = recovery_attempts s).
Proof.
  intros Hframe Hruns Hnone.
  pose proof (aggregate_rejected _ (mkAggregate EmptyString F32.zero 0) Hnone) as Hagg.
  split.
  - destruct (ocr_process_frame_runs fuel (npu e) f (stack_ocr_result e) s _ Hruns Hagg)
      as (h' & Hrun & _).
    eexists. eexists. split; [exact Hrun|].
    cbn. repeat split; reflexivity.
  - set (s0 := set_context s (set_current_state (ai_context s) AI_STATE_INFERENCING)).
    destruct (ocr_process_frame_runs fuel (npu e) f (stack_ocr_result e) s0 _ Hruns Hagg)
      as (h' & Hrun & _).
    unfold ai_task_cycle. rewrite Hframe.
    destruct Hruns as (Hready & _).
    destruct (Z.eqb_spec (ready f) 0) as [?|_]; [contradiction|].
    fold s0. rewrite Hrun. cbn [bind]. rewrite Z.eqb_refl. cbn [bind].
    eexists. split; [reflexivity|].
    cbn [set_context ai_context set_current_state stats consecutive_errors recovery_attempts].
    match goal with
    | |- context [accept_result ?r ?t ?x] =>
        destruct (accept_result_keeps_failures r t x) as (Hf & Hc & Hr)
    end.
    rewrite Hf, Hc, Hr. cbn. repeat split; reflexivity.
Qed.

Lemma zero_regions_is_counted_failure_witness :
  exists s2,
    ai_task_cycle 4 (cycle_with recognition_fails) (started arena 1) = Ok s2 /\
    failed_inferences (stats (ai_context s2)) = 1 /\
    consecutive_errors (ai_context s2) = 0 /\
    recovery_attempts s2 = 0%nat.
Proof.
  destruct (zero_regions_is_counted_failure 4 (cycle_with recognition_fails)
              gray_frame (started arena 1)) as (_ & s2 & Hrun & Hf & Hc & Hr).
  - reflexivity.
  - unfold frame_runs. repeat split; try (vm_compute; congruence).
  - vm_compute. reflexivity.
  - exists s2. repeat split; assumption.
Defined.

(** Whatever the accelerator's output decodes to, the fragments kept by
    the recognition loop are those recognised with a confidence strictly
    above 0.5. *)
Lemma aggregation_keeps_fragments_above_half (fuel : nat) (a : accelerator)
  (f : frame_buffer_t) (r : ocr_result_t) (s : system) :
  frame_runs a f s ->
  strlen (join_fragments
            (map (fun fr => snd (fst fr)) (filter above_half (frame_fragments a s)))) <= 255 ->
  exists res s1,
    ocr_process_frame fuel a (Some f) r s = Ok (0, res, s1) /\
    text res
    = join_fragments (map (fun fr => snd (fst fr)) (filter above_half (frame_fragments a s))) /\
    confidence res
    = match filter above_half (frame_fragments a s) with
      | [] => F32.zero
      | kept => F32.div (sum_confidence (map snd kept)) (F32.of_Z (Z.of_nat (List.length kept)))
      end /\
    successful_inferences (stats (ai_context s1))
    = match filter above_half (frame_fragments a s) with
      | [] => successful_inferences (stats (ai_context s))
      | _ => wrap32 (successful_inferences (stats (ai_context s)) + 1)
      end.
Proof.
  intros Hruns Hfit.
  pose proof (aggregate_accepted (frame_fragments a s) (mkAggregate EmptyString F32.zero 0) Hfit)
    as Hagg.
  destruct (ocr_process_frame_runs fuel a f r s _ Hruns Hagg) as (h' & Hrun & _).
  eexists. eexists. split; [exact Hrun|].
  cbn [combined_text total_confidence recognized_regions] in *.
  fold (join_fragments (map (fun fr => snd (fst fr)) (filter above_half (frame_fragments a s))))
    in *.
  fold (sum_confidence (map snd (filter above_half (frame_fragments a s)))).
  unfold postprocess, count_inference.
  cbn [combined_text total_confidence recognized_regions set_context ai_context stats
       set_stats successful_inferences].
  destruct (filter above_half (frame_fragments a s)) as [|fr kept] eqn:Hkept.
  - cbn. repeat split; reflexivity.
  - assert (Hpos : (0 + Z.of_nat (List.length (fr :: kept)) >? 0) = true).
    { apply Z.gtb_lt. cbn [List.length]. lia. }
    rewrite Hpos. cbn [text confidence].
    split; [|split; reflexivity].
    apply take_whole. unfold strlen, OCR_MAX_TEXT_LENGTH in *. lia.
Qed.

(** X22. A ready frame gets to the recognition loop and the joined text
    of the accepted fragments fits the text buffer.  Whatever the
    accelerator's output decodes to, the fragments kept are those
    recognised with a confidence strictly above 0.5: the result's text
    is their texts joined by spaces, its confidence is the sum of their
    confidences divided by their number, and the inference counts as
    successful when at least one is kept. *)
Theorem fragments_above_half_are_aggregated (fuel : nat) (a : accelerator)
  (f : frame_buffer_t) (r : ocr_result_t) (s : system) :
  frame_runs a f s ->
  strlen (join_fragments
            (map (fun fr => snd (fst fr)) (filter above_half (frame_fragments a s)))) <= 255 ->
  exists res s1,
    ocr_process_frame fuel a (Some f) r s = Ok (0, res, s1) /\
    text res
    = join_fragments (map (fun fr => snd (fst fr)) (filter above_half (frame_fragments a s))) /\
    confidence res
    = match filter above_half (frame_fragments a s) with
      | [] => F32.zero
      | kept => F32.div (sum_confidence (map snd kept)) (F32.of_Z (Z.of_nat (List.length kept)))
      end /\
    successful_inferences (stats (ai_context s1))
    = match filter above_half (frame_fragments a s) with
      | [] => successful_inferences (stats (ai_context s))
      | _ => wrap32 (successful_inferences (stats (ai_context s)) + 1)
      end.
Proof. apply aggregation_keeps_fragments_above_half. Qed.

Lemma fragments_above_half_are_aggregated_witness :
  exists res s1,
    ocr_process_frame 4 (reads_with (F32.percent 92)) (Some gray_frame) blank_result
                      (started arena 1) = Ok (0, res, s1) /\
    text res = "Sample Text"%string /\
    confidence res = F32.percent 92.
Proof.
  destruct (fragments_above_half_are_aggregated 4 (reads_with (F32.percent 92))
              gray_frame blank_result (started arena 1))
    as (res & s1 & Hrun & Htext & Hconf & _).
  - unfold frame_runs. repeat split; try (vm_compute; congruence).
  - vm_compute. discriminate.
  - exists res, s1. split; [exact Hrun|]. split.
    + rewrite Htext. vm_compute. reflexivity.
    + rewrite Hconf. vm_compute. reflexivity.
Defined.




(** ** The allocator's counters *)

Import AiRest RestView PoolOps.

Lemma store_keeps_pool (h h' : heap) (a v : Z) :
  store h a v = Ok h' ->
  ai_pool h' = ai_pool h /\ allocated_blocks h' = allocated_blocks h /\
  buffer_base h' = buffer_base h.
Proof.
  intros E. destruct (store_inv _ _ _ _ E) as [_ ->]. repeat split; reflexivity.
Qed.

(** What a call of [ai_memory_alloc] does to the pool descriptor: nothing
    when it returns NULL from one of its two early exits; otherwise the
    bytes in use grow by the block size (in [uint32_t] arithmetic) to a
    value within the capacity, the allocation is counted, and the peak is
    the larger of the old peak and the new bytes in use. *)
Lemma alloc_descriptor (tick size : Z) (h : heap) (p : Z) (h' : heap) :
  ai_memory_alloc tick size h = Ok (p, h') ->
  (p = NULL /\ h' = h) \/
  (p = pool_start (ai_pool h) + allocated_size (ai_pool h) + sizeof_memory_block_t /\
   allocated_size (ai_pool h')
   = wrap32 (allocated_size (ai_pool h)
             + wrap32 (sizeof_memory_block_t + align_size size)) /\
   allocated_size (ai_pool h') <= pool_size (ai_pool h) /\
   allocation_count (ai_pool h') = wrap32 (allocation_count (ai_pool h) + 1) /\
   peak_usage (ai_pool h') = Z.max (peak_usage (ai_pool h)) (allocated_size (ai_pool h')) /\
   free_count (ai_pool h') = free_count (ai_pool h) /\
   leak_count (ai_pool h') = leak_count (ai_pool h) /\
   pool_start (ai_pool h') = pool_start (ai_pool h) /\
   pool_size (ai_pool h') = pool_size (ai_pool h) /\
   buffer_base h' = buffer_base h /\
   allocated_blocks h' = p - sizeof_memory_block_t).
Proof.
  unfold ai_memory_alloc.
  destruct (size =? 0). { intros E; inversion E; left; split; reflexivity. }
  set (total := wrap32 (sizeof_memory_block_t + align_size size)).
  destruct (Z.gtb_spec (wrap32 (allocated_size (ai_pool h) + total)) (pool_size (ai_pool h)))
    as [Hgt|Hle].
  { intros E; inversion E; left; split; reflexivity. }
  set (block := pool_start (ai_pool h) + allocated_size (ai_pool h)).
  destruct (store h (block + off_magic) MEMORY_MAGIC) as [h1| |] eqn:E1;
    cbn [bind]; try discriminate.
  destruct (store h1 (block + off_size) (align_size size)) as [h2| |] eqn:E2;
    cbn [bind]; try discriminate.
  destruct (store h2 (block + off_timestamp) tick) as [h3| |] eqn:E3;
    cbn [bind]; try discriminate.
  destruct (store h3 (block + off_next) (allocated_blocks h3)) as [h4| |] eqn:E4;
    cbn [bind]; try discriminate.
  destruct (store_keeps_pool _ _ _ _ E1) as (P1 & L1 & B1).
  destruct (store_keeps_pool _ _ _ _ E2) as (P2 & L2 & B2).
  destruct (store_keeps_pool _ _ _ _ E3) as (P3 & L3 & B3).
  destruct (store_keeps_pool _ _ _ _ E4) as (P4 & L4 & B4).
  intros E; inversion E; subst p h'; clear E. right.
  unfold set_pool, set_allocated_blocks, set_allocation_count, set_allocated_size,
    set_peak_usage.
  cbn [ai_pool allocated_blocks buffer_base allocated_size peak_usage allocation_count
       free_count leak_count pool_start pool_size pool_end].
  destruct (Z.gtb_spec (wrap32 (allocated_size (ai_pool h) + total)) (peak_usage (ai_pool h)));
    cbn [ai_pool allocated_blocks buffer_base allocated_size peak_usage allocation_count
         free_count leak_count pool_start pool_size pool_end];
    repeat split; try reflexivity; try assumption; try congruence; try lia.
Qed.

(** What a call of [ai_memory_free] does to the pool descriptor: it
    never touches the allocation count or the peak, and it either does
    nothing (NULL), or counts one leak, or counts one free. *)
Lemma free_descriptor (fuel : nat) (p : Z) (h h' : heap) :
  ai_memory_free fuel p h = Ok h' ->
  allocation_count (ai_pool h') = allocation_count (ai_pool h) /\
  peak_usage (ai_pool h') = peak_usage (ai_pool h) /\
  pool_start (ai_pool h') = pool_start (ai_pool h) /\
  pool_size (ai_pool h') = pool_size (ai_pool h) /\
  buffer_base h' = buffer_base h /\
  (h' = h \/
   h' = bump_leak_count h \/
   (free_count (ai_pool h') = wrap32 (free_count (ai_pool h) + 1) /\
    leak_count (ai_pool h') = leak_count (ai_pool h))).
Proof.
  assert (Hrel : forall g g' block,
            release_block g block = Ok g' ->
            allocation_count (ai_pool g') = allocation_count (ai_pool g) /\
            peak_usage (ai_pool g') = peak_usage (ai_pool g) /\
            pool_start (ai_pool g') = pool_start (ai_pool g) /\
            pool_size (ai_pool g') = pool_size (ai_pool g) /\
            buffer_base g' = buffer_base g /\
            free_count (ai_pool g') = wrap32 (free_count (ai_pool g) + 1) /\
            leak_count (ai_pool g') = leak_count (ai_pool g)).
  { intros g g' block. unfold release_block.
    destruct (load g (block + off_size)) as [sz| |]; cbn [bind]; try discriminate.
    intros E. destruct (store_inv _ _ _ _ E) as [_ ->]. repeat split; reflexivity. }
  unfold ai_memory_free.
  destruct (p =? NULL). { intros E; inversion E; subst. repeat split; try reflexivity. left; reflexivity. }
  destruct (load h (p - sizeof_memory_block_t + off_magic)) as [m| |];
    cbn [bind]; try discriminate.
  destruct (negb (m =? MEMORY_MAGIC)).
  { intros E; inversion E; subst. repeat split; try reflexivity. right; left; reflexivity. }
  destruct (allocated_blocks h =? p - sizeof_memory_block_t).
  - destruct (load h (p - sizeof_memory_block_t + off_next)) as [n| |];
      cbn [bind]; try discriminate.
    intros E. apply Hrel in E.
    destruct E as (A & P & S & C & B & F & L). cbn in A, P, S, C, B, F, L.
    repeat split; try assumption. right; right; split; assumption.
  - destruct (find_predecessor fuel h (allocated_blocks h) (p - sizeof_memory_block_t))
      as [cur| |]; cbn [bind]; try discriminate.
    destruct (cur =? NULL).
    { intros E; inversion E; subst. repeat split; try reflexivity. right; left; reflexivity. }
    destruct (load h (p - sizeof_memory_block_t + off_next)) as [n| |];
      cbn [bind]; try discriminate.
    destruct (store h (cur + off_next) n) as [h1| |] eqn:E1; cbn [bind]; try discriminate.
    destruct (store_keeps_pool _ _ _ _ E1) as (P1 & L1 & B1).
    intros E. apply Hrel in E.
    destruct E as (A & P & S & C & B & F & L). rewrite P1 in *.
    repeat split; try congruence. right; right; split; assumption.
Qed.

(** X1. No sequence of allocations, frees and leak checks lowers
    [peak_usage] or changes the pool's extent: the peak is a high-water
    mark. *)
Theorem peak_usage_never_decreases (fuel : nat) (ops : list pool_op) :
  forall h h',
    run_ops fuel ops h = Ok h' ->
    peak_usage (ai_pool h) <= peak_usage (ai_pool h') /\
    pool_size (ai_pool h') = pool_size (ai_pool h) /\
    pool_start (ai_pool h') = pool_start (ai_pool h).
Proof.
  induction ops as [|op rest IH]; intros h h' Hrun.
  - inversion Hrun; subst. repeat split; lia.
  - cbn [run_ops] in Hrun.
    destruct (run_op fuel op h) as [h1| |] eqn:Hop; cbn [bind] in Hrun; try discriminate.
    destruct (IH _ _ Hrun) as (Hp & Hs & Hst).
    assert (Hstep : peak_usage (ai_pool h) <= peak_usage (ai_pool h1) /\
                    pool_size (ai_pool h1) = pool_size (ai_pool h) /\
                    pool_start (ai_pool h1) = pool_start (ai_pool h)).
    { destruct op as [tick size|ptr|now]; cbn [run_op] in Hop.
      - destruct (ai_memory_alloc tick size h) as [[p g]| |] eqn:Ha;
          cbn [bind] in Hop; try discriminate.
        inversion Hop; subst g. cbn [snd] in *.
        destruct (alloc_descriptor _ _ _ _ _ Ha) as [[_ ->]|(_ & _ & _ & _ & Hpk & _ & _ & Hst1 & Hs1 & _)].
        + repeat split; lia.
        + repeat split; try assumption. lia.
      - destruct (free_descriptor _ _ _ _ Hop) as (_ & Hpk & Hst1 & Hs1 & _).
        repeat split; try assumption. lia.
      - unfold ai_memory_check_leaks in Hop.
        destruct (count_stale fuel h (allocated_blocks h) now 0) as [n| |];
          cbn [bind] in Hop; try discriminate.
        inversion Hop; subst. cbn. repeat split; lia. }
    destruct Hstep as (Hp1 & Hs1 & Hst1). repeat split; try congruence. lia.
Qed.

Lemma peak_usage_never_decreases_witness :
  exists h',
    run_ops 4 [OpAlloc 1 1000; OpFree (arena + 16); OpCheckLeaks 40000] (fresh arena) = Ok h' /\
    peak_usage (ai_pool (fresh arena)) <= peak_usage (ai_pool h').
Proof.
  eexists. split; [vm_compute; reflexivity|].
  eapply (peak_usage_never_decreases 4
            [OpAlloc 1 1000; OpFree (arena + 16); OpCheckLeaks 40000]).
  vm_compute. reflexivity.
Defined.

(** X2. With the pool at a non-negative address, a call of
    [ai_memory_alloc] that returns NULL has changed nothing, and one that
    returns a block leaves the bytes in use within the capacity and at
    most at the peak, counts the allocation and puts the block at the
    head of the list. *)
Theorem alloc_null_or_within_capacity (tick size : Z) (h : heap) (p : Z) (h' : heap) :
  0 <= pool_start (ai_pool h) -> 0 <= allocated_size (ai_pool h) ->
  ai_memory_alloc tick size h = Ok (p, h') ->
  (p = NULL -> h' = h) /\
  (p <> NULL ->
   allocated_size (ai_pool h') <= pool_size (ai_pool h') /\
   allocated_size (ai_pool h') <= peak_usage (ai_pool h') /\
   allocation_count (ai_pool h') = wrap32 (allocation_count (ai_pool h) + 1) /\
   allocated_blocks h' = p - sizeof_memory_block_t).
Proof.
  intros Hstart Hused Ha.
  destruct (alloc_descriptor _ _ _ _ _ Ha)
    as [[Hp ->]|(Hp & _ & Hcap & Hcount & Hpeak & _ & _ & _ & Hsize & _ & Hhead)].
  - split; [reflexivity|]. intros Hn. contradiction.
  - split.
    + intros Hnull. unfold NULL, sizeof_memory_block_t in *. lia.
    + intros _. rewrite Hsize. repeat split; try assumption. lia.
Qed.

Lemma alloc_null_or_within_capacity_witness :
  allocated_size (ai_pool one_block) <= pool_size (ai_pool one_block) /\
  allocation_count (ai_pool one_block) = 1.
Proof.
  destruct (alloc_null_or_within_capacity 0 1024 (fresh arena) (arena + 16) one_block)
    as (_ & Hsome).
  - vm_compute. discriminate.
  - vm_compute. discriminate.
  - vm_compute. reflexivity.
  - destruct Hsome as (Hcap & _ & Hcount & _).
    + vm_compute. discriminate.
    + split; [exact Hcap|exact Hcount].
Defined.

(** X3. A request that is empty, or whose block does not fit the pool
    (the sum taken in unbounded integers and below 2^32), is refused with
    NULL and the allocator is left exactly as it was. *)
Theorem alloc_without_room_is_refused (tick size : Z) (h : heap) :
  0 <= size -> 0 <= allocated_size (ai_pool h) ->
  allocated_size (ai_pool h) + sizeof_memory_block_t + round_up8 size < 4294967296 ->
  size = 0 \/
  allocated_size (ai_pool h) + sizeof_memory_block_t + round_up8 size
  > pool_size (ai_pool h) ->
  ai_memory_alloc tick size h = Ok (NULL, h).
Proof.
  intros Hsize Hused Hnowrap [->|Hover].
  - apply alloc_zero_size.
  - destruct (Z.eq_dec size 0) as [->|Hnz]; [apply alloc_zero_size|].
    apply alloc_rejects_over_capacity; try assumption. lia.
Qed.

Lemma alloc_without_room_is_refused_witness :
  ai_memory_alloc 7 2621440 one_block = Ok (NULL, one_block).
Proof.
  apply alloc_without_room_is_refused.
  - lia.
  - vm_compute. discriminate.
  - vm_compute. reflexivity.
  - right. vm_compute. reflexivity.
Defined.

(** X4. On a well-formed pool with room, [ai_memory_alloc] returns an
    8-byte aligned pointer whose [size] bytes lie inside the arena above
    everything in use; the header before it carries the magic tag, the
    aligned size, the tick and the previous list head; the bytes in use
    grow by the header plus the aligned size; the words below the old
    bytes in use are untouched; and the pool stays well-formed. *)
Theorem alloc_returns_fresh_aligned_block (tick size : Z) (h : heap) :
  pool_ok h = true -> 0 < size <= INT_MAX -> has_room h size = true ->
  exists p h',
    ai_memory_alloc tick size h = Ok (p, h') /\
    p mod 8 = 0 /\
    buffer_base h + allocated_size (ai_pool h) + sizeof_memory_block_t = p /\
    p + size <= buffer_base h + allocated_size (ai_pool h') /\
    allocated_size (ai_pool h')
    = allocated_size (ai_pool h) + sizeof_memory_block_t + round_up8 size /\
    allocated_size (ai_pool h') <= AI_MEMORY_POOL_SIZE /\
    load h' (p - sizeof_memory_block_t + off_magic) = Ok MEMORY_MAGIC /\
    load h' (p - sizeof_memory_block_t + off_size) = Ok (round_up8 size) /\
    load h' (p - sizeof_memory_block_t + off_timestamp) = Ok tick /\
    load h' (p - sizeof_memory_block_t + off_next) = Ok (allocated_blocks h) /\
    allocated_blocks h' = p - sizeof_memory_block_t /\
    (forall x, x < buffer_base h + allocated_size (ai_pool h) -> ram h' x = ram h x) /\
    pool_ok h' = true.
Proof.
  intros Hok Hsize Hroom.
  unfold has_room in Hroom. apply Z.leb_le in Hroom.
  destruct (pool_ok_inv h Hok) as (Hstart & Hps & Hb0 & Hb8 & Hused & Hu8).
  pose proof (round_up8_bounds size) as [Hr Hr8].
  assert (Hcap : pool_size (ai_pool h) = 2621440) by (rewrite Hps; reflexivity).
  unfold sizeof_memory_block_t in *.
  eexists. eexists. split; [apply alloc_pushes; assumption|].
  set (block := buffer_base h + allocated_size (ai_pool h)).
  assert (Hin : forall k, k = 0 \/ k = 4 \/ k = 8 \/ k = 12 ->
            in_buffer (pushed h tick (round_up8 size)) (block + k) = true).
  { intros k Hk. apply in_buffer_header; cbn [pushed buffer_base]; unfold block;
      try assumption.
    - lia.
    - unfold AI_MEMORY_POOL_SIZE, NPU_MAX_MEMORY_BYTES. lia.
    - Z.div_mod_to_equations. lia. }
  assert (Hload : forall k, k = 0 \/ k = 4 \/ k = 8 \/ k = 12 ->
            load (pushed h tick (round_up8 size)) (block + 16 - 16 + k)
            = Ok (header_written h block (round_up8 size) tick (block + k))).
  { intros k Hk. replace (block + 16 - 16 + k) with (block + k) by lia.
    unfold load. rewrite (Hin k Hk). cbn [pushed ram]. rewrite Hstart. reflexivity. }
  unfold sizeof_memory_block_t. fold block.
  cbn [pushed ai_pool allocated_size allocated_blocks buffer_base].
  unfold off_magic, off_size, off_timestamp, off_next.
  rewrite !Hload by tauto. unfold header_written, off_magic, off_size, off_timestamp, off_next.
  rewrite Hstart. fold block. unfold sizeof_memory_block_t.
  split. { unfold block. Z.div_mod_to_equations. lia. }
  split. { reflexivity. }
  split. { lia. }
  split. { lia. }
  split. { unfold AI_MEMORY_POOL_SIZE, NPU_MAX_MEMORY_BYTES. lia. }
  split. { eqb_cases; reflexivity. }
  split. { eqb_cases; reflexivity. }
  split. { eqb_cases; reflexivity. }
  split. { eqb_cases; reflexivity. }
  split. { lia. }
  split.
  { intros x Hx. cbn [ram pushed].
    unfold header_written, off_magic, off_size, off_timestamp, off_next.
    rewrite Hstart. fold block. eqb_cases; reflexivity. }
  apply pool_ok_intro;
    cbn [pushed ai_pool buffer_base pool_start pool_size allocated_size];
    try assumption.
  - unfold sizeof_memory_block_t. lia.
  - unfold sizeof_memory_block_t. Z.div_mod_to_equations. lia.
Qed.

Lemma alloc_returns_fresh_aligned_block_witness :
  exists p h',
    ai_memory_alloc 3 100 one_block = Ok (p, h') /\
    p mod 8 = 0 /\
    allocated_size (ai_pool h') = 1040 + 16 + 104.
Proof.
  destruct (alloc_returns_fresh_aligned_block 3 100 one_block)
    as (p & h' & Ha & Hal & _ & _ & Hused & _).
  - vm_compute. reflexivity.
  - unfold INT_MAX. lia.
  - vm_compute. reflexivity.
  - exists p, h'. split; [exact Ha|]. split; [exact Hal|]. rewrite Hused. vm_compute. reflexivity.
Defined.

(** ** The allocator under a stack discipline *)

Lemma wrap32_add_l (a b : Z) : wrap32 (wrap32 a + b) = wrap32 (a + b).
Proof. unfold wrap32. rewrite Z.add_mod_idemp_l by lia. reflexivity. Qed.

Lemma pushed_pool_ok (tick size : Z) (h : heap) :
  pool_ok h = true -> 0 < size ->
  allocated_size (ai_pool h) + (sizeof_memory_block_t + round_up8 size)
  <= pool_size (ai_pool h) ->
  pool_ok (pushed h tick (round_up8 size)) = true.
Proof.
  intros Hok Hsize Hfit.
  destruct (pool_ok_inv h Hok) as (Hstart & Hps & Hb0 & Hb8 & Hused & Hu8).
  pose proof (round_up8_bounds size) as [Hr Hr8].
  unfold sizeof_memory_block_t in *.
  apply pool_ok_intro;
    cbn [pushed ai_pool buffer_base pool_start pool_size allocated_size];
    try assumption.
  - unfold sizeof_memory_block_t. lia.
  - unfold sizeof_memory_block_t. Z.div_mod_to_equations. lia.
Qed.

(** The free that pops the top block counts as a free, not as a leak. *)
Lemma free_pops_counted (fuel : nat) (tick sz : Z) (h h3 : heap) :
  pool_ok h = true -> 0 < sz ->
  allocated_size (ai_pool h) + (sizeof_memory_block_t + sz) <= pool_size (ai_pool h) ->
  sz mod 8 = 0 ->
  same_stack (pushed h tick sz) h3 ->
  exists h4,
    ai_memory_free fuel (buffer_base h + allocated_size (ai_pool h) + sizeof_memory_block_t) h3
    = Ok h4 /\ same_stack h h4 /\
    allocation_count (ai_pool h4) = allocation_count (ai_pool h3) /\
    peak_usage (ai_pool h4) = peak_usage (ai_pool h3) /\
    free_count (ai_pool h4) = wrap32 (free_count (ai_pool h3) + 1) /\
    leak_count (ai_pool h4) = leak_count (ai_pool h3).
Proof.
  intros Hok Hsz Hfit Hsz8 Hsame.
  destruct (free_pops fuel tick sz h h3 Hok Hsz Hfit Hsz8 Hsame) as (h4 & Hfree & Hsame4).
  exists h4. split; [exact Hfree|]. split; [exact Hsame4|].
  destruct (free_descriptor _ _ _ _ Hfree) as (Hac & Hpk & _ & _ & _ & Hcase).
  split; [exact Hac|]. split; [exact Hpk|].
  destruct Hsame as (_ & _ & _ & A3 & _). destruct Hsame4 as (_ & _ & _ & A4 & _).
  cbn [pushed ai_pool allocated_size] in A3. unfold sizeof_memory_block_t in A3.
  destruct Hcase as [->|[->|Hcount]].
  - lia.
  - cbn in A4. lia.
  - exact Hcount.
Qed.

Lemma nest_bytes_nonneg (requests : list (Z * Z)) :
  forallb request_ok requests = true -> 0 <= nest_bytes requests.
Proof.
  induction requests as [|[tick size] rest IH]; intros H; cbn [nest_bytes]; [lia|].
  cbn [forallb] in H. apply andb_prop in H. destruct H as [Hr Hrest].
  unfold request_ok in Hr. cbn [snd] in Hr. apply andb_prop in Hr.
  destruct Hr as [Hpos _]. apply Z.ltb_lt in Hpos.
  pose proof (round_up8_bounds size) as [Hb _]. specialize (IH Hrest).
  unfold sizeof_memory_block_t. lia.
Qed.

(** X5. Allocations that are nested like calls (each block freed after
    all later ones) and fit the pool balance: the run returns, the bytes
    in use and the list head are as before it, every allocation and every
    free is counted once, and no leak is counted. *)
Theorem nested_calls_balance (fuel : nat) (requests : list (Z * Z)) :
  forall h,
    pool_ok h = true ->
    forallb request_ok requests = true ->
    allocated_size (ai_pool h) + nest_bytes requests <= pool_size (ai_pool h) ->
    0 <= allocation_count (ai_pool h) < 4294967296 ->
    0 <= free_count (ai_pool h) < 4294967296 ->
    exists h',
      nested_calls fuel requests h = Ok h' /\
      allocated_size (ai_pool h') = allocated_size (ai_pool h) /\
      allocated_blocks h' = allocated_blocks h /\
      allocation_count (ai_pool h')
      = wrap32 (allocation_count (ai_pool h) + Z.of_nat (List.length requests)) /\
      free_count (ai_pool h')
      = wrap32 (free_count (ai_pool h) + Z.of_nat (List.length requests)) /\
      leak_count (ai_pool h') = leak_count (ai_pool h) /\
      same_stack h h'.
Proof.
  induction requests as [|[tick size] rest IH]; intros h Hok Hreq Hfit Hac Hfc.
  - exists h. cbn [nested_calls List.length Z.of_nat].
    rewrite !Z.add_0_r, !wrap32_small by assumption.
    repeat split; reflexivity.
  - cbn [forallb] in Hreq. apply andb_prop in Hreq. destruct Hreq as [Hr Hrest].
    unfold request_ok in Hr. cbn [snd] in Hr. apply andb_prop in Hr.
    destruct Hr as [Hpos Hmax]. apply Z.ltb_lt in Hpos. apply Z.leb_le in Hmax.
    pose proof (nest_bytes_nonneg rest Hrest) as Hnn.
    pose proof (round_up8_bounds size) as [Hb Hb8].
    cbn [nest_bytes] in Hfit.
    assert (Hroom : allocated_size (ai_pool h) + (sizeof_memory_block_t + round_up8 size)
                    <= pool_size (ai_pool h)) by lia.
    pose proof (alloc_pushes tick size h Hok (conj Hpos Hmax) Hroom) as Halloc.
    pose proof (pushed_pool_ok tick size h Hok Hpos Hroom) as Hok1.
    destruct (IH (pushed h tick (round_up8 size)) Hok1 Hrest)
      as (h2 & Hrun & _ & _ & Hac2 & Hfc2 & Hlk2 & Hsame2).
    { cbn [pushed ai_pool allocated_size pool_size]. lia. }
    { cbn [pushed ai_pool allocation_count]. apply wrap32_range. }
    { cbn [pushed ai_pool free_count]. exact Hfc. }
    destruct (free_pops_counted fuel tick (round_up8 size) h h2 Hok)
      as (h4 & Hfree & Hsame4 & Hac4 & _ & Hfc4 & Hlk4); try assumption; [lia|].
    exists h4. cbn [nested_calls]. rewrite Halloc. cbn [bind fst snd].
    rewrite Hrun. cbn [bind]. rewrite Hfree.
    destruct Hsame4 as (B & S & C & A & L & R).
    split; [reflexivity|]. split; [exact A|]. split; [exact L|].
    cbn [pushed ai_pool allocation_count free_count leak_count] in Hac2, Hfc2, Hlk2.
    split; [|split; [|split]].
    + rewrite Hac4, Hac2, wrap32_add_l. f_equal. cbn [List.length]. lia.
    + rewrite Hfc4, Hfc2, wrap32_add_l. f_equal. cbn [List.length]. lia.
    + congruence.
    + unfold same_stack. repeat split; assumption.
Qed.

Lemma nested_calls_balance_witness :
  exists h',
    nested_calls 1 [(1, 153600); (2, 1024); (3, 19200)] (fresh arena) = Ok h' /\
    allocated_size (ai_pool h') = 0 /\
    allocation_count (ai_pool h') = 3 /\
    free_count (ai_pool h') = 3 /\
    leak_count (ai_pool h') = 0.
Proof.
  destruct (nested_calls_balance 1 [(1, 153600); (2, 1024); (3, 19200)] (fresh arena))
    as (h' & Hrun & Hused & _ & Hac & Hfc & Hlk & _).
  - vm_compute. reflexivity.
  - vm_compute. reflexivity.
  - vm_compute. discriminate.
  - vm_compute. split; [discriminate|reflexivity].
  - vm_compute. split; [discriminate|reflexivity].
  - exists h'. repeat split; assumption.
Defined.

(** X6. [ai_memory_init] resets the counters and the list but leaves the
    arena's words: a pointer handed out before the reset still has a
    valid tag, its block is not on the new list, and freeing it only
    counts a leak. *)
Theorem free_after_reinit_counts_leak (fuel : nat) (tick size : Z) (h : heap) :
  pool_ok h = true -> 0 < size <= INT_MAX -> has_room h size = true ->
  exists p h1,
    ai_memory_alloc tick size h = Ok (p, h1) /\
    load (snd (ai_memory_init h1)) (p - sizeof_memory_block_t + off_magic) = Ok MEMORY_MAGIC /\
    ai_memory_free (S fuel) p (snd (ai_memory_init h1))
    = Ok (bump_leak_count (snd (ai_memory_init h1))) /\
    allocated_size (ai_pool (bump_leak_count (snd (ai_memory_init h1)))) = 0 /\
    free_count (ai_pool (bump_leak_count (snd (ai_memory_init h1)))) = 0 /\
    leak_count (ai_pool (bump_leak_count (snd (ai_memory_init h1)))) = 1.
Proof.
  intros Hok Hsize Hroom.
  unfold has_room in Hroom. apply Z.leb_le in Hroom.
  destruct (pool_ok_inv h Hok) as (Hstart & Hps & Hb0 & Hb8 & Hused & Hu8).
  pose proof (round_up8_bounds size) as [Hr Hr8].
  assert (Hcap : pool_size (ai_pool h) = 2621440) by (rewrite Hps; reflexivity).
  eexists. eexists. split; [apply alloc_pushes; assumption|].
  unfold sizeof_memory_block_t in *.
  set (block := buffer_base h + allocated_size (ai_pool h)).
  set (h1 := pushed h tick (round_up8 size)).
  assert (Hmagic : load (snd (ai_memory_init h1)) (block + 16 - 16 + off_magic)
                   = Ok MEMORY_MAGIC).
  { unfold load. replace (block + 16 - 16 + off_magic) with (block + 0)
      by (unfold off_magic; lia).
    cbn [ai_memory_init snd]. rewrite in_buffer_base.
    rewrite in_buffer_header; cbn [h1 pushed buffer_base]; unfold block; try assumption;
      try tauto.
    - unfold h1. cbn [ram pushed].
      unfold header_written, off_magic, off_size, off_timestamp, off_next.
      rewrite Hstart. fold block. eqb_cases; reflexivity.
    - lia.
    - unfold AI_MEMORY_POOL_SIZE, NPU_MAX_MEMORY_BYTES. lia.
    - Z.div_mod_to_equations. lia. }
  split; [exact Hmagic|]. split; [|repeat split; reflexivity].
  unfold ai_memory_free, sizeof_memory_block_t.
  destruct (Z.eqb_spec (block + 16) NULL) as [E|_]; [unfold NULL, block in E; lia|].
  rewrite Hmagic. cbn [bind]. rewrite Z.eqb_refl. cbn [negb].
  cbn [ai_memory_init snd allocated_blocks].
  destruct (Z.eqb_spec NULL (block + 16 - 16)) as [E|_]; [unfold NULL, block in E; lia|].
  cbn [find_predecessor]. rewrite Z.eqb_refl. cbn [bind]. rewrite Z.eqb_refl.
  reflexivity.
Qed.

Lemma free_after_reinit_counts_leak_witness :
  exists p h1,
    ai_memory_alloc 5 64 (fresh arena) = Ok (p, h1) /\
    ai_memory_free 1 p (snd (ai_memory_init h1))
    = Ok (bump_leak_count (snd (ai_memory_init h1))).
Proof.
  destruct (free_after_reinit_counts_leak 0 5 64 (fresh arena))
    as (p & h1 & Ha & _ & Hf & _).
  - vm_compute. reflexivity.
  - unfold INT_MAX. lia.
  - vm_compute. reflexivity.
  - exists p, h1. split; assumption.
Defined.

Lemma count_stale_ignores_descriptor (fuel : nat) (h : heap) (p : ai_memory_pool_t)
  (now : Z) :
  forall current count,
    count_stale fuel (set_pool h p) current now count = count_stale fuel h current now count.
Proof.
  induction fuel as [|fuel IH]; intros current count; [reflexivity|].
  cbn [count_stale]. destruct (current =? NULL); [reflexivity|].
  unfold load, set_pool. rewrite !in_buffer_base. cbn [ram].
  fold (set_pool h p).
  destruct (in_buffer h (current + off_timestamp)); cbn [bind]; [|reflexivity].
  destruct (in_buffer h (current + off_next)); cbn [bind]; [|reflexivity].
  apply IH.
Qed.

(** X7. The pool's [leak_count] counts reports, not blocks: two leak
    checks at the same tick return the same number and the counter grows
    by it twice. *)
Theorem check_leaks_twice_counts_twice (fuel : nat) (now : Z) (h : heap)
  (bs : list (Z * Z)) :
  list_blocks fuel h (allocated_blocks h) = Ok bs ->
  exists n h1 h2,
    ai_memory_check_leaks fuel now h = Ok (n, h1) /\
    ai_memory_check_leaks fuel now h1 = Ok (n, h2) /\
    n = wrap32 (Z.of_nat (List.length (filter (stale now) bs))) /\
    leak_count (ai_pool h2) = wrap32 (leak_count (ai_pool h) + n + n) /\
    allocated_size (ai_pool h2) = allocated_size (ai_pool h) /\
    allocated_blocks h2 = allocated_blocks h /\
    ram h2 = ram h.
Proof.
  intros Hl.
  pose proof (count_stale_follows_list fuel h now _ 0 bs Hl) as Hcount.
  assert (Hfold :
    fold_left (fun k b => if stale now b then wrap32 (k + 1) else k) bs 0
    = wrap32 (Z.of_nat (List.length (filter (stale now) bs)))).
  { change 0 with (wrap32 0) at 1. rewrite count_stale_adds. reflexivity. }
  rewrite Hfold in Hcount.
  set (n := wrap32 (Z.of_nat (List.length (filter (stale now) bs)))) in *.
  unfold ai_memory_check_leaks. rewrite Hcount. cbn [bind].
  eexists. eexists. eexists. split; [reflexivity|].
  cbn [allocated_blocks set_pool]. fold (set_pool h (set_leak_count (ai_pool h)
    (wrap32 (leak_count (ai_pool h) + n)))).
  rewrite count_stale_ignores_descriptor, Hcount. cbn [bind].
  split; [reflexivity|]. split; [reflexivity|].
  cbn. rewrite wrap32_add_l. repeat split; reflexivity.
Qed.

Lemma check_leaks_twice_counts_twice_witness :
  exists h1 h2,
    ai_memory_check_leaks 3 40000 two_live_blocks = Ok (1, h1) /\
    ai_memory_check_leaks 3 40000 h1 = Ok (1, h2) /\
    leak_count (ai_pool h2) = 2.
Proof.
  destruct (check_leaks_twice_counts_twice 3 40000 two_live_blocks
              [(arena + 1040, 20000); (arena, 0)])
    as (n & h1 & h2 & H1 & H2 & Hn & Hleak & _).
  - vm_compute. reflexivity.
  - subst n. exists h1, h2. split; [exact H1|]. split; [exact H2|].
    rewrite Hleak. vm_compute. reflexivity.
Defined.

(** ** Preprocessing of arbitrary frames *)

Lemma all_from_sound (P : Z -> bool) (n : nat) :
  forall c, all_from n c P = true -> forall z, c <= z < c + Z.of_nat n -> P z = true.
Proof.
  induction n as [|n IH]; intros c Hall z Hz; [lia|].
  cbn [all_from] in Hall. apply andb_prop in Hall. destruct Hall as [Hhere Hrest].
  destruct (Z.eq_dec z c) as [->|Hne]; [exact Hhere|].
  apply (IH (c + 1) Hrest). lia.
Qed.

Lemma unpacks_all :
  all_from 32 0 (fun r => all_from 64 0 (fun g => all_from 32 0 (fun b => unpacks r g b)))
  = true.
Proof. vm_compute. reflexivity. Qed.

(** Packing three channel values and unpacking them gives them back. *)
Lemma unpack_pack (r g b : Z) :
  0 <= r < 32 -> 0 <= g < 64 -> 0 <= b < 32 ->
  red (pack r g b) = r /\ green (pack r g b) = g /\ blue (pack r g b) = b.
Proof.
  intros Hr Hg Hb.
  pose proof (all_from_sound _ _ _ unpacks_all r ltac:(lia)) as H1. cbv beta in H1.
  pose proof (all_from_sound _ _ _ H1 g ltac:(lia)) as H2. cbv beta in H2.
  pose proof (all_from_sound _ _ _ H2 b ltac:(lia)) as H3. cbv beta in H3.
  unfold unpacks in H3. rewrite !andb_true_iff, !Z.eqb_eq in H3. tauto.
Qed.

Lemma channel_ranges (p : Z) :
  0 <= p < 65536 -> 0 <= red p < 32 /\ 0 <= green p < 64 /\ 0 <= blue p < 32.
Proof.
  intros Hp. unfold red, green, blue.
  change 63 with (Z.ones 6). change 31 with (Z.ones 5).
  rewrite !Z.land_ones by lia. rewrite !Z.shiftr_div_pow2 by lia.
  change (2 ^ 11) with 2048. change (2 ^ 6) with 64. change (2 ^ 5) with 32.
  repeat split; Z.div_mod_to_equations; lia.
Qed.

Lemma pack_range (r g b : Z) : 0 <= pack r g b < 65536.
Proof. unfold pack. apply Z.mod_pos_bound. lia. Qed.

Lemma preprocess_row_pixels (f : frame_buffer_t) (y : Z) (n : nat) :
  forall x row,
    preprocess_row n f x y = Ok row ->
    List.length row = n /\
    forall k, (k < n)%nat ->
      exists v, downsample_pixel f (x + Z.of_nat k) y = Ok v /\ nth_error row k = Some v.
Proof.
  induction n as [|n IH]; intros x row Hrow; cbn [preprocess_row] in Hrow.
  - inversion Hrow. split; [reflexivity|]. intros k Hk. lia.
  - destruct (downsample_pixel f x y) as [v| |] eqn:Hv; cbn [bind] in Hrow; try discriminate.
    destruct (preprocess_row n f (x + 1) y) as [vs| |] eqn:Hvs; cbn [bind] in Hrow;
      try discriminate.
    inversion Hrow; subst row. destruct (IH _ _ Hvs) as (Hlen & Hnth).
    split; [cbn [List.length]; congruence|].
    intros [|k] Hk.
    + exists v. rewrite Z.add_0_r. split; [exact Hv|reflexivity].
    + destruct (Hnth k ltac:(lia)) as (w & Hw & Hk').
      exists w. split; [|exact Hk'].
      replace (x + Z.of_nat (S k)) with (x + 1 + Z.of_nat k) by lia. exact Hw.
Qed.

Lemma preprocess_rows_pixels (f : frame_buffer_t) (n : nat) :
  forall y dst,
    preprocess_rows n f y = Ok dst ->
    List.length dst = (n * Z.to_nat OCR_INPUT_WIDTH)%nat /\
    forall j k, (j < n)%nat -> (k < Z.to_nat OCR_INPUT_WIDTH)%nat ->
      exists v, downsample_pixel f (Z.of_nat k) (y + Z.of_nat j) = Ok v /\
                nth_error dst (j * Z.to_nat OCR_INPUT_WIDTH + k) = Some v.
Proof.
  induction n as [|n IH]; intros y dst Hdst; cbn [preprocess_rows] in Hdst.
  - inversion Hdst. split; [reflexivity|]. intros j k Hj. lia.
  - destruct (preprocess_row (Z.to_nat OCR_INPUT_WIDTH) f 0 y) as [row| |] eqn:Hrow;
      cbn [bind] in Hdst; try discriminate.
    destruct (preprocess_rows n f (y + 1)) as [rest| |] eqn:Hrest; cbn [bind] in Hdst;
      try discriminate.
    inversion Hdst; subst dst.
    destruct (preprocess_row_pixels _ _ _ _ _ Hrow) as (Hlen & Hnth).
    destruct (IH _ _ Hrest) as (Hlen' & Hnth').
    split; [rewrite length_app, Hlen, Hlen'; lia|].
    intros [|j] k Hj Hk.
    + destruct (Hnth k Hk) as (v & Hv & Hk'). exists v.
      rewrite Z.add_0_r. split; [exact Hv|].
      cbn [Nat.mul Nat.add]. rewrite nth_error_app1 by lia. exact Hk'.
    + destruct (Hnth' j k ltac:(lia) Hk) as (v & Hv & Hk'). exists v.
      split; [replace (y + Z.of_nat (S j)) with (y + 1 + Z.of_nat j) by lia; exact Hv|].
      rewrite nth_error_app2 by (rewrite Hlen; lia).
      rewrite Hlen.
      replace (S j * Z.to_nat OCR_INPUT_WIDTH + k - Z.to_nat OCR_INPUT_WIDTH)%nat
        with (j * Z.to_nat OCR_INPUT_WIDTH + k)%nat by lia.
      exact Hk'.
Qed.

(** X8. On a full camera frame of RGB565 pixels the destination pixel at
    column [x], row [y] is a 16-bit value whose red, green and blue
    channels are the means (rounded down) of the same channels of the
    2x2 source block at column [2x], row [2y]. *)
Theorem preprocess_pixel_is_channel_mean (f : frame_buffer_t) (x y : Z) :
  CAMERA_WIDTH * CAMERA_HEIGHT * 2 <= size f ->
  (forall i, 0 <= i < CAMERA_WIDTH * CAMERA_HEIGHT -> 0 <= data f i < 65536) ->
  0 <= x < OCR_INPUT_WIDTH -> 0 <= y < OCR_INPUT_HEIGHT ->
  exists dst v,
    ocr_preprocess_image (Some f) = Ok (0, dst) /\
    nth_error dst (Z.to_nat (y * OCR_INPUT_WIDTH + x)) = Some v /\
    0 <= v < 65536 /\
    red v = (red (data f (2 * y * CAMERA_WIDTH + 2 * x))
             + red (data f (2 * y * CAMERA_WIDTH + 2 * x + 1))
             + red (data f ((2 * y + 1) * CAMERA_WIDTH + 2 * x))
             + red (data f ((2 * y + 1) * CAMERA_WIDTH + 2 * x + 1))) / 4 /\
    green v = (green (data f (2 * y * CAMERA_WIDTH + 2 * x))
               + green (data f (2 * y * CAMERA_WIDTH + 2 * x + 1))
               + green (data f ((2 * y + 1) * CAMERA_WIDTH + 2 * x))
               + green (data f ((2 * y + 1) * CAMERA_WIDTH + 2 * x + 1))) / 4 /\
    blue v = (blue (data f (2 * y * CAMERA_WIDTH + 2 * x))
              + blue (data f (2 * y * CAMERA_WIDTH + 2 * x + 1))
              + blue (data f ((2 * y + 1) * CAMERA_WIDTH + 2 * x))
              + blue (data f ((2 * y + 1) * CAMERA_WIDTH + 2 * x + 1))) / 4.
Proof.
  intros Hsize Hpix Hx Hy.
  destruct (ocr_preprocess_image_runs f Hsize) as (dst & Hrun).
  exists dst.
  assert (Hrows : preprocess_rows (Z.to_nat OCR_INPUT_HEIGHT) f 0 = Ok dst).
  { unfold ocr_preprocess_image in Hrun.
    destruct (preprocess_rows (Z.to_nat OCR_INPUT_HEIGHT) f 0) as [d| |];
      cbn [bind] in Hrun; try discriminate. inversion Hrun; reflexivity. }
  destruct (preprocess_rows_pixels _ _ _ _ Hrows) as (_ & Hnth).
  unfold OCR_INPUT_WIDTH, OCR_INPUT_HEIGHT, CAMERA_WIDTH, CAMERA_HEIGHT in *.
  destruct (Hnth (Z.to_nat y) (Z.to_nat x) ltac:(lia) ltac:(lia)) as (v & Hv & Hk).
  exists v. split; [exact Hrun|].
  rewrite !Z2Nat.id in Hv by lia. rewrite Z.add_0_l in Hv.
  split.
  { replace (Z.to_nat (y * 320 + x)) with (Z.to_nat y * Z.to_nat 320 + Z.to_nat x)%nat
      by lia. exact Hk. }
  unfold downsample_pixel in Hv. unfold CAMERA_WIDTH in Hv.
  rewrite !(pixel_at_inside f Hsize) in Hv
    by (unfold CAMERA_WIDTH, CAMERA_HEIGHT; lia).
  cbn [bind] in Hv. inversion Hv as [Hval]. clear Hv.
  replace (y * 2 * 640 + x * 2) with (2 * y * 640 + 2 * x) by lia.
  replace ((y * 2 + 1) * 640 + x * 2) with ((2 * y + 1) * 640 + 2 * x) by lia.
  set (p1 := data f (2 * y * 640 + 2 * x)).
  set (p2 := data f (2 * y * 640 + 2 * x + 1)).
  set (p3 := data f ((2 * y + 1) * 640 + 2 * x)).
  set (p4 := data f ((2 * y + 1) * 640 + 2 * x + 1)).
  assert (H1 : 0 <= p1 < 65536) by (apply Hpix; lia).
  assert (H2 : 0 <= p2 < 65536) by (apply Hpix; lia).
  assert (H3 : 0 <= p3 < 65536) by (apply Hpix; lia).
  assert (H4 : 0 <= p4 < 65536) by (apply Hpix; lia).
  destruct (channel_ranges p1 H1) as (R1 & G1 & B1).
  destruct (channel_ranges p2 H2) as (R2 & G2 & B2).
  destruct (channel_ranges p3 H3) as (R3 & G3 & B3).
  destruct (channel_ranges p4 H4) as (R4 & G4 & B4).
  fold (red p1) (red p2) (red p3) (red p4).
  fold (green p1) (green p2) (green p3) (green p4).
  fold (blue p1) (blue p2) (blue p3) (blue p4).
  fold (pack ((red p1 + red p2 + red p3 + red p4) / 4)
             ((green p1 + green p2 + green p3 + green p4) / 4)
             ((blue p1 + blue p2 + blue p3 + blue p4) / 4)).
  split; [apply pack_range|].
  apply unpack_pack; Z.div_mod_to_equations; lia.
Qed.

Lemma preprocess_pixel_is_channel_mean_witness :
  exists dst v,
    ocr_preprocess_image (Some ramp_frame) = Ok (0, dst) /\
    nth_error dst (Z.to_nat (1 * OCR_INPUT_WIDTH + 2)) = Some v /\
    blue v = 4.
Proof.
  destruct (preprocess_pixel_is_channel_mean ramp_frame 2 1)
    as (dst & v & Hrun & Hnth & _ & _ & _ & Hblue).
  - vm_compute. discriminate.
  - intros i _. cbn [ramp_frame data]. apply Z.mod_pos_bound. lia.
  - unfold OCR_INPUT_WIDTH. lia.
  - unfold OCR_INPUT_HEIGHT. lia.
  - exists dst, v. split; [exact Hrun|]. split; [exact Hnth|].
    rewrite Hblue. vm_compute. reflexivity.
Defined.

Lemma downsample_pixel_not_out_of_fuel (f : frame_buffer_t) (x y : Z) :
  downsample_pixel f x y <> OutOfFuel.
Proof.
  unfold downsample_pixel, pixel_at.
  repeat match goal with
         | |- context [if ?c then Ok _ else Fault] => destruct c; cbn [bind]
         end; discriminate.
Qed.

Lemma preprocess_row_not_out_of_fuel (f : frame_buffer_t) (y : Z) (n : nat) :
  forall x, preprocess_row n f x y <> OutOfFuel.
Proof.
  induction n as [|n IH]; intros x; cbn [preprocess_row]; [discriminate|].
  pose proof (downsample_pixel_not_out_of_fuel f x y).
  destruct (downsample_pixel f x y); cbn [bind]; try congruence; try discriminate.
  specialize (IH (x + 1)).
  destruct (preprocess_row n f (x + 1) y); cbn [bind]; try congruence; discriminate.
Qed.

Lemma preprocess_rows_not_out_of_fuel (f : frame_buffer_t) (n : nat) :
  forall y, preprocess_rows n f y <> OutOfFuel.
Proof.
  induction n as [|n IH]; intros y; cbn [preprocess_rows]; [discriminate|].
  pose proof (preprocess_row_not_out_of_fuel f y (Z.to_nat OCR_INPUT_WIDTH) 0).
  destruct (preprocess_row (Z.to_nat OCR_INPUT_WIDTH) f 0 y); cbn [bind];
    try congruence; try discriminate.
  specialize (IH (y + 1)).
  destruct (preprocess_rows n f (y + 1)); cbn [bind]; try congruence; discriminate.
Qed.

(** [ocr_preprocess_image] does not look at [size]: on a frame shorter
    than a camera image it reads past the frame's end. *)
Lemma preprocess_short_frame (f : frame_buffer_t) :
  size f < CAMERA_WIDTH * CAMERA_HEIGHT * 2 -> ocr_preprocess_image (Some f) = Fault.
Proof.
  intros Hshort. unfold ocr_preprocess_image.
  pose proof (preprocess_rows_not_out_of_fuel f (Z.to_nat OCR_INPUT_HEIGHT) 0) as Hfuel.
  destruct (preprocess_rows (Z.to_nat OCR_INPUT_HEIGHT) f 0) as [dst| |] eqn:Hrows;
    cbn [bind]; [|reflexivity|congruence].
  exfalso. destruct (preprocess_rows_pixels _ _ _ _ Hrows) as (_ & Hnth).
  unfold OCR_INPUT_WIDTH, OCR_INPUT_HEIGHT, CAMERA_WIDTH, CAMERA_HEIGHT in *.
  destruct (Hnth 239%nat 319%nat ltac:(lia) ltac:(lia)) as (v & Hv & _).
  unfold downsample_pixel, CAMERA_WIDTH in Hv.
  destruct (pixel_at f ((0 + Z.of_nat 239) * 2 * 640 + Z.of_nat 319 * 2)) as [q1| |];
    cbn [bind] in Hv; try discriminate.
  destruct (pixel_at f ((0 + Z.of_nat 239) * 2 * 640 + Z.of_nat 319 * 2 + 1)) as [q2| |];
    cbn [bind] in Hv; try discriminate.
  destruct (pixel_at f (((0 + Z.of_nat 239) * 2 + 1) * 640 + Z.of_nat 319 * 2)) as [q3| |];
    cbn [bind] in Hv; try discriminate.
  destruct (pixel_at f (((0 + Z.of_nat 239) * 2 + 1) * 640 + Z.of_nat 319 * 2 + 1))
    as [q4| |] eqn:Hq4; cbn [bind] in Hv; try discriminate.
  unfold pixel_at in Hq4.
  destruct (Z.leb_spec (2 * (((0 + Z.of_nat 239) * 2 + 1) * 640 + Z.of_nat 319 * 2 + 1) + 2)
                       (size f)) as [Hin|Hout];
    [lia|rewrite andb_false_r in Hq4; discriminate].
Qed.

(** C9, as stated, fails on an image smaller than a camera frame: the
    uniform grey 320x240 test image that [ai_validate_model_performance]
    and [ai_benchmark] build is read past its end, and no output image
    results. *)
Lemma uniform_test_image_yields_no_image :
  (forall i, data (test_frame 0) i = 32896) /\
  size (test_frame 0) = OCR_INPUT_WIDTH * OCR_INPUT_HEIGHT * 2 /\
  ocr_preprocess_image (Some (test_frame 0)) = Fault /\
  ~ (exists dst, ocr_preprocess_image (Some (test_frame 0)) = Ok (0, dst) /\
                 forall k, (k < List.length dst)%nat -> nth_error dst k = Some 32896).
Proof.
  assert (Hrun : ocr_preprocess_image (Some (test_frame 0)) = Fault).
  { apply preprocess_short_frame. vm_compute. reflexivity. }
  split; [intros i; reflexivity|]. split; [reflexivity|]. split; [exact Hrun|].
  intros (dst & H & _). rewrite Hrun in H. discriminate.
Qed.

(** ** Error exits of the pipeline *)

Lemma short_frame_faults (fuel : nat) (a : accelerator)
  (f : frame_buffer_t) (r : ocr_result_t) (s : system) :
  size f < CAMERA_WIDTH * CAMERA_HEIGHT * 2 ->
  ocr_preprocess_image (Some f) = Fault /\
  (ready f <> 0 -> pool_ok (mem s) = true ->
   has_room (mem s) (OCR_INPUT_WIDTH * OCR_INPUT_HEIGHT * 2) = true ->
   ocr_process_frame fuel a (Some f) r s = Fault).
Proof.
  intros Hshort. pose proof (preprocess_short_frame f Hshort) as Hpre.
  split; [exact Hpre|]. intros Hready Hok Hroom.
  unfold has_room in Hroom. apply Z.leb_le in Hroom.
  destruct (pool_ok_inv (mem s) Hok) as (Hstart & Hps & Hb0 & Hb8 & Hused & Hu8).
  unfold ocr_process_frame.
  destruct (Z.eqb_spec (ready f) 0) as [?|_]; [contradiction|].
  rewrite (alloc_pushes (tick_preprocessed a) (OCR_INPUT_WIDTH * OCR_INPUT_HEIGHT * 2)
             (mem s) Hok); [|unfold INT_MAX; vm_compute; split; congruence|exact Hroom].
  cbn [bind].
  destruct (Z.eqb_spec (buffer_base (mem s) + allocated_size (ai_pool (mem s))
                        + sizeof_memory_block_t) NULL) as [E|_].
  { unfold NULL, sizeof_memory_block_t in E. lia. }
  rewrite Hpre. reflexivity.
Qed.

(** X9. A frame shorter than a camera image (640 x 480 x 2 bytes) is
    read past its end by [ocr_preprocess_image], which does not look at
    the frame's size; and so is it by [ocr_process_frame] whenever the
    frame is ready and the pool has room for the preprocessed image. *)
Theorem short_frame_is_read_past_its_end (fuel : nat) (a : accelerator)
  (f : frame_buffer_t) (r : ocr_result_t) (s : system) :
  size f < CAMERA_WIDTH * CAMERA_HEIGHT * 2 ->
  ocr_preprocess_image (Some f) = Fault /\
  (ready f <> 0 -> pool_ok (mem s) = true ->
   has_room (mem s) (OCR_INPUT_WIDTH * OCR_INPUT_HEIGHT * 2) = true ->
   ocr_process_frame fuel a (Some f) r s = Fault).
Proof. apply short_frame_faults. Qed.

Lemma short_frame_is_read_past_its_end_witness :
  ocr_process_frame 1 (reads_with (F32.percent 92)) (Some (test_frame 0)) blank_result
                    (started arena 1) = Fault.
Proof.
  destruct (short_frame_is_read_past_its_end 1 (reads_with (F32.percent 92))
              (test_frame 0) blank_result (started arena 1)) as (_ & Hrun).
  - vm_compute. reflexivity.
  - apply Hrun.
    + vm_compute. discriminate.
    + vm_compute. reflexivity.
    + vm_compute. reflexivity.
Defined.

Lemma test_frame_is_short (tick : Z) :
  size (test_frame tick) < CAMERA_WIDTH * CAMERA_HEIGHT * 2.
Proof. vm_compute. reflexivity. Qed.

Lemma test_frame_faults (fuel : nat) (a : accelerator) (tick : Z) (r : ocr_result_t)
  (s : system) :
  pool_ok (mem s) = true ->
  has_room (mem s) (OCR_INPUT_WIDTH * OCR_INPUT_HEIGHT * 2) = true ->
  ocr_process_frame fuel a (Some (test_frame tick)) r s = Fault.
Proof.
  intros Hok Hroom.
  apply (short_frame_faults fuel a (test_frame tick) r s (test_frame_is_short tick));
    [discriminate|exact Hok|exact Hroom].
Qed.

(** X10. The test image of [ai_benchmark] has the size of the
    preprocessed image, a quarter of the camera image the preprocessing
    reads: whenever the pool has room for the preprocessed image, the
    first iteration reads past the test image; and with zero iterations
    the average divides by zero.  So with room in the pool no call of
    [ai_benchmark] returns an average. *)
Theorem benchmark_reads_past_test_image (fuel : nat) (be : bench_env)
  (iterations : Z) (s : system) :
  0 <= iterations ->
  pool_ok (mem s) = true ->
  has_room (mem s) (OCR_INPUT_WIDTH * OCR_INPUT_HEIGHT * 2) = true ->
  ai_benchmark fuel be iterations s = Fault.
Proof.
  intros Hit Hok Hroom. unfold ai_benchmark.
  destruct (Z.to_nat iterations) as [|n] eqn:Hn.
  - cbn [benchmark_loop bind]. assert (iterations = 0) by lia. subst. reflexivity.
  - cbn [benchmark_loop]. rewrite test_frame_faults by assumption. reflexivity.
Qed.

Lemma benchmark_reads_past_test_image_witness :
  ai_benchmark 1 (bench_with (reads_with (F32.percent 92))) 100 (started arena 1) = Fault.
Proof.
  apply benchmark_reads_past_test_image.
  - lia.
  - vm_compute. reflexivity.
  - vm_compute. reflexivity.
Defined.

Lemma validate_reads_past_test_image (fuel : nat) (be : bench_env) (s : system) :
  pool_ok (mem s) = true ->
  has_room (mem s) (OCR_INPUT_WIDTH * OCR_INPUT_HEIGHT * 2) = true ->
  ai_validate_model_performance fuel be s = Fault.
Proof.
  intros Hok Hroom. unfold ai_validate_model_performance.
  cbn [validate_loop]. rewrite test_frame_faults by assumption. reflexivity.
Qed.

(** X11. [ai_init] never returns 0.  It returns [AI_ERROR_NPU_ERROR] when
    the accelerator cannot be set up and [AI_ERROR_MODEL_LOAD_FAILED]
    when a model cannot be loaded or is not ready; otherwise its
    validation pass hands the quarter-size test image to the pipeline on
    the freshly initialised pool and the preprocessing reads past it. *)
Theorem ai_init_never_succeeds (fuel : nat) (re : recovery_env) (be : bench_env)
  (s : system) :
  0 < buffer_base (mem s) -> buffer_base (mem s) mod 8 = 0 ->
  (reload_succeeds re = true -> ai_init fuel re be s = Fault) /\
  (reload_succeeds re = false ->
   exists s', ai_init fuel re be s = Ok (AI_ERROR_NPU_ERROR, s') \/
              ai_init fuel re be s = Ok (AI_ERROR_MODEL_LOAD_FAILED, s')) /\
  (forall s', ai_init fuel re be s <> Ok (0, s')).
Proof.
  intros Hb0 Hb8.
  assert (Hfresh : forall s1,
            mem s1 = snd (ai_memory_init (mem s)) ->
            ai_validate_model_performance fuel be s1 = Fault).
  { intros s1 Hmem. apply validate_reads_past_test_image; rewrite Hmem.
    - apply pool_ok_intro; cbn; try assumption; try reflexivity.
      unfold AI_MEMORY_POOL_SIZE, NPU_MAX_MEMORY_BYTES. lia.
    - reflexivity. }
  assert (Hcases :
    (reload_succeeds re = true /\ ai_init fuel re be s = Fault) \/
    (reload_succeeds re = false /\
     exists s', ai_init fuel re be s = Ok (AI_ERROR_NPU_ERROR, s') \/
                ai_init fuel re be s = Ok (AI_ERROR_MODEL_LOAD_FAILED, s'))).
  { unfold ai_init, reload_succeeds. cbn [ai_memory_init Z.eqb negb].
    unfold ai_neural_art_init_npu.
    destruct (npu_init_status re =? NEURAL_ART_SUCCESS); cbn [negb andb].
    2:{ right. split; [reflexivity|]. eexists. left. reflexivity. }
    destruct (npu_new_handle re =? NULL); cbn [negb andb].
    { right. split; [reflexivity|]. eexists. left. reflexivity. }
    cbn [Z.eqb negb]. unfold ai_load_ocr_models.
    destruct (load_detection_status re =? NEURAL_ART_SUCCESS); cbn [negb andb].
    2:{ right. split; [reflexivity|]. eexists. right. reflexivity. }
    destruct (load_recognition_status re =? NEURAL_ART_SUCCESS); cbn [negb andb].
    2:{ right. split; [reflexivity|]. eexists. right. reflexivity. }
    unfold AI_MODEL_COUNT. cbn [verify_models].
    destruct (model_ready re 0); cbn [negb andb].
    2:{ right. split; [reflexivity|]. eexists. right. reflexivity. }
    destruct (model_ready re 1); cbn [negb andb].
    2:{ right. split; [reflexivity|]. eexists. right. reflexivity. }
    destruct (model_ready re 2); cbn [negb andb].
    2:{ right. split; [reflexivity|]. eexists. right. reflexivity. }
    left. split; [reflexivity|]. cbn [Z.eqb negb].
    rewrite Hfresh; reflexivity. }
  destruct Hcases as [[Hyes Hrun]|[Hno Hrun]].
  - split; [intros _; exact Hrun|]. split; [intros H; congruence|].
    intros s' H. rewrite Hrun in H. discriminate.
  - split; [intros H; congruence|]. split; [intros _; exact Hrun|].
    intros s' H. destruct Hrun as (s1 & [Hr|Hr]); rewrite Hr in H; inversion H.
Qed.

Lemma ai_init_never_succeeds_witness :
  ai_init 1 healthy_recovery (bench_with (reads_with (F32.percent 92))) (started arena 0)
  = Fault.
Proof.
  destruct (ai_init_never_succeeds 1 healthy_recovery
              (bench_with (reads_with (F32.percent 92))) (started arena 0)) as (Hrun & _).
  - vm_compute. reflexivity.
  - vm_compute. reflexivity.
  - apply Hrun. vm_compute. reflexivity.
Defined.

Lemma ocr_detect_text_no_room (fuel : nat) (a : accelerator) (max_boxes : Z) (h : heap) :
  pool_ok h = true -> has_room h 1024 = false ->
  ocr_detect_text fuel a max_boxes h = Ok (AI_ERROR_MEMORY_ALLOC_FAILED, [], h).
Proof.
  intros Hok Hroom. unfold has_room in Hroom. apply Z.leb_gt in Hroom.
  unfold ocr_detect_text.
  rewrite (alloc_no_room (tick_detection a) 1024 h Hok); [reflexivity| |lia].
  unfold INT_MAX. lia.
Qed.

Lemma ocr_detect_text_npu_error (fuel : nat) (a : accelerator) (max_boxes : Z) (h : heap) :
  pool_ok h = true -> has_room h 1024 = true ->
  detection_status a <> NEURAL_ART_SUCCESS ->
  exists h',
    ocr_detect_text fuel a max_boxes h = Ok (AI_ERROR_NPU_ERROR, [], h') /\
    same_stack h h'.
Proof.
  intros Hok Hroom Hstatus. unfold has_room in Hroom. apply Z.leb_le in Hroom.
  destruct (alloc_free_pair fuel (tick_detection a) 1024 h Hok)
    as (p & h1 & h2 & Halloc & Hp & Hfree & Hsame).
  { unfold INT_MAX. lia. }
  { exact Hroom. }
  unfold ocr_detect_text. rewrite Halloc. cbn [bind]. rewrite Hp.
  destruct (Z.eqb_spec (detection_status a) NEURAL_ART_SUCCESS) as [?|_]; [contradiction|].
  cbn [negb]. rewrite Hfree. cbn [bind].
  exists h2. split; [reflexivity|exact Hsame].
Qed.

Lemma failed_frame_releases_buffers_aux (fuel : nat) (a : accelerator)
  (f : frame_buffer_t) (r : ocr_result_t) (s : system) :
  ready f <> 0 -> CAMERA_WIDTH * CAMERA_HEIGHT * 2 <= size f ->
  pool_ok (mem s) = true ->
  has_room (mem s) (OCR_INPUT_WIDTH * OCR_INPUT_HEIGHT * 2)
  && has_room (pushed (mem s) (tick_preprocessed a) (OCR_INPUT_WIDTH * OCR_INPUT_HEIGHT * 2))
              1024
  && (detection_status a =? NEURAL_ART_SUCCESS) = false ->
  exists h',
    ocr_process_frame fuel a (Some f) r s
    = Ok ((if has_room (mem s) (OCR_INPUT_WIDTH * OCR_INPUT_HEIGHT * 2)
              && has_room (pushed (mem s) (tick_preprocessed a)
                                  (OCR_INPUT_WIDTH * OCR_INPUT_HEIGHT * 2)) 1024
           then AI_ERROR_NPU_ERROR else AI_ERROR_MEMORY_ALLOC_FAILED),
          mkResult EmptyString F32.zero 0 0 0 (tick_result a) 0,
          set_mem s h') /\
    same_stack (mem s) h'.
Proof.
  intros Hready Hsize Hok Hfails.
  destruct (pool_ok_inv (mem s) Hok) as (Hstart & Hps & Hb0 & Hb8 & Hused & Hu8).
  assert (Himg : round_up8 (OCR_INPUT_WIDTH * OCR_INPUT_HEIGHT * 2)
                 = OCR_INPUT_WIDTH * OCR_INPUT_HEIGHT * 2) by reflexivity.
  assert (Hval : OCR_INPUT_WIDTH * OCR_INPUT_HEIGHT * 2 = 153600) by reflexivity.
  unfold ocr_process_frame.
  destruct (Z.eqb_spec (ready f) 0) as [?|_]; [contradiction|].
  set (h0 := mem s) in *.
  destruct (has_room h0 (OCR_INPUT_WIDTH * OCR_INPUT_HEIGHT * 2)) eqn:Hroom.
  2:{ cbn [andb]. unfold has_room in Hroom. apply Z.leb_gt in Hroom.
      rewrite (alloc_no_room (tick_preprocessed a) _ h0 Hok);
        [|rewrite Hval; unfold INT_MAX; lia|lia].
      cbn [bind]. rewrite Z.eqb_refl.
      exists h0. split; [reflexivity|apply same_stack_refl]. }
  cbn [andb] in *. unfold has_room in Hroom. apply Z.leb_le in Hroom.
  set (h1 := pushed h0 (tick_preprocessed a) (OCR_INPUT_WIDTH * OCR_INPUT_HEIGHT * 2)) in *.
  assert (Hpush : ai_memory_alloc (tick_preprocessed a)
                    (OCR_INPUT_WIDTH * OCR_INPUT_HEIGHT * 2) h0
                  = Ok (buffer_base h0 + allocated_size (ai_pool h0) + sizeof_memory_block_t, h1)).
  { unfold h1. rewrite <- Himg at 2. apply alloc_pushes; [exact Hok| |exact Hroom].
    rewrite Hval. unfold INT_MAX. lia. }
  rewrite Himg in Hroom. unfold sizeof_memory_block_t in Hroom.
  assert (Hok1 : pool_ok h1 = true).
  { unfold h1. apply pool_ok_intro;
      cbn [pushed ai_pool buffer_base pool_start pool_size allocated_size];
      try assumption.
    - rewrite Hval in *. unfold sizeof_memory_block_t. lia.
    - rewrite Hval. unfold sizeof_memory_block_t. Z.div_mod_to_equations. lia. }
  destruct (ocr_preprocess_image_runs f Hsize) as (dst & Hpre).
  rewrite Hpush. cbn [bind].
  destruct (Z.eqb_spec (buffer_base h0 + allocated_size (ai_pool h0) + sizeof_memory_block_t)
                        NULL) as [E|_].
  { unfold NULL, sizeof_memory_block_t in E. lia. }
  rewrite Hpre. cbn [bind]. rewrite Z.eqb_refl. cbn [negb].
  assert (Hpop : forall h3, same_stack h1 h3 ->
            exists h4,
              ai_memory_free fuel
                (buffer_base h0 + allocated_size (ai_pool h0) + sizeof_memory_block_t) h3
              = Ok h4 /\ same_stack h0 h4).
  { intros h3 Hsame. apply (free_pops fuel (tick_preprocessed a)
                              (OCR_INPUT_WIDTH * OCR_INPUT_HEIGHT * 2) h0 h3 Hok).
    - rewrite Hval. lia.
    - rewrite Hval in *. unfold sizeof_memory_block_t. lia.
    - reflexivity.
    - exact Hsame. }
  destruct (has_room h1 1024) eqn:Hroom1.
  - cbn [andb] in Hfails. apply Z.eqb_neq in Hfails.
    destruct (ocr_detect_text_npu_error fuel a 16 h1 Hok1 Hroom1 Hfails)
      as (h2 & Hdetect & Hsame12).
    rewrite Hdetect. cbn [bind].
    destruct (Hpop h2 Hsame12) as (h4 & Hfree & Hsame04).
    replace (AI_ERROR_NPU_ERROR <? 0) with true by reflexivity.
    rewrite Hfree. cbn [bind].
    exists h4. split; [reflexivity|exact Hsame04].
  - rewrite (ocr_detect_text_no_room fuel a 16 h1 Hok1 Hroom1). cbn [bind].
    destruct (Hpop h1 (same_stack_refl h1)) as (h4 & Hfree & Hsame04).
    replace (AI_ERROR_MEMORY_ALLOC_FAILED <? 0) with true by reflexivity.
    rewrite Hfree. cbn [bind].
    exists h4. split; [reflexivity|exact Hsame04].
Qed.

(** X12. When a ready, full camera frame cannot be processed because the
    pool has no room for the preprocessed image or for the detection
    buffer, or because the detection run fails, [ocr_process_frame]
    returns [AI_ERROR_MEMORY_ALLOC_FAILED] or [AI_ERROR_NPU_ERROR], the
    caller's result is cleared (only its timestamp is set), the
    statistics are not touched, and every buffer taken on the way has
    been released: the bytes in use and the block list are as before. *)
Theorem failed_frame_releases_buffers (fuel : nat) (a : accelerator)
  (f : frame_buffer_t) (r : ocr_result_t) (s : system) :
  ready f <> 0 -> CAMERA_WIDTH * CAMERA_HEIGHT * 2 <= size f ->
  pool_ok (mem s) = true ->
  has_room (mem s) (OCR_INPUT_WIDTH * OCR_INPUT_HEIGHT * 2)
  && has_room (pushed (mem s) (tick_preprocessed a) (OCR_INPUT_WIDTH * OCR_INPUT_HEIGHT * 2))
              1024
  && (detection_status a =? NEURAL_ART_SUCCESS) = false ->
  exists h',
    ocr_process_frame fuel a (Some f) r s
    = Ok ((if has_room (mem s) (OCR_INPUT_WIDTH * OCR_INPUT_HEIGHT * 2)
              && has_room (pushed (mem s) (tick_preprocessed a)
                                  (OCR_INPUT_WIDTH * OCR_INPUT_HEIGHT * 2)) 1024
           then AI_ERROR_NPU_ERROR else AI_ERROR_MEMORY_ALLOC_FAILED),
          mkResult EmptyString F32.zero 0 0 0 (tick_result a) 0,
          set_mem s h') /\
    same_stack (mem s) h'.
Proof. apply failed_frame_releases_buffers_aux. Qed.

Lemma failed_frame_releases_buffers_witness :
  exists h',
    ocr_process_frame 4 detection_fails (Some gray_frame) blank_result (started arena 1)
    = Ok (AI_ERROR_NPU_ERROR,
          mkResult EmptyString F32.zero 0 0 0 (tick_result detection_fails) 0,
          set_mem (started arena 1) h') /\
    same_stack (mem (started arena 1)) h'.
Proof.
  apply (failed_frame_releases_buffers 4 detection_fails gray_frame blank_result
           (started arena 1)).
  - vm_compute. discriminate.
  - vm_compute. discriminate.
  - vm_compute. reflexivity.
  - vm_compute. reflexivity.
Defined.

(** X13. A frame that gets through the pipeline (the joined text fitting
    the text buffer) leaves no buffer behind and a consistent result:
    the bytes in use and the block list are as before the call, the
    audio queue and the error log are untouched, exactly one inference
    is counted, [char_count] is the length of the text and below the
    buffer size, [word_count] is one more than the number of spaces when
    a fragment was kept and zero otherwise, [bbox_count] is the number of
    detected boxes and at most 16, and the language code is a byte. *)
Theorem processed_frame_is_balanced (fuel : nat) (a : accelerator)
  (f : frame_buffer_t) (r : ocr_result_t) (s : system) :
  frame_runs a f s ->
  strlen (join_fragments
            (map (fun fr => snd (fst fr)) (filter above_half (frame_fragments a s)))) <= 255 ->
  exists res s1,
    ocr_process_frame fuel a (Some f) r s = Ok (0, res, s1) /\
    same_stack (mem s) (mem s1) /\
    audio_queue s1 = audio_queue s /\ error_log s1 = error_log s /\
    total_inferences (stats (ai_context s1))
    = wrap32 (total_inferences (stats (ai_context s)) + 1) /\
    char_count res = strlen (text res) /\ char_count res < OCR_MAX_TEXT_LENGTH /\
    word_count res
    = match filter above_half (frame_fragments a s) with
      | [] => 0
      | _ => 1 + count_spaces (text res)
      end /\
    bbox_count res = Z.min 16 (Z.of_nat (List.length (detection_boxes a))) /\
    result_timestamp res = tick_result a /\
    0 <= language_detected res < 256.
Proof.
  intros Hruns Hfit.
  pose proof (aggregate_accepted (frame_fragments a s) (mkAggregate EmptyString F32.zero 0) Hfit)
    as Hagg.
  destruct (ocr_process_frame_runs fuel a f r s _ Hruns Hagg) as (h' & Hrun & Hsame).
  eexists. eexists. split; [exact Hrun|].
  cbn [combined_text total_confidence recognized_regions] in *.
  fold (join_fragments (map (fun fr => snd (fst fr)) (filter above_half (frame_fragments a s))))
    in *.
  assert (Hboxes : Z.of_nat (List.length (firstn (Z.to_nat 16) (detection_boxes a)))
                   = Z.min 16 (Z.of_nat (List.length (detection_boxes a)))).
  { rewrite length_firstn. lia. }
  split; [exact Hsame|].
  split; [reflexivity|]. split; [reflexivity|]. split; [reflexivity|].
  unfold postprocess.
  cbn [combined_text total_confidence recognized_regions].
  destruct (filter above_half (frame_fragments a s)) as [|fr kept] eqn:Hkept.
  - cbn [List.length Z.of_nat Z.add Z.gtb Z.compare].
    cbn [char_count text word_count bbox_count result_timestamp language_detected].
    unfold OCR_MAX_TEXT_LENGTH.
    repeat split; try reflexivity; try lia; try exact Hboxes.
  - assert (Hpos : (0 + Z.of_nat (List.length (fr :: kept)) >? 0) = true).
    { apply Z.gtb_lt. cbn [List.length]. lia. }
    rewrite Hpos.
    cbn [char_count text word_count bbox_count result_timestamp language_detected].
    rewrite take_whole by (unfold strlen, OCR_MAX_TEXT_LENGTH in *; lia).
    unfold OCR_MAX_TEXT_LENGTH.
    repeat split; try reflexivity; try lia; try exact Hboxes;
      apply Z.mod_pos_bound; lia.
Qed.

Lemma processed_frame_is_balanced_witness :
  exists res s1,
    ocr_process_frame 4 (reads_with (F32.percent 92)) (Some gray_frame) blank_result
                      (started arena 1) = Ok (0, res, s1) /\
    same_stack (mem (started arena 1)) (mem s1) /\
    char_count res = 11 /\ word_count res = 2 /\ bbox_count res = 1.
Proof.
  destruct (processed_frame_is_balanced 4 (reads_with (F32.percent 92))
              gray_frame blank_result (started arena 1))
    as (res & s1 & Hrun & Hsame & _ & _ & _ & Hchars & _ & Hwords & Hboxes & _).
  - unfold frame_runs. repeat split; try (vm_compute; congruence).
  - vm_compute. discriminate.
  - exists res, s1. split; [exact Hrun|]. split; [exact Hsame|].
    assert (Htext : text res = "Sample Text"%string).
    { pose proof (ocr_process_frame_runs 4 (reads_with (F32.percent 92)) gray_frame
                    blank_result (started arena 1)
                    (mkAggregate "Sample Text"%string (F32.percent 92) 1)) as Hr.
      destruct Hr as (h' & Hr & _).
      - unfold frame_runs. repeat split; try (vm_compute; congruence).
      - vm_compute. reflexivity.
      - rewrite Hr in Hrun. inversion Hrun. vm_compute. reflexivity. }
    rewrite Hchars, Hwords, Hboxes, Htext. vm_compute. repeat split; reflexivity.
Defined.

(** ** Self-test and recovery *)

Lemma ai_self_test_runs (fuel : nat) (tick : Z) (s : system) :
  pool_ok (mem s) = true ->
  exists r s',
    ai_self_test fuel tick s = Ok (r, s') /\
    ai_context s' = ai_context s /\
    same_stack (mem s) (mem s') /\
    (r = 0 <->
     npu_handle (ai_context s) <> NULL /\
     forallb (fun i => nth i (models_loaded (ai_context s)) false) (seq 0 AI_MODEL_COUNT)
     = true /\
     has_room (mem s) 1024 = true).
Proof.
  intros Hok. unfold ai_self_test.
  destruct (Z.eqb_spec (npu_handle (ai_context s)) NULL) as [Hnull|Hhandle].
  { exists (-1), s. split; [reflexivity|]. split; [reflexivity|].
    split; [apply same_stack_refl|]. split; [discriminate|].
    intros (H & _). contradiction. }
  destruct (forallb _ (seq 0 AI_MODEL_COUNT)) eqn:Hmodels; cbn [negb].
  2:{ exists (-2), s. split; [reflexivity|]. split; [reflexivity|].
      split; [apply same_stack_refl|]. split; [discriminate|].
      intros (_ & H & _). discriminate. }
  destruct (has_room (mem s) 1024) eqn:Hroom.
  - unfold has_room in Hroom. apply Z.leb_le in Hroom.
    destruct (alloc_free_pair fuel tick 1024 (mem s) Hok)
      as (p & h1 & h2 & Halloc & Hp & Hfree & Hsame).
    { unfold INT_MAX. lia. }
    { exact Hroom. }
    rewrite Halloc. cbn [bind]. rewrite Hp, Hfree. cbn [bind].
    exists 0, (set_mem s h2). split; [reflexivity|]. split; [reflexivity|].
    split; [exact Hsame|]. split; [|reflexivity].
    intros _. repeat split. exact Hhandle.
  - pose proof Hroom as Hno. unfold has_room in Hno. apply Z.leb_gt in Hno.
    rewrite (alloc_no_room tick 1024 (mem s) Hok); [|unfold INT_MAX; lia|lia].
    cbn [bind]. rewrite Z.eqb_refl.
    exists (-3), (set_mem s (mem s)). split; [reflexivity|]. split; [reflexivity|].
    split; [apply same_stack_refl|]. split; [discriminate|].
    intros (_ & _ & H). discriminate.
Qed.

(** X14. On a well-formed pool [ai_self_test] always returns, with the
    context, the bytes in use and the block list as before; it returns 0
    exactly when the runtime handle is set, the three models are marked
    loaded and the pool has room for the 1024-byte test buffer. *)
Theorem self_test_passes_iff_ready (fuel : nat) (tick : Z) (s : system) :
  pool_ok (mem s) = true ->
  exists r s',
    ai_self_test fuel tick s = Ok (r, s') /\
    ai_context s' = ai_context s /\
    same_stack (mem s) (mem s') /\
    (r = 0 <->
     npu_handle (ai_context s) <> NULL /\
     forallb (fun i => nth i (models_loaded (ai_context s)) false) (seq 0 AI_MODEL_COUNT)
     = true /\
     has_room (mem s) 1024 = true).
Proof. apply ai_self_test_runs. Qed.

Lemma self_test_passes_iff_ready_witness :
  exists s', ai_self_test 4 0 (started arena 1) = Ok (0, s').
Proof.
  destruct (self_test_passes_iff_ready 4 0 (started arena 1))
    as (r & s' & Hrun & _ & _ & Hiff).
  - vm_compute. reflexivity.
  - exists s'. rewrite Hrun. f_equal. f_equal. apply Hiff.
    split; [vm_compute; discriminate|]. split; vm_compute; reflexivity.
Defined.

Lemma reload_fails (e : recovery_env) (c : ai_task_context_t) :
  reload_succeeds e = false ->
  (exists c1, ai_neural_art_init_npu e c = (AI_ERROR_NPU_ERROR, c1) /\
              consecutive_errors c1 = consecutive_errors c /\
              error_code c1 = error_code c /\
              recovery_needed c1 = recovery_needed c) \/
  (exists c1 c2, ai_neural_art_init_npu e c = (0, c1) /\
                 ai_load_ocr_models e c1 = (AI_ERROR_MODEL_LOAD_FAILED, c2) /\
                 consecutive_errors c2 = consecutive_errors c /\
                 error_code c2 = error_code c /\
                 recovery_needed c2 = recovery_needed c).
Proof.
  unfold reload_succeeds, ai_neural_art_init_npu, ai_load_ocr_models.
  destruct (npu_init_status e =? NEURAL_ART_SUCCESS); cbn [negb andb].
  2:{ intros _. left. eexists. repeat split; reflexivity. }
  destruct (npu_new_handle e =? NULL); cbn [negb andb].
  { intros _. left. eexists. repeat split; reflexivity. }
  intros Hfalse. right. exists (set_models c (npu_new_handle e) (models_loaded c)).
  destruct (load_detection_status e =? NEURAL_ART_SUCCESS); cbn [negb andb] in *.
  2:{ eexists. repeat split; reflexivity. }
  destruct (load_recognition_status e =? NEURAL_ART_SUCCESS); cbn [negb andb] in *.
  2:{ eexists. repeat split; reflexivity. }
  unfold AI_MODEL_COUNT. cbn [verify_models].
  destruct (model_ready e 0); cbn [negb andb] in *;
    [|eexists; repeat split; reflexivity].
  destruct (model_ready e 1); cbn [negb andb] in *;
    [|eexists; repeat split; reflexivity].
  destruct (model_ready e 2); cbn [negb andb] in *;
    [discriminate|eexists; repeat split; reflexivity].
Qed.

(** X15. When the accelerator does not come back or a model is not ready
    after the reload (in particular while the third model slot is not
    ready), [ai_recovery_attempt] returns [AI_ERROR_RECOVERY_FAILED]
    before it reaches the reset of the error state and the self-test:
    [recovery_needed] is left at 1, [consecutive_errors] and
    [error_code] are as they were, and the allocator, the audio queue
    and the error log are untouched. *)
Theorem failed_reload_leaves_recovery_pending (fuel : nat) (e : recovery_env)
  (s : system) :
  reload_succeeds e = false ->
  exists s',
    ai_recovery_attempt fuel e s = Ok (AI_ERROR_RECOVERY_FAILED, s') /\
    recovery_needed (ai_context s') = 1 /\
    consecutive_errors (ai_context s') = consecutive_errors (ai_context s) /\
    error_code (ai_context s') = error_code (ai_context s) /\
    mem s' = mem s /\ audio_queue s' = audio_queue s /\ error_log s' = error_log s.
Proof.
  intros Hreload. unfold ai_recovery_attempt.
  destruct (reload_fails e (ai_context (enter_recovery s)) Hreload)
    as [(c1 & Hinit & Hce & Hec & Hrn)|(c1 & c2 & Hinit & Hload & Hce & Hec & Hrn)].
  - rewrite Hinit.
    replace (negb (AI_ERROR_NPU_ERROR =? 0)) with true by reflexivity.
    eexists. split; [reflexivity|].
    cbn [set_context ai_context mem audio_queue error_log enter_recovery] in *.
    rewrite Hce, Hec, Hrn. cbn. repeat split; reflexivity.
  - rewrite Hinit. cbn [Z.eqb negb]. rewrite Hload.
    replace (negb (AI_ERROR_MODEL_LOAD_FAILED =? 0)) with true by reflexivity.
    eexists. split; [reflexivity|].
    cbn [set_context ai_context mem audio_queue error_log enter_recovery] in *.
    rewrite Hce, Hec, Hrn. cbn. repeat split; reflexivity.
Qed.

Lemma failed_reload_leaves_recovery_pending_witness :
  exists s',
    ai_recovery_attempt 4 third_model_missing (started arena 1)
    = Ok (AI_ERROR_RECOVERY_FAILED, s') /\
    recovery_needed (ai_context s') = 1.
Proof.
  destruct (failed_reload_leaves_recovery_pending 4 third_model_missing (started arena 1))
    as (s' & Hrun & Hrn & _).
  - vm_compute. reflexivity.
  - exists s'. split; [exact Hrun|exact Hrn].
Defined.

Lemma failed_recovery_step (fuel : nat) (e : recovery_env) (code : Z) (s : system) :
  reload_succeeds e = false ->
  5 <= consecutive_errors (ai_context s) < 4294967295 ->
  exists s',
    ai_handle_inference_error fuel e code s = Ok (AI_ERROR_RECOVERY_FAILED, s') /\
    recovery_attempts s' = S (recovery_attempts s) /\
    consecutive_errors (ai_context s') = consecutive_errors (ai_context s) + 1 /\
    error_code (ai_context s') = wrap32 code /\
    recovery_needed (ai_context s') = 1 /\
    error_log s'
    = error_log s ++ [mkLog ERROR_SEVERITY_ERROR TASK_ID_AI_TASK (wrap32 (wrap32 code))
                            (consecutive_errors (ai_context s) + 1)] /\
    mem s' = mem s /\ audio_queue s' = audio_queue s.
Proof.
  intros Hreload Hcount.
  unfold ai_handle_inference_error. cbn [set_errors consecutive_errors].
  unfold system_log_error.
  rewrite !(wrap32_small (consecutive_errors (ai_context s) + 1)) by lia.
  destruct (Z.gtb_spec (consecutive_errors (ai_context s) + 1) 5) as [_|?]; [|lia].
  unfold ai_recovery_attempt.
  match goal with
  | |- context [ai_neural_art_init_npu e ?c] =>
      destruct (reload_fails e c Hreload)
        as [(c1 & Hinit & Hce & Hec & Hrn)|(c1 & c2 & Hinit & Hload & Hce & Hec & Hrn)]
  end.
  - rewrite Hinit. cbn [Z.eqb negb AI_ERROR_NPU_ERROR].
    replace (negb (AI_ERROR_NPU_ERROR =? 0)) with true by reflexivity.
    eexists. split; [reflexivity|].
    cbn [set_context ai_context recovery_attempts mem audio_queue error_log
         enter_recovery system_log_error] in *.
    rewrite Hce, Hec, Hrn. cbn. repeat split; reflexivity.
  - rewrite Hinit. cbn [Z.eqb negb]. rewrite Hload.
    replace (negb (AI_ERROR_MODEL_LOAD_FAILED =? 0)) with true by reflexivity.
    eexists. split; [reflexivity|].
    cbn [set_context ai_context recovery_attempts mem audio_queue error_log
         enter_recovery system_log_error] in *.
    rewrite Hce, Hec, Hrn. cbn. repeat split; reflexivity.
Qed.

(** X16. A recovery that fails at the accelerator or at the models leaves
    [consecutive_errors] where it was, so once the counter has passed
    the threshold every further error report runs another recovery
    attempt: [n] reports make [n] attempts, raise the counter by [n],
    add [n] entries to the error log, and leave the allocator and the
    audio queue alone. *)
Theorem failed_recovery_repeats_on_every_error (fuel : nat)
  (reports : list (recovery_env * Z)) :
  forall s,
    forallb (fun r => negb (reload_succeeds (fst r))) reports = true ->
    5 <= consecutive_errors (ai_context s) ->
    consecutive_errors (ai_context s) + Z.of_nat (List.length reports) < 4294967296 ->
    exists s',
      handle_errors fuel reports s = Ok s' /\
      recovery_attempts s' = (recovery_attempts s + List.length reports)%nat /\
      consecutive_errors (ai_context s')
      = consecutive_errors (ai_context s) + Z.of_nat (List.length reports) /\
      List.length (error_log s')
      = (List.length (error_log s) + List.length reports)%nat /\
      mem s' = mem s /\ audio_queue s' = audio_queue s.
Proof.
  induction reports as [|[e code] rest IH]; intros s Hfail Hcount Hbound.
  - exists s. cbn [handle_errors List.length]. repeat split; try lia.
  - cbn [forallb fst] in Hfail. apply andb_prop in Hfail. destruct Hfail as [He Hrest].
    apply negb_true_iff in He. cbn [List.length] in Hbound.
    destruct (failed_recovery_step fuel e code s He)
      as (s1 & Hrun & Hatt & Hce & _ & _ & Hlog & Hmem & Hq); [lia|].
    destruct (IH s1 Hrest) as (s' & Hruns & Hatt' & Hce' & Hlog' & Hmem' & Hq'); [lia|lia|].
    exists s'. cbn [handle_errors]. rewrite Hrun. cbn [bind snd].
    split; [exact Hruns|].
    rewrite Hatt', Hce', Hlog', Hmem', Hq', Hatt, Hce, Hlog, Hmem, Hq.
    rewrite length_app. cbn [List.length].
    repeat split; lia.
Qed.

Lemma failed_recovery_repeats_on_every_error_witness :
  exists s',
    handle_errors 4 [(dead_npu, -6); (dead_npu, -6); (dead_npu, -6); (dead_npu, -6);
                     (dead_npu, -6); (dead_npu, -6); (dead_npu, -6); (dead_npu, -6)]
                  (started arena 1) = Ok s' /\
    recovery_attempts s' = 3%nat /\
    consecutive_errors (ai_context s') = 8.
Proof.
  assert (Hfirst : exists s5,
            handle_errors 4 [(dead_npu, -6); (dead_npu, -6); (dead_npu, -6); (dead_npu, -6);
                             (dead_npu, -6)] (started arena 1) = Ok s5 /\
            recovery_attempts s5 = 0%nat /\ consecutive_errors (ai_context s5) = 5).
  { eexists. split; [vm_compute; reflexivity|]. split; reflexivity. }
  destruct Hfirst as (s5 & Hrun5 & Hatt5 & Hce5).
  destruct (failed_recovery_repeats_on_every_error 4
              [(dead_npu, -6); (dead_npu, -6); (dead_npu, -6)] s5)
    as (s' & Hrun & Hatt & Hce & _).
  - vm_compute. reflexivity.
  - lia.
  - rewrite Hce5. cbn. lia.
  - exists s'. split.
    + change [(dead_npu, -6); (dead_npu, -6); (dead_npu, -6); (dead_npu, -6);
              (dead_npu, -6); (dead_npu, -6); (dead_npu, -6); (dead_npu, -6)]
        with ([(dead_npu, -6); (dead_npu, -6); (dead_npu, -6); (dead_npu, -6);
               (dead_npu, -6)] ++ [(dead_npu, -6); (dead_npu, -6); (dead_npu, -6)]).
      revert Hrun5 Hrun. generalize (started arena 1).
      intros s0 Hrun5 Hrun. cbn [app handle_errors] in *.
      destruct (ai_handle_inference_error 4 dead_npu (-6) s0) as [r1| |]; cbn [bind] in *;
        try discriminate.
      destruct (ai_handle_inference_error 4 dead_npu (-6) (snd r1)) as [r2| |];
        cbn [bind] in *; try discriminate.
      destruct (ai_handle_inference_error 4 dead_npu (-6) (snd r2)) as [r3| |];
        cbn [bind] in *; try discriminate.
      destruct (ai_handle_inference_error 4 dead_npu (-6) (snd r3)) as [r4| |];
        cbn [bind] in *; try discriminate.
      destruct (ai_handle_inference_error 4 dead_npu (-6) (snd r4)) as [r5| |];
        cbn [bind] in *; try discriminate.
      inversion Hrun5; subst. exact Hrun.
    + rewrite Hatt, Hce, Hatt5, Hce5. split; reflexivity.
Defined.

(** ** One pass of the task loop *)

Lemma leb_excludes_ltb (a b : F32.float) : F32.leb a b = true -> F32.ltb b a = false.
Proof.
  intros Hle. destruct (F32.ltb b a) eqn:Hlt; [|reflexivity].
  apply ltb_excludes_leb in Hlt. congruence.
Qed.

Lemma accept_result_effects (r : ocr_result_t) (t : Z) (s : system) :
  audio_queue (accept_result r t s)
  = audio_queue s
    ++ (if F32.leb (confidence_threshold (config (ai_context s))) (confidence r)
        then [r] else []) /\
  error_log (accept_result r t s)
  = error_log s
    ++ (if t >? config_max_inference_time_us (config (ai_context s))
        then [mkLog ERROR_SEVERITY_WARNING TASK_ID_AI_TASK
                    (wrap32 AI_ERROR_INFERENCE_TIMEOUT) (wrap32 t)]
        else []) /\
  last_inference_time_us (stats (ai_context (accept_result r t s))) = t /\
  total_inferences (stats (ai_context (accept_result r t s)))
  = total_inferences (stats (ai_context s)) /\
  consecutive_errors (ai_context (accept_result r t s)) = consecutive_errors (ai_context s) /\
  recovery_attempts (accept_result r t s) = recovery_attempts s /\
  mem (accept_result r t s) = mem s.
Proof.
  destruct s as [h c q l n]. destruct c as [st cfg hd ml sts ec ce rn].
  unfold accept_result, ai_stats_update_quality, ai_stats_update_timing.
  cbn [set_stats config stats set_context ai_context confidence_threshold
       mem audio_queue error_log recovery_attempts].
  destruct (F32.leb (confidence_threshold cfg) (confidence r));
    cbn [audio_queue_ocr_result set_context bump_low_confidence set_stats ai_context
         stats config mem audio_queue error_log recovery_attempts];
    destruct (t >? config_max_inference_time_us cfg);
    cbn [system_log_error ai_context stats config mem audio_queue error_log
         recovery_attempts consecutive_errors last_inference_time_us total_inferences];
    rewrite ?app_nil_r; repeat split; reflexivity.
Qed.

(** X17. One pass of the task loop over a frame that gets through the
    pipeline: the result is handed to the audio task exactly when its
    confidence is at or above the configured threshold, and then once; a
    pass that took longer than the configured time still hands the
    result over and adds one warning to the error log; the time is
    recorded, the error counter and the recovery are left alone, the
    allocator's stack is as before, and the task is back in the ready
    state with a result reported ready. *)
Theorem processed_cycle_queues_at_threshold (fuel : nat) (e : cycle_env)
  (f : frame_buffer_t) (s : system) :
  camera_frame e = Some f ->
  frame_runs (npu e) f s ->
  strlen (join_fragments
            (map (fun fr => snd (fst fr))
                 (filter above_half (frame_fragments (npu e) s)))) <= 255 ->
  0 <= total_inferences (stats (ai_context s)) < 4294967295 ->
  exists res s2 s',
    ocr_process_frame fuel (npu e) (Some f) (stack_ocr_result e) s = Ok (0, res, s2) /\
    ai_task_cycle fuel e s = Ok s' /\
    audio_queue s'
    = audio_queue s
      ++ (if F32.leb (confidence_threshold (config (ai_context s))) (confidence res)
          then [res] else []) /\
    error_log s'
    = error_log s
      ++ (if wrap32 (inference_end_time e - inference_start_time e)
             >? config_max_inference_time_us (config (ai_context s))
          then [mkLog ERROR_SEVERITY_WARNING TASK_ID_AI_TASK
                      (wrap32 AI_ERROR_INFERENCE_TIMEOUT)
                      (wrap32 (wrap32 (inference_end_time e - inference_start_time e)))]
          else []) /\
    last_inference_time_us (stats (ai_context s'))
    = wrap32 (inference_end_time e - inference_start_time e) /\
    consecutive_errors (ai_context s') = consecutive_errors (ai_context s) /\
    recovery_attempts s' = recovery_attempts s /\
    same_stack (mem s) (mem s') /\
    ai_get_state (ai_context s') = AI_STATE_READY /\
    ai_is_result_ready (ai_context s') = true.
Proof.
  intros Hframe Hruns Hfit Htotal.
  pose proof (aggregate_accepted (frame_fragments (npu e) s)
                (mkAggregate EmptyString F32.zero 0) Hfit) as Hagg.
  match type of Hagg with _ = Ok ?x => set (acc := x) in Hagg end.
  destruct (ocr_process_frame_runs fuel (npu e) f (stack_ocr_result e) s acc Hruns Hagg)
    as (h0 & Hrun0 & _).
  set (s1 := set_context s (set_current_state (ai_context s) AI_STATE_INFERENCING)).
  destruct (ocr_process_frame_runs fuel (npu e) f (stack_ocr_result e) s1 acc Hruns Hagg)
    as (h' & Hrun & Hsame).
  set (res := postprocess (npu e) acc _) in *.
  set (s2 := set_context (set_mem s1 h') (count_inference (recognized_regions acc)
                                                          (ai_context s1))) in Hrun.
  assert (Hs2 : audio_queue s2 = audio_queue s /\ error_log s2 = error_log s /\
                config (ai_context s2) = config (ai_context s) /\
                total_inferences (stats (ai_context s2))
                = wrap32 (total_inferences (stats (ai_context s)) + 1) /\
                consecutive_errors (ai_context s2) = consecutive_errors (ai_context s) /\
                recovery_attempts s2 = recovery_attempts s /\ mem s2 = h').
  { repeat split; reflexivity. }
  destruct Hs2 as (Hq & Hl & Hcfg & Htot & Hce & Hra & Hmem).
  clearbody s2.
  exists res. eexists. eexists. split; [exact Hrun0|].
  destruct Hruns as (Hready & _).
  unfold ai_task_cycle. rewrite Hframe.
  destruct (Z.eqb_spec (ready f) 0) as [?|_]; [contradiction|].
  fold s1. rewrite Hrun. cbn [bind Z.eqb].
  split; [reflexivity|].
  set (t := wrap32 (inference_end_time e - inference_start_time e)).
  destruct (accept_result_effects res t s2) as (Aq & Al & At & Atot & Ace & Ara & Amem).
  cbn [set_context set_current_state ai_context audio_queue error_log recovery_attempts
       mem stats consecutive_errors ai_get_state ai_is_result_ready current_state].
  rewrite Aq, Al, At, Atot, Ace, Ara, Amem, Hq, Hl, Hcfg, Htot, Hce, Hra, Hmem.
  repeat split; try reflexivity; try apply Hsame.
  rewrite wrap32_small by lia. apply Z.gtb_lt. lia.
Qed.

Lemma processed_cycle_queues_at_threshold_witness :
  exists s',
    ai_task_cycle 4 (cycle_with (reads_with (F32.percent 95))) (started arena 1) = Ok s' /\
    List.length (audio_queue s') = 1%nat /\ error_log s' = [].
Proof.
  destruct (processed_cycle_queues_at_threshold 4 (cycle_with (reads_with (F32.percent 95)))
              gray_frame (started arena 1))
    as (res & s2 & s' & Hrun0 & Hrun & Hqueue & Hlog & _).
  - reflexivity.
  - unfold frame_runs. repeat split; try (vm_compute; congruence).
  - vm_compute. discriminate.
  - vm_compute. split; congruence.
  - exists s'. split; [exact Hrun|].
    assert (Hconf : confidence res = F32.percent 95).
    { pose proof (ocr_process_frame_runs 4 (reads_with (F32.percent 95)) gray_frame
                    blank_result (started arena 1)
                    (mkAggregate "Sample Text"%string (F32.percent 95) 1)) as Hr.
      destruct Hr as (h' & Hr & _).
      - unfold frame_runs. repeat split; try (vm_compute; congruence).
      - vm_compute. reflexivity.
      - change (stack_ocr_result (cycle_with (reads_with (F32.percent 95))))
          with blank_result in Hrun0.
        change (npu (cycle_with (reads_with (F32.percent 95))))
          with (reads_with (F32.percent 95)) in Hrun0.
        rewrite Hr in Hrun0. inversion Hrun0. vm_compute. reflexivity. }
    rewrite Hqueue, Hlog, Hconf. vm_compute. split; reflexivity.
Defined.

(** X18. One pass of the task loop over a frame that the pipeline gives
    up on (no room in the pool, or a failed detection run), while the
    error counter is below the recovery threshold: the error is counted
    in [consecutive_errors] and in [failed_inferences] but not in
    [total_inferences], its code is stored and logged once, nothing is
    handed to the audio task, no recovery is attempted and the
    allocator's stack is as before. *)
Theorem failed_cycle_counts_error_not_inference (fuel : nat) (e : cycle_env)
  (f : frame_buffer_t) (s : system) :
  camera_frame e = Some f ->
  ready f <> 0 -> CAMERA_WIDTH * CAMERA_HEIGHT * 2 <= size f ->
  pool_ok (mem s) = true ->
  has_room (mem s) (OCR_INPUT_WIDTH * OCR_INPUT_HEIGHT * 2)
  && has_room (pushed (mem s) (tick_preprocessed (npu e))
                      (OCR_INPUT_WIDTH * OCR_INPUT_HEIGHT * 2)) 1024
  && (detection_status (npu e) =? NEURAL_ART_SUCCESS) = false ->
  0 <= consecutive_errors (ai_context s) < 5 ->
  exists code s',
    ai_task_cycle fuel e s = Ok s' /\
    (code = AI_ERROR_MEMORY_ALLOC_FAILED \/ code = AI_ERROR_NPU_ERROR) /\
    consecutive_errors (ai_context s') = consecutive_errors (ai_context s) + 1 /\
    error_code (ai_context s') = wrap32 code /\
    failed_inferences (stats (ai_context s'))
    = wrap32 (failed_inferences (stats (ai_context s)) + 1) /\
    total_inferences (stats (ai_context s')) = total_inferences (stats (ai_context s)) /\
    successful_inferences (stats (ai_context s'))
    = successful_inferences (stats (ai_context s)) /\
    error_log s'
    = error_log s ++ [mkLog ERROR_SEVERITY_ERROR TASK_ID_AI_TASK (wrap32 (wrap32 code))
                            (consecutive_errors (ai_context s) + 1)] /\
    audio_queue s' = audio_queue s /\
    recovery_attempts s' = recovery_attempts s /\
    same_stack (mem s) (mem s') /\
    ai_get_state (ai_context s') = AI_STATE_READY.
Proof.
  intros Hframe Hready Hsize Hok Hfails Hcount.
  set (s1 := set_context s (set_current_state (ai_context s) AI_STATE_INFERENCING)).
  destruct (failed_frame_releases_buffers_aux fuel (npu e) f (stack_ocr_result e) s1
              Hready Hsize Hok Hfails) as (h' & Hrun & Hsame).
  match type of Hrun with _ = Ok (?c, _, _) => set (code := c) in Hrun end.
  assert (Hcode : code = AI_ERROR_MEMORY_ALLOC_FAILED \/ code = AI_ERROR_NPU_ERROR).
  { unfold code. match goal with |- context [if ?b then _ else _] => destruct b end;
      [right|left]; reflexivity. }
  exists code. eexists.
  unfold ai_task_cycle. rewrite Hframe.
  destruct (Z.eqb_spec (ready f) 0) as [?|_]; [contradiction|].
  fold s1. rewrite Hrun. cbn [bind].
  assert (Hnz : (code =? 0) = false).
  { destruct Hcode as [-> | ->]; reflexivity. }
  rewrite Hnz.
  unfold ai_handle_inference_error, system_log_error.
  cbn [set_errors consecutive_errors set_context set_mem ai_context s1 set_current_state].
  rewrite !(wrap32_small (consecutive_errors (ai_context s) + 1)) by lia.
  destruct (Z.gtb_spec (consecutive_errors (ai_context s) + 1) 5) as [?|_]; [lia|].
  cbn [bind snd]. split; [reflexivity|]. split; [exact Hcode|].
  cbn. repeat split; try reflexivity; apply Hsame.
Qed.

Lemma failed_cycle_counts_error_not_inference_witness :
  exists s',
    ai_task_cycle 4 faulty_cycle (started arena 1) = Ok s' /\
    consecutive_errors (ai_context s') = 1 /\
    failed_inferences (stats (ai_context s')) = 1 /\
    total_inferences (stats (ai_context s')) = 0.
Proof.
  destruct (failed_cycle_counts_error_not_inference 4 faulty_cycle gray_frame
              (started arena 1))
    as (code & s' & Hrun & _ & Hce & _ & Hfailed & Htotal & _).
  - reflexivity.
  - vm_compute. discriminate.
  - vm_compute. discriminate.
  - vm_compute. reflexivity.
  - vm_compute. reflexivity.
  - vm_compute. split; congruence.
  - exists s'. split; [exact Hrun|].
    rewrite Hce, Hfailed, Htotal. vm_compute. repeat split; reflexivity.
Defined.

(** ** Statistics *)

Lemma last_of_nonempty (l : list Z) :
  forall a d d', last (a :: l) d = last (a :: l) d'.
Proof.
  induction l as [|b l IH]; intros a d d'; [reflexivity|].
  change (last (a :: b :: l) d) with (last (b :: l) d).
  change (last (a :: b :: l) d') with (last (b :: l) d').
  apply IH.
Qed.

Lemma report_times_extremes (times : list Z) :
  forall c,
    let st := stats c in
    let st' := stats (report_times times c) in
    (min_inference_time_us st' = min_inference_time_us st \/
     In (min_inference_time_us st') times) /\
    min_inference_time_us st' <= min_inference_time_us st /\
    (max_inference_time_us st' = max_inference_time_us st \/
     In (max_inference_time_us st') times) /\
    max_inference_time_us st <= max_inference_time_us st' /\
    (forall t, In t times ->
               min_inference_time_us st' <= t <= max_inference_time_us st') /\
    last_inference_time_us st' = last times (last_inference_time_us st) /\
    successful_inferences st' = successful_inferences st.
Proof.
  induction times as [|t rest IH]; intros c; cbn zeta.
  - cbn [report_times fold_left last In]. repeat split; try (left; reflexivity); try lia.
  - change (report_times (t :: rest) c)
      with (report_times rest (ai_stats_update_timing t c)).
    specialize (IH (ai_stats_update_timing t c)). cbn zeta in IH.
    destruct IH as (Hmin & Hmin' & Hmax & Hmax' & Hall & Hlast & Hn).
    set (st' := stats (report_times rest (ai_stats_update_timing t c))) in *.
    unfold ai_stats_update_timing in Hmin, Hmin', Hmax, Hmax', Hlast, Hn.
    cbn [set_stats stats min_inference_time_us max_inference_time_us
         last_inference_time_us successful_inferences] in Hmin, Hmin', Hmax, Hmax', Hlast, Hn.
    destruct (Z.ltb_spec t (min_inference_time_us (stats c))) as [Hlt|Hge];
      destruct (Z.gtb_spec t (max_inference_time_us (stats c))) as [Hgt|Hle].
    all: split; [destruct Hmin as [->|Hin]; [first [left; reflexivity|right; left; reflexivity]
                                            |right; right; exact Hin]|].
    all: split; [lia|].
    all: split; [destruct Hmax as [->|Hin]; [first [left; reflexivity|right; left; reflexivity]
                                            |right; right; exact Hin]|].
    all: split; [lia|].
    all: split; [intros u [<-|Hu]; [lia|apply Hall; exact Hu]|].
    all: split; [|exact Hn].
    all: rewrite Hlast; destruct rest as [|z rest]; [reflexivity|];
      change (last (t :: z :: rest) (last_inference_time_us (stats c)))
        with (last (z :: rest) (last_inference_time_us (stats c)));
      apply last_of_nonempty.
Qed.

(** X19. After [ai_stats_reset], once the times of one or more inferences
    have been reported, [min_inference_time_us] and
    [max_inference_time_us] are the smallest and the largest of the
    reported times and [last_inference_time_us] is the last one. *)
Theorem timing_extremes_track_reported_times (times : list Z) (c : ai_task_context_t) :
  times <> [] ->
  forallb (fun t => (0 <=? t) && (t <=? UINT32_MAX)) times = true ->
  In (min_inference_time_us (stats (report_times times (ai_stats_reset c)))) times /\
  In (max_inference_time_us (stats (report_times times (ai_stats_reset c)))) times /\
  (forall t, In t times ->
     min_inference_time_us (stats (report_times times (ai_stats_reset c))) <= t
     <= max_inference_time_us (stats (report_times times (ai_stats_reset c)))) /\
  last_inference_time_us (stats (report_times times (ai_stats_reset c))) = last times 0.
Proof.
  intros Hne Hrange.
  destruct (report_times_extremes times (ai_stats_reset c))
    as (Hmin & _ & Hmax & _ & Hall & Hlast & _).
  cbn [ai_stats_reset set_stats stats min_inference_time_us max_inference_time_us
       last_inference_time_us] in Hmin, Hmax, Hlast.
  destruct times as [|t0 rest]; [contradiction|].
  assert (Ht0 : In t0 (t0 :: rest)) by (left; reflexivity).
  pose proof (Hall t0 Ht0) as Hbetween.
  rewrite forallb_forall in Hrange.
  assert (Hin : forall u, In u (t0 :: rest) -> 0 <= u <= UINT32_MAX).
  { intros u Hu. specialize (Hrange u Hu). apply andb_prop in Hrange.
    rewrite !Z.leb_le in Hrange. exact Hrange. }
  split; [|split; [|split; [exact Hall|exact Hlast]]].
  - destruct Hmin as [Heq|Hin']; [|exact Hin'].
    pose proof (Hin t0 Ht0). rewrite Heq in Hbetween |- *.
    replace UINT32_MAX with t0 by lia. exact Ht0.
  - destruct Hmax as [Heq|Hin']; [|exact Hin'].
    pose proof (Hin t0 Ht0). rewrite Heq in Hbetween |- *.
    replace 0 with t0 by lia. exact Ht0.
Qed.

Lemma timing_extremes_track_reported_times_witness :
  min_inference_time_us
    (stats (report_times [7000; 5000; 9000; 6000] (ai_context (started arena 1)))) = 5000 /\
  max_inference_time_us
    (stats (report_times [7000; 5000; 9000; 6000] (ai_context (started arena 1)))) = 9000.
Proof.
  destruct (timing_extremes_track_reported_times [7000; 5000; 9000; 6000]
              (ai_context (started arena 1))) as (_ & _ & Hall & _).
  - discriminate.
  - vm_compute. reflexivity.
  - vm_compute. split; reflexivity.
Defined.

(** X20. While the 32-bit sum does not overflow, the running average of
    [ai_stats_update_timing] moves from the previous average towards the
    reported time and never past either: it stays between the smaller
    and the larger of the two.  With no successful inference counted the
    average is the reported time itself. *)
Theorem timing_average_stays_between (t : Z) (c : ai_task_context_t) :
  0 <= t -> 0 <= avg_inference_time_us (stats c) ->
  0 <= successful_inferences (stats c) < 4294967296 ->
  avg_inference_time_us (stats c) * (successful_inferences (stats c) - 1) + t < 4294967296 ->
  Z.min (avg_inference_time_us (stats c)) t
  <= avg_inference_time_us (stats (ai_stats_update_timing t c))
  <= Z.max (avg_inference_time_us (stats c)) t /\
  (successful_inferences (stats c) = 0 ->
   avg_inference_time_us (stats (ai_stats_update_timing t c)) = t).
Proof.
  intros Ht Havg Hn Hsum.
  unfold ai_stats_update_timing.
  cbn [set_stats stats avg_inference_time_us].
  set (avg := avg_inference_time_us (stats c)) in *.
  set (n := successful_inferences (stats c)) in *.
  destruct (Z.gtb_spec n 0) as [Hpos|Hzero].
  - split; [|lia].
    rewrite (wrap32_small (n - 1)) by lia.
    assert (Hprod : 0 <= avg * (n - 1)) by nia.
    rewrite (wrap32_small (avg * (n - 1))) by lia.
    rewrite (wrap32_small (avg * (n - 1) + t)) by lia.
    split.
    + apply Z.div_le_lower_bound; [lia|]. nia.
    + apply Z.div_le_upper_bound; [lia|]. nia.
  - split; [lia|]. intros _. reflexivity.
Qed.

Lemma timing_average_stays_between_witness :
  5000 <= avg_inference_time_us
            (stats (ai_stats_update_timing 8000
                      (count_inference 1 (report_times [5000]
                                            (count_inference 1
                                               (ai_context (started arena 1)))))))
       <= 8000.
Proof.
  pose proof (timing_average_stays_between 8000
                (count_inference 1 (report_times [5000]
                                      (count_inference 1 (ai_context (started arena 1))))))
    as H.
  destruct H as (H & _).
  - lia.
  - vm_compute. discriminate.
  - vm_compute. split; congruence.
  - vm_compute. reflexivity.
  - exact H.
Defined.

(** X21. The utilisation figure of [neural_art_get_utilization] is always
    between 50 and 99; while ten times the number of successful
    inferences fits 32 bits it depends on the last decimal digit of that
    number only: 75 when the digit is below 5, ten times the digit
    otherwise. *)
Theorem utilization_follows_last_digit (c : ai_task_context_t) :
  0 <= successful_inferences (stats c) ->
  50 <= neural_art_get_utilization c <= 99 /\
  (successful_inferences (stats c) * 10 < 4294967296 ->
   neural_art_get_utilization c
   = if successful_inferences (stats c) mod 10 <? 5 then 75
     else 10 * (successful_inferences (stats c) mod 10)).
Proof.
  intros Hn. unfold neural_art_get_utilization.
  set (n := successful_inferences (stats c)) in *.
  split.
  - pose proof (Z.mod_pos_bound (wrap32 (n * 10)) 100 ltac:(lia)).
    destruct (Z.ltb_spec (wrap32 (n * 10) mod 100) 50); lia.
  - intros Hfit. rewrite (wrap32_small (n * 10)) by lia.
    assert (Hdigit : (n * 10) mod 100 = 10 * (n mod 10)).
    { Z.div_mod_to_equations. lia. }
    rewrite Hdigit.
    destruct (Z.ltb_spec (10 * (n mod 10)) 50); destruct (Z.ltb_spec (n mod 10) 5);
      try lia; reflexivity.
Qed.

Lemma utilization_follows_last_digit_witness :
  neural_art_get_utilization (count_inference 1 (ai_context (started arena 1))) = 75.
Proof.
  destruct (utilization_follows_last_digit
              (count_inference 1 (ai_context (started arena 1)))) as (_ & H).
  - vm_compute. discriminate.
  - rewrite H; vm_compute; reflexivity.
Defined.
